(** * ASL translation and training server: session/model lifecycle and dispatch

    A shallow embedding of the Python server kept under
    [Android Python Server/]: the default model ([ASLModel]), the training
    collector ([EnhancedTrainingCollector]), the practice-mode manager
    ([IsolatedLevelModelManager], level_model_manager.py) and the HTTP and
    WebSocket handlers of main.py that tie them together.

    Conventions of the embedding.
    - Python floats are IEEE binary64 numbers: primitive floats.
    - A Python [str] is its UTF-8 encoding, one [ascii] per byte.
    - A field of a JSON request body is a [value]: the handlers do not
      validate what they pass on.
    - A file is known by the path the program writes, taken from the
      working directory; the disk is a finite map from such paths to what
      lies there.
    - A Python dictionary keyed by strings is a [gmap string _]; the loops of
      the source that matter iterate over lists, never over dictionaries.
    - An exception is a value of [exn]; code that may raise returns an
      [outcome]; code that also mutates [self] lives in the monad [M].  The
      state reached when an exception is raised is kept, as in Python.
    - Trained models, the vision pipeline and the estimators are external
      collaborators: they are taken as functions, and may raise.
    - Log lines are not modelled. *)

From Stdlib Require Import PrimFloat Ascii String.
From stdpp Require Import gmap strings list.

Set Warnings "-inexact-float".
Local Open Scope string_scope.
Local Open Scope list_scope.
Local Open Scope nat_scope.

(** ** Exceptions and the state-and-exception monad *)

Inductive exn : Type :=
  | ValueError
  | KeyError
  | IndexError
  | TypeError
  | AttributeError
  | OSError
  | FileExistsError
  | NotADirectoryError
  | OtherError.

Inductive outcome (A : Type) : Type :=
  | Return (a : A)
  | Raise (e : exn).
Arguments Return {A} a.
Arguments Raise {A} e.

(** A computation over a mutable object of type [S]. *)
Definition M (S A : Type) : Type := S → outcome A * S.

Definition ret {S A} (a : A) : M S A := λ s, (Return a, s).
Definition raise {S A} (e : exn) : M S A := λ s, (Raise e, s).
Definition bind {S A B} (m : M S A) (k : A → M S B) : M S B :=
  λ s, match m s with
       | (Return a, s') => k a s'
       | (Raise e, s') => (Raise e, s')
       end.
Definition get {S} : M S S := λ s, (Return s, s).
Definition modify {S} (f : S → S) : M S unit := λ s, (Return tt, f s).
Definition lift {S A} (o : outcome A) : M S A := λ s, (o, s).

(** [try: m except Exception: h]. *)
Definition try_except {S A} (m : M S A) (h : exn → M S A) : M S A :=
  λ s, match m s with
       | (Return a, s') => (Return a, s')
       | (Raise e, s') => h e s'
       end.

(** [try: m except ValueError: h]; any other exception goes on. *)
Definition try_except_ValueError {S A} (m h : M S A) : M S A :=
  λ s, match m s with
       | (Raise ValueError, s') => h s'
       | r => r
       end.

Declare Scope py_scope.
Delimit Scope py_scope with py.
Notation "x <- m ;; k" := (bind m (λ x, k))
  (at level 100, m at next level, right associativity) : py_scope.

(** The pure counterpart of [bind], for code that does not touch [self]. *)
Definition obind {A B} (o : outcome A) (k : A → outcome B) : outcome B :=
  match o with
  | Return a => k a
  | Raise e => Raise e
  end.

(** [m] relates every state it starts from to the state it ends in, whether
    it returns or raises. *)
Definition preserves {S A} (R : relation S) (m : M S A) : Prop :=
  ∀ s, R s (m s).2.

(** ** Python primitives *)

(** Truth value of an optional string: [None] and the empty string are falsy. *)
Definition truthy (o : option string) : bool :=
  match o with
  | Some s => negb (bool_decide (s = EmptyString))
  | None => false
  end.

(** [d.get(k, [])]. *)
Definition get_or_empty {A} (d : gmap string (list A)) (k : string) : list A :=
  default [] (d !! k).

(** [d[k].append(x)]: a missing key raises [KeyError] and changes nothing. *)
Definition dict_append {A} (d : gmap string (list A)) (k : string) (x : A)
  : outcome (gmap string (list A)) :=
  match d !! k with
  | Some l => Return (<[k := l ++ [x]]> d)
  | None => Raise KeyError
  end.

(** [x in l] for a list of strings. *)
Definition contains (l : list string) (x : string) : bool :=
  bool_decide (x ∈ l).

(** [l.index(x)]: the first position of [x], [ValueError] when absent. *)
Fixpoint index_from (n : nat) (l : list string) (x : string) : outcome nat :=
  match l with
  | [] => Raise ValueError
  | y :: l' => if bool_decide (y = x) then Return n else index_from (S n) l' x
  end.
Definition list_index (l : list string) (x : string) : outcome nat :=
  index_from 0 l x.

(** [l[i]] for a natural index: [IndexError] past the end. *)
Definition list_get {A} (l : list A) (i : nat) : outcome A :=
  match l !! i with
  | Some x => Return x
  | None => Raise IndexError
  end.

(** The string made of the bytes [l]. *)
Definition bytes (l : list nat) : string :=
  foldr (λ n s, String (ascii_of_nat n) s) EmptyString l.

(** The characters that [str.strip()] removes, those for which
    [str.isspace] holds, in UTF-8: U+0009 to U+000D, U+001C to U+0020,
    U+0085, U+00A0, U+1680, U+2000 to U+200A, U+2028, U+2029, U+202F,
    U+205F and U+3000. *)
Definition whitespace : list string :=
  map bytes
    ([[9]; [10]; [11]; [12]; [13]; [28]; [29]; [30]; [31]; [32];
      [194; 133]; [194; 160]; [225; 154; 128]]
     ++ map (λ last, [226; 128; last])
          [128; 129; 130; 131; 132; 133; 134; 135; 136; 137; 138; 168; 169; 175]
     ++ [[226; 129; 159]; [227; 128; 128]]).

(** [s] without its prefix [p], when it starts with it. *)
Fixpoint strip_prefix (p s : string) : option string :=
  match p, s with
  | EmptyString, _ => Some s
  | String a p', String b s' =>
      if bool_decide (a = b) then strip_prefix p' s' else None
  | String _ _, EmptyString => None
  end.

(** [s] without its first character, when that is one of [spaces]. *)
Definition drop_space (spaces : list string) (s : string) : option string :=
  foldr (λ w rest, match strip_prefix w s with
                   | Some s' => Some s'
                   | None => rest
                   end) None spaces.

(** Dropping leading characters of [spaces]; [fuel] bounds their number. *)
Fixpoint lstrip_with (spaces : list string) (fuel : nat) (s : string) : string :=
  match fuel with
  | O => s
  | S fuel' => match drop_space spaces s with
               | Some s' => lstrip_with spaces fuel' s'
               | None => s
               end
  end.

Definition lstrip (s : string) : string :=
  lstrip_with whitespace (String.length s) s.
(** From the right, the encodings are met last byte first. *)
Definition rstrip (s : string) : string :=
  String.rev (lstrip_with (map String.rev whitespace) (String.length s)
                (String.rev s)).
(** [s.strip()]. *)
Definition strip (s : string) : string := rstrip (lstrip s).

(** ["," in s]. *)
Fixpoint has_comma (s : string) : bool :=
  match s with
  | EmptyString => false
  | String a s' => if bool_decide (a = ","%char) then true else has_comma s'
  end.
Fixpoint until_comma (s : string) : string :=
  match s with
  | EmptyString => EmptyString
  | String a s' => if bool_decide (a = ","%char) then EmptyString
                   else String a (until_comma s')
  end.
Fixpoint after_comma (s : string) : string :=
  match s with
  | EmptyString => EmptyString
  | String a s' => if bool_decide (a = ","%char) then s' else after_comma s'
  end.
(** [s.split(",")[1]], used only when [s] holds a comma. *)
Definition split_comma_1 (s : string) : string := until_comma (after_comma s).

(** ** Values of a JSON request *)

(** What [await request.json()] yields for a field: [None], a [bool], an
    [int], a [float], a [str], a [list] or a [dict].  A string is read as
    a value where one is expected. *)
#[local] Unset Elimination Schemes.
Inductive value : Type :=
  | PyNone
  | PyBool (b : bool)
  | PyInt (n : Z)
  | PyFloat (x : float)
  | PyStr (s : string)
  | PyList (items : list value)
  | PyDict (fields : list (string * value)).
#[local] Set Elimination Schemes.
Coercion PyStr : string >-> value.

(** [x.strip()]: a method of [str] alone. *)
Definition py_strip (x : value) : outcome string :=
  match x with
  | PyStr s => Return (strip s)
  | _ => Raise AttributeError
  end.

(** [len(d.get(k, []))] for a dictionary keyed by strings: a key that is
    not a string is not found, a key that cannot be hashed (a [list] or a
    [dict]) raises [TypeError]. *)
Definition get_len {A} (d : gmap string (list A)) (k : value) : outcome nat :=
  match k with
  | PyStr s => Return (length (get_or_empty d s))
  | PyList _ | PyDict _ => Raise TypeError
  | _ => Return 0
  end.

(** Whether [hash(x)] succeeds: a [list] and a [dict] cannot be hashed. *)
Definition hashable (x : value) : bool :=
  match x with
  | PyList _ | PyDict _ => false
  | _ => true
  end.

(** [max(a, b)] on floats: [b] only when it is strictly greater. *)
Definition py_max (a b : float) : float := if (a <? b)%float then b else a.

(** [os.path.join(a, b)] on POSIX: an absolute [b] discards [a]. *)
Definition path_join (a b : string) : string :=
  match b with
  | String "/"%char _ => b
  | _ => if bool_decide (a = EmptyString) then b
         else match String.rev a with
              | String "/"%char _ => a +:+ b
              | _ => a +:+ "/" +:+ b
              end
  end.

(** ** Data: feature vectors, trained models, artifacts on disk *)

(** A feature vector: 21 landmarks times 3 coordinates when it comes from
    the extractor. *)
Definition features : Type := list float.

(** What the server reads off a neural network for one vector:
    [float(np.max(predictions))] and [int(np.argmax(predictions))]. *)
Record tf_output : Type := {
  tf_confidence : float;
  tf_predicted_class : nat
}.
(** A loaded Keras model, seen through [model.predict] on the reshaped
    vector; it raises when the vector does not fit its input layer. *)
Definition tf_model : Type := features → outcome tf_output.

(** What the server reads off a random forest: [predict(x)[0]], one of the
    class indices it was fitted on, and [np.max(predict_proba(x)[0])]. *)
Record rf_output : Type := {
  rf_prediction : nat;
  rf_confidence : float
}.
Definition rf_model : Type := features → outcome rf_output.

(** training_metadata.json.  A file written by another tool may lack the
    [gestures] key, hence the option. *)
Record metadata : Type := {
  meta_lesson_id : option string;
  meta_created_at : float;
  meta_accuracy : float;
  meta_samples_count : nat;
  meta_gestures : option (list string);
  meta_num_classes : nat;
  meta_admin_session : option string
}.

(** One entry of the file system.  A SavedModel bundle is a directory for
    [os.path.isdir] and is removed as a whole. *)
Inductive node : Type :=
  | Dir
  | PickleFile (m : rf_model)
  | SavedModel (m : tf_model)
  | JsonFile (j : metadata)
  | Garbage.

(** The disk: paths, relative to the directory the server runs in. *)
Abbreviation fsys := (gmap string node).

Module Fs.

Definition exists_ (fs : fsys) (p : string) : bool :=
  bool_decide (is_Some (fs !! p)).

Definition isdir (fs : fsys) (p : string) : bool :=
  match fs !! p with
  | Some Dir | Some (SavedModel _) => true
  | _ => false
  end.

(** Whether [acc] names no directory of its own: it is empty or ends in
    a slash. *)
Definition no_component (acc : string) : bool :=
  match String.rev acc with
  | EmptyString | String "/"%char _ => true
  | _ => false
  end.

(** The directories above the path [acc ++ p], from those that end in
    [p]: for [a/b/c] they are [a] and [a/b]. *)
Fixpoint parents_from (acc p : string) : list string :=
  match p with
  | EmptyString => []
  | String c p' =>
      if bool_decide (c = "/"%char)
      then (if no_component acc then [] else [acc])
           ++ parents_from (acc +:+ "/") p'
      else parents_from (acc +:+ String c EmptyString) p'
  end.
Definition parents (p : string) : list string := parents_from EmptyString p.

(** One level of [os.makedirs]: a missing directory is created, a
    directory is left alone, anything else in the way raises. *)
Definition ensure_dir (e : exn) (p : string) : M fsys unit :=
  λ fs, match fs !! p with
        | None => (Return tt, <[p := Dir]> fs)
        | Some Dir | Some (SavedModel _) => (Return tt, fs)
        | Some _ => (Raise e, fs)
        end.

(** [os.makedirs(p, exist_ok=True)]: the missing directories above [p]
    are created first; what was created stays when a later level raises. *)
Definition makedirs (p : string) : M fsys unit :=
  foldr (λ d rest, bind (ensure_dir NotADirectoryError d) (λ _, rest))
        (ensure_dir FileExistsError p) (parents p).

(** Nothing but directories stands at [p] and above it. *)
Definition free_for_dir (fs : fsys) (p : string) : Prop :=
  Forall (λ q, fs !! q = None ∨ isdir fs q = true) (parents p ++ [p]).

(** [os.remove(p)]. *)
Definition remove (p : string) : M fsys unit :=
  λ fs, (Return tt, delete p fs).

(** Whether [p] lies below the directory [d]. *)
Definition below (d p : string) : bool := String.prefix (d +:+ "/") p.

(** [shutil.rmtree(d)]: the directory goes with everything below it. *)
Definition rmtree (d : string) : M fsys unit :=
  λ fs, (Return tt,
         filter (λ entry, entry.1 ≠ d ∧ below d entry.1 = false) fs).

(** [tf.keras.models.load_model(p)]. *)
Definition keras_load_model (fs : fsys) (p : string) : outcome tf_model :=
  match fs !! p with
  | Some (SavedModel m) => Return m
  | _ => Raise OSError
  end.

(** [pickle.load(open(p, 'rb'))]. *)
Definition pickle_load (fs : fsys) (p : string) : outcome rf_model :=
  match fs !! p with
  | Some (PickleFile m) => Return m
  | _ => Raise OtherError
  end.

(** [json.load(open(p, 'r'))]. *)
Definition json_load (fs : fsys) (p : string) : outcome metadata :=
  match fs !! p with
  | Some (JsonFile j) => Return j
  | _ => Raise ValueError
  end.

End Fs.

(** ** Vocabularies (main.py) *)

Definition ORIGINAL_LABELS : list string :=
  ["Yes"; "No"; "I Love You"; "Hello"; "Thank You"].

Definition LESSON_GESTURES : gmap string (list string) :=
  list_to_map
    [("lesson_1", ["Hello"; "Thank You"; "Yes"; "No"]);
     ("lesson_2", ["Happy"; "Sad"; "Angry"; "Love"]);
     ("lesson_3", ["Eat"; "Drink"; "Sleep"; "Go"]);
     ("lesson_4", ["Book"; "Phone"; "Car"; "Home"]);
     ("lesson_5", ["What"; "Where"; "When"; "Who"])].

(** ** The default model: class ASLModel (main.py) *)

Module ASLModel.

Record t : Type := {
  model : option tf_model;
  model_loaded : bool
}.

(** Where [load_model] looks:
    [os.path.join(os.path.dirname(__file__), 'models', 'asl_model_tf')].
    [here] is the directory of main.py as a path from the working
    directory: it is empty when the server is started where main.py lies,
    and only then is this the path [models/asl_model_tf] that training
    writes to. *)
Definition model_path (here : string) : string :=
  path_join (path_join here "models") "asl_model_tf".

(** [load_model]: a missing bundle leaves both attributes as they were; a
    failing load only resets the flag. *)
Definition load_model (here : string) (fs : fsys) (self : t) : t :=
  if Fs.exists_ fs (model_path here) then
    match Fs.keras_load_model fs (model_path here) with
    | Return m => {| model := Some m; model_loaded := true |}
    | Raise _ => {| model := model self; model_loaded := false |}
    end
  else self.

(** [__init__]. *)
Definition init (here : string) (fs : fsys) : t :=
  load_model here fs {| model := None; model_loaded := false |}.

(** [features.reshape(21, 3)]: rows of three, [ValueError] unless the
    vector has 63 components. *)
Fixpoint rows3 (a : features) (n : nat) : list (list float) :=
  match n with
  | O => []
  | S n' => take 3 a :: rows3 (drop 3 a) n'
  end.
Definition reshape_21_3 (a : features) : outcome (list (list float)) :=
  if bool_decide (length a = 63) then Return (rows3 a 21) else Raise ValueError.

(** [landmarks[i][1]]. *)
Definition y_of (landmarks : list (list float)) (i : nat) : outcome float :=
  obind (list_get landmarks i) (λ row, list_get row 1).

(** [tip[1] < landmarks[joint][1]]. *)
Definition finger_up (landmarks : list (list float)) (tip joint : nat)
  : outcome bool :=
  obind (y_of landmarks tip) (λ ty,
  obind (y_of landmarks joint) (λ jy, Return (ty <? jy)%float)).

(** [sum(fingers_up)]. *)
Definition count_true (l : list bool) : nat := length (filter (λ b, b = true) l).

Definition rule_based_prediction (a : features) : outcome (string * float) :=
  obind (reshape_21_3 a) (λ landmarks,
  obind (finger_up landmarks 4 3) (λ thumb,
  obind (finger_up landmarks 8 6) (λ index,
  obind (finger_up landmarks 12 10) (λ middle,
  obind (finger_up landmarks 16 14) (λ ring,
  obind (finger_up landmarks 20 18) (λ pinky,
    let fingers_up_count := count_true [thumb; index; middle; ring; pinky] in
    if bool_decide (fingers_up_count = 5) then Return ("Hello", 0.8%float)
    else if bool_decide (fingers_up_count = 2) && index && pinky
      then Return ("I Love You", 0.8%float)
    else if bool_decide (fingers_up_count = 1) && thumb
      then Return ("Yes", 0.7%float)
    else if bool_decide (fingers_up_count = 2) && index && middle
      then Return ("No", 0.7%float)
    else if bool_decide (fingers_up_count = 0)
      then Return ("Thank You", 0.6%float)
    else Return ("Unknown", 0.3%float))))))).

(** The flat positions of the ten y-coordinates that the heuristic compares:
    tips 4, 8, 12, 16, 20 and joints 3, 6, 10, 14, 18, each at [3 * i + 1]. *)
Definition read_positions : list nat := [10; 13; 19; 25; 31; 37; 43; 49; 55; 61].

(** [ORIGINAL_LABELS[c] if c < len(ORIGINAL_LABELS) else "Unknown"]. *)
Definition label_of (predicted_class : nat) : outcome string :=
  if bool_decide (predicted_class < length ORIGINAL_LABELS)
  then list_get ORIGINAL_LABELS predicted_class
  else Return "Unknown".

(** [predict]: the network when one is loaded, the rule-based heuristic
    when it is not or when the network raises. *)
Definition predict (self : t) (a : features) : outcome (string * float) :=
  match model self with
  | Some net =>
      if model_loaded self then
        match obind (net a) (λ out,
              obind (label_of (tf_predicted_class out)) (λ gesture,
                Return (gesture, tf_confidence out))) with
        | Return r => Return r
        | Raise _ => rule_based_prediction a
        end
      else rule_based_prediction a
  | None => rule_based_prediction a
  end.

End ASLModel.

(** ** External collaborators of the training path *)

(** The vision front end: [decode_image] stands for [base64.b64decode],
    [np.frombuffer] and [cv2.imdecode] (it raises on malformed base64 and
    yields [None] for bytes that are no image); [extract_hand_landmarks]
    returns the feature vector and the detection flag. *)
Record vision : Type := {
  image : Type;
  decode_image : string → outcome (option image);
  extract_hand_landmarks : image → option features * bool
}.

(** The four arrays returned by [train_test_split]. *)
Record split : Type := {
  X_train : list features;
  X_test : list features;
  y_train : list nat;
  y_test : list nat
}.

(** scikit-learn, Keras and the disk as [run_training] uses them.
    [train_test_split X y stratify] is the 80/20 split; the fits return the
    model and its accuracy on the test partition; [can_write p] tells
    whether writing at [p] succeeds. *)
Record estimators : Type := {
  train_test_split : list features → list nat → bool → outcome split;
  fit_random_forest : split → outcome (rf_model * float);
  fit_neural_network : nat → list features → split → outcome (tf_model * float);
  can_write : string → bool
}.

(** ** The training collector: class EnhancedTrainingCollector (main.py) *)

Module EnhancedTrainingCollector.

Record admin_session : Type := {
  session_lesson_id : string;
  started_at : float;
  is_admin : bool;
  session_gestures : list string
}.

Record t : Type := {
  current_session : option string;
  training_features : gmap string (list features);
  training_labels : gmap string (list nat);
  admin_level_sessions : gmap string admin_session;
  current_lesson_gestures : list string;
  current_lesson_id : option string
}.

(** [__init__]. *)
Definition init : t := {|
  current_session := None;
  training_features := ∅;
  training_labels := ∅;
  admin_level_sessions := ∅;
  current_lesson_gestures := [];
  current_lesson_id := None
|}.

Definition set_training_features (d : gmap string (list features)) (self : t) : t :=
  {| current_session := current_session self;
     training_features := d;
     training_labels := training_labels self;
     admin_level_sessions := admin_level_sessions self;
     current_lesson_gestures := current_lesson_gestures self;
     current_lesson_id := current_lesson_id self |}.

Definition set_training_labels (d : gmap string (list nat)) (self : t) : t :=
  {| current_session := current_session self;
     training_features := training_features self;
     training_labels := d;
     admin_level_sessions := admin_level_sessions self;
     current_lesson_gestures := current_lesson_gestures self;
     current_lesson_id := current_lesson_id self |}.

(** [LESSON_GESTURES.get(lesson_id, [])]. *)
Definition lesson_gestures (lesson_id : option string) : list string :=
  default [] (lesson_id ≫= (LESSON_GESTURES !!.)).

(** [for gesture in gestures: d[gesture] = []], from the empty dictionary. *)
Definition empty_buckets {A} (gestures : list string) : gmap string (list A) :=
  foldl (λ d gesture, <[gesture := []]> d) ∅ gestures.

(** [start_training_session]; [now] is the reading of [time.time()]. *)
Definition start_training_session (now : float) (session_id : string)
    (is_admin_level : bool) (lesson_id : option string) (self : t) : t :=
  let admin := is_admin_level && truthy lesson_id in
  let gestures := if admin then lesson_gestures lesson_id else ORIGINAL_LABELS in
  {| current_session := Some session_id;
     training_features := empty_buckets gestures;
     training_labels := empty_buckets gestures;
     admin_level_sessions :=
       if admin then
         <[session_id := {| session_lesson_id := default EmptyString lesson_id;
                            started_at := now;
                            is_admin := true;
                            session_gestures := gestures |}]>
           (admin_level_sessions self)
       else admin_level_sessions self;
     current_lesson_gestures := gestures;
     current_lesson_id := if admin then lesson_id else None |}.

(** [self.current_lesson_gestures if self.current_lesson_gestures else
    ORIGINAL_LABELS]. *)
Definition valid_gestures (self : t) : list string :=
  match current_lesson_gestures self with
  | [] => ORIGINAL_LABELS
  | l => l
  end.

(** [len(d[k])]. *)
Definition bucket_len (d : gmap string (list features)) (k : string) : outcome nat :=
  match d !! k with
  | Some l => Return (length l)
  | None => Raise KeyError
  end.

(** [if "," in image_data: image_data = image_data.split(",")[1]]. *)
Definition payload (image_data : string) : string :=
  if has_comma image_data then split_comma_1 image_data else image_data.

(** From [image_data] to the result of [cv2.imdecode]: on anything but
    a string the test ["," in image_data], the [split] or
    [base64.b64decode] raises. *)
Definition decode (v : vision) (image_data : value) : outcome (option (image v)) :=
  match image_data with
  | PyStr s => decode_image v (payload s)
  | _ => Raise TypeError
  end.

(** The [try] block of [process_training_frame] after its first
    statement, on the stripped name: [Some n] when the block returns [n],
    [None] when control reaches its end. *)
Definition frame_attempt (v : vision) (gesture_name : string) (image_data : value)
  : M t (option nat) :=
  (self <- get ;;
   let valid := valid_gestures self in
   if negb (contains valid gesture_name) then ret (Some 0) else
   img <- lift (decode v image_data) ;;
   match img with
   | None => ret None
   | Some picture =>
       match extract_hand_landmarks v picture with
       | (Some feats, true) =>
           gesture_idx <- lift (list_index valid gesture_name) ;;
           d <- lift (dict_append (training_features self) gesture_name feats) ;;
           _ <- modify (set_training_features d) ;;
           l <- lift (dict_append (training_labels self) gesture_name gesture_idx) ;;
           _ <- modify (set_training_labels l) ;;
           sample_count <- lift (bucket_len d gesture_name) ;;
           ret (Some sample_count)
       | _ => ret None
       end
   end)%py.

(** [process_training_frame].  The first statement of the [try] block,
    [gesture_name = gesture_name.strip()], rebinds the name when it is a
    string and raises otherwise; the final [return], which looks the name
    up, stands after the handler. *)
Definition process_training_frame (v : vision) (gesture_name image_data : value)
  : M t nat :=
  λ self,
    if negb (truthy (current_session self)) then (Return 0, self)
    else
      let name := match py_strip gesture_name with
                  | Return stripped => PyStr stripped
                  | Raise _ => gesture_name
                  end in
      (r <- try_except
              (stripped <- lift (py_strip gesture_name) ;;
               frame_attempt v stripped image_data)
              (λ _, ret None) ;;
       match r with
       | Some n => ret n
       | None =>
           self' <- get ;;
           lift (get_len (training_features self') name)
       end)%py self.

(** The loop of [run_training] that builds [X] and [y]. *)
Definition gather (current_gestures : list string) (self : t)
  : list features * list nat :=
  foldl (λ Xy gesture_name,
           let feats := get_or_empty (training_features self) gesture_name in
           let labels := get_or_empty (training_labels self) gesture_name in
           if bool_decide (0 < length feats)
           then (Xy.1 ++ feats, Xy.2 ++ labels)
           else Xy)
        ([], []) current_gestures.

(** [shutil.rmtree(target) if os.path.isdir(target) else
    os.remove(target)]. *)
Definition remove_path (fs : fsys) (target : string) : fsys :=
  if Fs.isdir fs target then (Fs.rmtree target fs).2
  else (Fs.remove target fs).2.

(** [for target in targets: if os.path.exists(target): remove it]. *)
Definition remove_all (targets : list string) : M fsys unit :=
  λ fs, (Return tt,
         foldl (λ fs target, if Fs.exists_ fs target then remove_path fs target
                             else fs)
               fs targets).

Definition clean_old_models : M fsys unit :=
  (_ <- remove_all ["models/asl_model.pkl"; "models/asl_model_tf";
                    "asl_model_tf"; "asl_model.pkl"] ;;
   Fs.makedirs "models")%py.

Definition cleanup_duplicates : M fsys unit :=
  remove_all ["asl_model_tf"; "asl_model.pkl"].

(** [pickle.dump], [model.save] and [json.dump] at path [p]. *)
Definition write (est : estimators) (p : string) (n : node) : M fsys unit :=
  λ fs, if can_write est p then (Return tt, <[p := n]> fs) else (Raise OSError, fs).

(** A step that only touches the disk, inside [run_training]. *)
Definition on_disk {A} (m : M fsys A) : M (t * fsys) A :=
  λ s, let '(r, fs') := m s.2 in (r, (s.1, fs')).

Definition clear_buffers (s : t * fsys) : t * fsys :=
  (set_training_labels ∅ (set_training_features ∅ s.1), s.2).

(** [run_training]; the state is the collector and the disk. *)
Definition run_training (est : estimators) (now : float)
    (is_admin_level : bool) (lesson_id : option string)
  : M (t * fsys) (bool * float) :=
  try_except
    (let admin := is_admin_level && truthy lesson_id in
     let current_gestures :=
       if admin then lesson_gestures lesson_id else ORIGINAL_LABELS in
     s <- get ;;
     let X := (gather current_gestures s.1).1 in
     let y := (gather current_gestures s.1).2 in
     if bool_decide (length X = 0) then ret (false, 0%float) else
     output_dir <-
       (if admin then
          let d := "level_models/" +:+ default EmptyString lesson_id in
          _ <- on_disk (Fs.makedirs d) ;; ret d
        else
          _ <- on_disk clean_old_models ;;
          _ <- on_disk (Fs.makedirs "models") ;; ret "models") ;;
     sp <- try_except_ValueError (lift (train_test_split est X y true))
                                 (lift (train_test_split est X y false)) ;;
     rf <- lift (fit_random_forest est sp) ;;
     _ <- on_disk (write est (path_join output_dir "asl_model.pkl")
                         (PickleFile rf.1)) ;;
     let num_classes := length current_gestures in
     tf <- lift (fit_neural_network est num_classes X sp) ;;
     _ <- on_disk (write est (path_join output_dir "asl_model_tf")
                         (SavedModel tf.1)) ;;
     let meta := {|
       meta_lesson_id := if is_admin_level then lesson_id else Some "original";
       meta_created_at := now;
       meta_accuracy := py_max rf.2 tf.2;
       meta_samples_count := length X;
       meta_gestures := Some current_gestures;
       meta_num_classes := num_classes;
       meta_admin_session := if is_admin_level then current_session s.1 else None
     |} in
     _ <- on_disk (write est (path_join output_dir "training_metadata.json")
                         (JsonFile meta)) ;;
     _ <- (if negb is_admin_level then on_disk cleanup_duplicates else ret tt) ;;
     let best_accuracy := py_max rf.2 tf.2 in
     _ <- modify clear_buffers ;;
     ret (true, best_accuracy))%py
    (λ _, ret (false, 0%float)).

(** What the front end makes of a frame: it raised, the bytes are no
    image, the image shows no hand, or a hand gave a feature vector. *)
Inductive sighting : Type :=
  | Errored (e : exn)
  | Undecodable
  | NoHand
  | Hand (feats : features).

Definition sight (v : vision) (image_data : value) : sighting :=
  match decode v image_data with
  | Raise e => Errored e
  | Return None => Undecodable
  | Return (Some picture) =>
      match extract_hand_landmarks v picture with
      | (Some feats, true) => Hand feats
      | _ => NoHand
      end
  end.

(** The number of samples held for a gesture. *)
Definition sample_count (self : t) (gesture_name : string) : nat :=
  length (get_or_empty (training_features self) gesture_name).

(** The states the collector goes through: from [__init__], by its three
    public methods. *)
Inductive reachable : t → Prop :=
  | reachable_init : reachable init
  | reachable_start now session_id is_admin_level lesson_id self :
      reachable self →
      reachable (start_training_session now session_id is_admin_level lesson_id self)
  | reachable_frame v (gesture_name image_data : value) self :
      reachable self →
      reachable (process_training_frame v gesture_name image_data self).2
  | reachable_training est now is_admin_level lesson_id self fs :
      reachable self →
      reachable (run_training est now is_admin_level lesson_id (self, fs)).2.1.

(** The collector is untouched, or both its dictionaries were emptied. *)
Definition kept_or_cleared : relation (t * fsys) :=
  λ s s', s'.1 = s.1 ∨ s'.1 = set_training_labels ∅ (set_training_features ∅ s.1).

(** Buckets exist only for gestures of the session's vocabulary. *)
Definition buckets_in_vocabulary (self : t) : Prop :=
  ∀ g, is_Some (training_features self !! g) → g ∈ current_lesson_gestures self.

(** Features and labels are stored side by side: a gesture has a bucket in
    both dictionaries or in neither, both buckets have the same length, and
    every label stored for a gesture is the position of that gesture in the
    session's vocabulary. *)
Definition labels_consistent (self : t) : Prop :=
  ∀ g, match training_features self !! g, training_labels self !! g with
       | Some samples, Some labels =>
           length samples = length labels ∧
           ∀ i, i ∈ labels → list_index (current_lesson_gestures self) g = Return i
       | None, None => True
       | _, _ => False
       end.

(** A step of [run_training] that leaves the collector alone. *)
Definition same_collector : relation (t * fsys) := λ s s', s'.1 = s.1.


(** A step of [run_training] that leaves alone every path satisfying [P]. *)
Definition disk_frame (P : string → Prop) : relation (t * fsys) :=
  λ s s', ∀ p, P p → s'.2 !! p = s.2 !! p.

(** The paths a regular training run may create, replace or remove. *)
Definition default_artifact_paths : list string :=
  ["models"; "models/asl_model.pkl"; "models/asl_model_tf";
   "models/training_metadata.json"; "asl_model_tf"; "asl_model.pkl"].

(** The four names a regular run clears away before it writes. *)
Definition cleaned_targets : list string :=
  ["models/asl_model.pkl"; "models/asl_model_tf"; "asl_model_tf"; "asl_model.pkl"].

(** Whether [p] belongs to the default artifact: it is one of
    [default_artifact_paths] or lies below one of the names a regular run
    clears away, which go with their content when they are directories. *)
Definition in_default_artifact (p : string) : bool :=
  bool_decide (p ∈ default_artifact_paths)
  || existsb (λ target, Fs.below target p) cleaned_targets.


End EnhancedTrainingCollector.

(** ** Practice mode: class IsolatedLevelModelManager (level_model_manager.py) *)

Definition PRACTICE_LEVEL_GESTURES : gmap string (list string) :=
  list_to_map
    [("lesson_1", ["Hello"; "Thank You"; "Yes"; "No"]);
     ("lesson_2", ["Happy"; "Sad"; "Angry"; "Love"]);
     ("lesson_3", ["Eat"; "Drink"; "Sleep"; "Go"]);
     ("lesson_4", ["Book"; "Phone"; "Car"; "Home"]);
     ("lesson_5", ["What"; "Where"; "When"; "Who"])].

Module IsolatedLevelModelManager.

Record t : Type := {
  level_models_dir : string;
  current_level_labels : list string;
  current_level_id : option string;
  is_practice_mode : bool;
  current_level_model : option tf_model;
  current_level_rf_model : option rf_model;
  current_level_metadata : option metadata
}.

(** [__init__]. *)
Definition init : t := {|
  level_models_dir := "level_models";
  current_level_labels := [];
  current_level_id := None;
  is_practice_mode := false;
  current_level_model := None;
  current_level_rf_model := None;
  current_level_metadata := None
|}.

Definition set_current_level_labels (l : list string) (self : t) : t :=
  {| level_models_dir := level_models_dir self;
     current_level_labels := l;
     current_level_id := current_level_id self;
     is_practice_mode := is_practice_mode self;
     current_level_model := current_level_model self;
     current_level_rf_model := current_level_rf_model self;
     current_level_metadata := current_level_metadata self |}.

Definition set_current_level_id (i : option string) (self : t) : t :=
  {| level_models_dir := level_models_dir self;
     current_level_labels := current_level_labels self;
     current_level_id := i;
     is_practice_mode := is_practice_mode self;
     current_level_model := current_level_model self;
     current_level_rf_model := current_level_rf_model self;
     current_level_metadata := current_level_metadata self |}.

Definition set_is_practice_mode (b : bool) (self : t) : t :=
  {| level_models_dir := level_models_dir self;
     current_level_labels := current_level_labels self;
     current_level_id := current_level_id self;
     is_practice_mode := b;
     current_level_model := current_level_model self;
     current_level_rf_model := current_level_rf_model self;
     current_level_metadata := current_level_metadata self |}.

Definition set_current_level_model (m : option tf_model) (self : t) : t :=
  {| level_models_dir := level_models_dir self;
     current_level_labels := current_level_labels self;
     current_level_id := current_level_id self;
     is_practice_mode := is_practice_mode self;
     current_level_model := m;
     current_level_rf_model := current_level_rf_model self;
     current_level_metadata := current_level_metadata self |}.

Definition set_current_level_rf_model (m : option rf_model) (self : t) : t :=
  {| level_models_dir := level_models_dir self;
     current_level_labels := current_level_labels self;
     current_level_id := current_level_id self;
     is_practice_mode := is_practice_mode self;
     current_level_model := current_level_model self;
     current_level_rf_model := m;
     current_level_metadata := current_level_metadata self |}.

Definition set_current_level_metadata (j : option metadata) (self : t) : t :=
  {| level_models_dir := level_models_dir self;
     current_level_labels := current_level_labels self;
     current_level_id := current_level_id self;
     is_practice_mode := is_practice_mode self;
     current_level_model := current_level_model self;
     current_level_rf_model := current_level_rf_model self;
     current_level_metadata := j |}.

(** The three paths of a lesson's artifact. *)
Definition lesson_model_path (self : t) (lesson_id : string) : string :=
  path_join (level_models_dir self) lesson_id.
Definition metadata_path (self : t) (lesson_id : string) : string :=
  path_join (lesson_model_path self lesson_id) "training_metadata.json".
Definition tf_model_path (self : t) (lesson_id : string) : string :=
  path_join (lesson_model_path self lesson_id) "asl_model_tf".
Definition rf_model_path (self : t) (lesson_id : string) : string :=
  path_join (lesson_model_path self lesson_id) "asl_model.pkl".

(** [_load_level_model].  An attribute is assigned only when its file
    exists; a file that fails to load resets its model to [None]; an
    unreadable metadata file ends the call through the outer handler. *)
Definition _load_level_model (fs : fsys) (lesson_id : string) : M t bool :=
  try_except
    (self <- get ;;
     if negb (Fs.exists_ fs (lesson_model_path self lesson_id)) then ret false else
     _ <- (if Fs.exists_ fs (metadata_path self lesson_id) then
             j <- lift (Fs.json_load fs (metadata_path self lesson_id)) ;;
             modify (set_current_level_metadata (Some j))
           else ret tt) ;;
     _ <- (if Fs.exists_ fs (tf_model_path self lesson_id) then
             try_except
               (m <- lift (Fs.keras_load_model fs (tf_model_path self lesson_id)) ;;
                modify (set_current_level_model (Some m)))
               (λ _, modify (set_current_level_model None))
           else ret tt) ;;
     _ <- (if Fs.exists_ fs (rf_model_path self lesson_id) then
             try_except
               (m <- lift (Fs.pickle_load fs (rf_model_path self lesson_id)) ;;
                modify (set_current_level_rf_model (Some m)))
               (λ _, modify (set_current_level_rf_model None))
           else ret tt) ;;
     self' <- get ;;
     match current_level_model self', current_level_rf_model self' with
     | None, None => ret false
     | _, _ => ret true
     end)%py
    (λ _, ret false).

(** [enter_practice_mode]. *)
Definition enter_practice_mode (fs : fsys) (lesson_id : string) : M t bool :=
  try_except
    (_ <- modify (set_current_level_id (Some lesson_id)) ;;
     _ <- modify (set_current_level_labels
                    (default [] (PRACTICE_LEVEL_GESTURES !! lesson_id))) ;;
     loaded <- _load_level_model fs lesson_id ;;
     if loaded then _ <- modify (set_is_practice_mode true) ;; ret true
     else ret false)%py
    (λ _, ret false).

(** [exit_practice_mode]. *)
Definition exit_practice_mode (self : t) : t := {|
  level_models_dir := level_models_dir self;
  current_level_labels := [];
  current_level_id := None;
  is_practice_mode := false;
  current_level_model := None;
  current_level_rf_model := None;
  current_level_metadata := None
|}.

(** The label list a class index is resolved against: the [gestures] of
    the metadata when there are any, else the lesson definition. *)
Definition gesture_labels (self : t) : list string :=
  match current_level_metadata self with
  | Some j => match meta_gestures j with
              | Some l => l
              | None => current_level_labels self
              end
  | None => current_level_labels self
  end.

(** [labels[c]] under the guard [c < len(labels)]; past the guard control
    reaches the final [return "No model", 0.0]. *)
Definition resolve (labels : list string) (c : nat) (confidence : float)
  : outcome (string * float) :=
  if bool_decide (c < length labels)
  then obind (list_get labels c) (λ gesture, Return (gesture, confidence))
  else Return ("No model", 0%float).

(** The [try] block of [predict_with_level_model]. *)
Definition level_prediction (self : t) (a : features) : outcome (string * float) :=
  match current_level_model self with
  | Some net =>
      obind (net a) (λ out,
        resolve (gesture_labels self) (tf_predicted_class out) (tf_confidence out))
  | None =>
      match current_level_rf_model self with
      | Some forest =>
          obind (forest a) (λ out,
            resolve (gesture_labels self) (rf_prediction out) (rf_confidence out))
      | None => Return ("No model", 0%float)
      end
  end.

(** [predict_with_level_model]. *)
Definition predict_with_level_model (self : t) (a : features) : string * float :=
  if negb (is_practice_mode self) then ("No practice mode", 0%float)
  else match level_prediction self a with
       | Return r => r
       | Raise _ => ("Error", 0%float)
       end.

(** The class index the active model yields for [a]: the network's when a
    network is held, else the forest's. *)
Definition active_class (self : t) (a : features) : option nat :=
  match current_level_model self with
  | Some net => match net a with
                | Return out => Some (tf_predicted_class out)
                | Raise _ => None
                end
  | None => match current_level_rf_model self with
            | Some forest => match forest a with
                             | Return out => Some (rf_prediction out)
                             | Raise _ => None
                             end
            | None => None
            end
  end.

(** Two states that agree on the directory, the labels, the lesson id
    and the practice flag. *)
Definition same_context : relation t :=
  λ s s', level_models_dir s' = level_models_dir s ∧
          current_level_labels s' = current_level_labels s ∧
          current_level_id s' = current_level_id s ∧
          is_practice_mode s' = is_practice_mode s.

(** The cleared context: what [Inactive] means. *)
Definition inactive (self : t) : Prop :=
  is_practice_mode self = false ∧ current_level_labels self = [] ∧
  current_level_id self = None ∧ current_level_model self = None ∧
  current_level_rf_model self = None ∧ current_level_metadata self = None.

(** Every classifier and the metadata held are the ones stored in the
    artifact directory of [lesson_id]. *)
Definition held_from_artifact (fs : fsys) (lesson_id : string) (self : t) : Prop :=
  (∀ m, current_level_model self = Some m →
        fs !! tf_model_path self lesson_id = Some (SavedModel m)) ∧
  (∀ m, current_level_rf_model self = Some m →
        fs !! rf_model_path self lesson_id = Some (PickleFile m)) ∧
  (∀ j, current_level_metadata self = Some j →
        fs !! metadata_path self lesson_id = Some (JsonFile j)).

(** [sep.join(l)]. *)
Definition join (sep : string) (l : list string) : string :=
  match l with
  | [] => EmptyString
  | x :: l' => foldl (λ acc y, acc +:+ sep +:+ y) x l'
  end.

(** [filter_prediction_for_practice]. *)
Definition filter_prediction_for_practice (self : t)
    (main_gesture : string) (main_confidence : float) : string * float :=
  if negb (is_practice_mode self) then (main_gesture, main_confidence)
  else match current_level_labels self with
       | [] => (main_gesture, main_confidence)
       | _ :: _ =>
           match current_level_model self, current_level_rf_model self with
           | None, None =>
               if contains (current_level_labels self) main_gesture
               then (main_gesture, main_confidence)
               else match current_level_labels self with
                    | _ :: _ =>
                        ("Practice: " +:+ join ", " (current_level_labels self),
                         0.3%float)
                    | [] => ("Unknown", 0%float)
                    end
           | _, _ => (main_gesture, main_confidence)
           end
       end.

(** The dictionary returned by [get_level_info]. *)
Record level_info : Type := {
  info_is_practice_mode : bool;
  info_current_level : option string;
  info_allowed_gestures : list string;
  info_has_level_model : bool;
  info_model_metadata : option metadata;
  info_message : string
}.

(** [get_level_info]; a missing lesson id prints as [None]. *)
Definition get_level_info (self : t) : level_info := {|
  info_is_practice_mode := is_practice_mode self;
  info_current_level := current_level_id self;
  info_allowed_gestures := current_level_labels self;
  info_has_level_model :=
    match current_level_model self, current_level_rf_model self with
    | None, None => false
    | _, _ => true
    end;
  info_model_metadata := current_level_metadata self;
  info_message :=
    if is_practice_mode self
    then "Practice mode: " +:+ default "None" (current_level_id self)
    else "Normal translation mode"
|}.

(** A step keeps [held_from_artifact] true in a manager whose directory
    is [d]. *)
Definition keeps_held (fs : fsys) (lesson_id d : string) : relation t :=
  λ s s', level_models_dir s = d ∧ held_from_artifact fs lesson_id s →
          level_models_dir s' = d ∧ held_from_artifact fs lesson_id s'.

End IsolatedLevelModelManager.

(** ** The handlers of main.py *)

Module Server.

(** The module-level singletons, the directory of main.py
    ([os.path.dirname(__file__)], see [ASLModel.model_path]) and the
    disk. *)
Record t : Type := {
  asl_model : ASLModel.t;
  training_collector : EnhancedTrainingCollector.t;
  isolated_level_manager : IsolatedLevelModelManager.t;
  module_dir : string;
  disk : fsys
}.

(** The HTTP status of a reply. *)
Inductive status : Type := Ok200 | Err400 | Err403 | Err404 | Err500.

Definition with_collector (c : EnhancedTrainingCollector.t) (srv : t) : t :=
  {| asl_model := asl_model srv; training_collector := c;
     isolated_level_manager := isolated_level_manager srv;
     module_dir := module_dir srv; disk := disk srv |}.

Definition with_manager (m : IsolatedLevelModelManager.t) (srv : t) : t :=
  {| asl_model := asl_model srv; training_collector := training_collector srv;
     isolated_level_manager := m;
     module_dir := module_dir srv; disk := disk srv |}.

(** The session switch shared by the two add-sample handlers. *)
Definition switch_session (now : float) (session_id : string)
    (is_admin_level : bool) (lesson_id : option string)
    (c : EnhancedTrainingCollector.t) : EnhancedTrainingCollector.t :=
  let c1 :=
    if truthy (EnhancedTrainingCollector.current_session c)
       && negb (bool_decide (EnhancedTrainingCollector.current_session c = Some session_id))
    then EnhancedTrainingCollector.start_training_session
           now session_id is_admin_level lesson_id c
    else c in
  if negb (truthy (EnhancedTrainingCollector.current_session c1))
  then EnhancedTrainingCollector.start_training_session
         now session_id is_admin_level lesson_id c1
  else c1.

(** POST /training/add-sample: the status and the sample count.  The
    fields of the request are taken to be strings, or absent; the text of
    an error message is left out.  With a string for the gesture name the
    call of [process_training_frame] returns, so the last branch, which
    stands for the reply to an exception the handler does not catch, is
    never taken. *)
Definition add_training_sample (v : vision) (now : float)
    (session_id gesture_name frame : option string) (srv : t)
  : status * nat * t :=
  match session_id, gesture_name, frame with
  | Some sid, Some gesture, Some data =>
      if truthy session_id && truthy gesture_name && truthy frame then
        let c := switch_session now sid false None (training_collector srv) in
        match EnhancedTrainingCollector.process_training_frame v gesture data c with
        | (Return 0, c') => (Err500, 0, with_collector c' srv)
        | (Return n, c') => (Ok200, n, with_collector c' srv)
        | (Raise _, c') => (Err500, 0, with_collector c' srv)
        end
      else (Err400, 0, srv)
  | _, _, _ => (Err400, 0, srv)
  end.

(** POST /training/complete: the status and the accuracy.  After a failed
    run the handler clears the default model. *)
Definition complete_training (est : estimators) (now : float)
    (session_id : option string) (srv : t) : status * float * t :=
  if negb (truthy session_id) then (Err400, 0%float, srv)
  else
    let '(r, (c, fs)) :=
      EnhancedTrainingCollector.run_training est now false None
        (training_collector srv, disk srv) in
    match r with
    | Return (true, accuracy) =>
        (Ok200, accuracy,
         {| asl_model := ASLModel.load_model (module_dir srv) fs (asl_model srv);
            training_collector := c;
            isolated_level_manager := isolated_level_manager srv;
            module_dir := module_dir srv;
            disk := fs |})
    | _ =>
        (Err500, 0%float,
         {| asl_model := {| ASLModel.model := None; ASLModel.model_loaded := false |};
            training_collector := c;
            isolated_level_manager := isolated_level_manager srv;
            module_dir := module_dir srv;
            disk := fs |})
    end.

(** [session_id.startswith("admin_level_")]. *)
Definition is_admin_session (session_id : string) : bool :=
  String.prefix "admin_level_" session_id.

(** POST /admin/training/add-sample: the status, the sample count and
    the [lesson_id] field of the reply, which a success reply alone has
    and which repeats the request's.  As for the regular handler the
    fields of the request are strings, or absent, and the text of an
    error message, which is worded differently here, is left out. *)
Definition add_admin_training_sample (v : vision) (now : float)
    (session_id lesson_id gesture_name frame : option string) (srv : t)
  : status * nat * option string * t :=
  match session_id, gesture_name, frame with
  | Some sid, Some gesture, Some data =>
      if truthy session_id && truthy lesson_id && truthy gesture_name && truthy frame
      then
        if negb (is_admin_session sid) then (Err403, 0, None, srv)
        else
          let c := switch_session now sid true lesson_id (training_collector srv) in
          match EnhancedTrainingCollector.process_training_frame v gesture data c with
          | (Return 0, c') => (Err500, 0, None, with_collector c' srv)
          | (Return n, c') => (Ok200, n, lesson_id, with_collector c' srv)
          | (Raise _, c') => (Err500, 0, None, with_collector c' srv)
          end
      else (Err400, 0, None, srv)
  | _, _, _ => (Err400, 0, None, srv)
  end.

(** POST /admin/training/complete-level: the default model is not touched,
    whatever the outcome. *)
Definition complete_admin_level_training (est : estimators) (now : float)
    (session_id lesson_id : option string) (srv : t) : status * float * t :=
  match session_id with
  | Some sid =>
      if truthy session_id && truthy lesson_id then
        if negb (is_admin_session sid) then (Err403, 0%float, srv)
        else
          let '(r, (c, fs)) :=
            EnhancedTrainingCollector.run_training est now true lesson_id
              (training_collector srv, disk srv) in
          let srv' := {| asl_model := asl_model srv;
                         training_collector := c;
                         isolated_level_manager := isolated_level_manager srv;
                         module_dir := module_dir srv;
                         disk := fs |} in
          match r with
          | Return (true, accuracy) => (Ok200, accuracy, srv')
          | _ => (Err500, 0%float, srv')
          end
      else (Err400, 0%float, srv)
  | None => (Err400, 0%float, srv)
  end.

(** POST /practice/start: the handler itself refuses a lesson whose
    directory is missing, before the manager is called. *)
Definition start_practice_mode (lesson_id : option string) (srv : t) : status * t :=
  match lesson_id with
  | Some lesson =>
      if negb (truthy lesson_id) then (Err400, srv)
      else if negb (Fs.exists_ (disk srv) ("level_models/" +:+ lesson))
      then (Err404, srv)
      else
        match IsolatedLevelModelManager.enter_practice_mode
                (disk srv) lesson (isolated_level_manager srv) with
        | (Return true, m) => (Ok200, with_manager m srv)
        | (_, m) => (Err500, with_manager m srv)
        end
  | None => (Err400, srv)
  end.

(** POST /practice/stop. *)
Definition stop_practice_mode (srv : t) : status * t :=
  (Ok200, with_manager
            (IsolatedLevelModelManager.exit_practice_mode (isolated_level_manager srv))
            srv).

(** The prediction step of the /asl-ws loop, for a frame in which a hand
    was detected: the lesson model in practice mode, else the default
    model. *)
Definition predict_features (srv : t) (a : features) : outcome (string * float) :=
  if IsolatedLevelModelManager.is_practice_mode (isolated_level_manager srv)
  then Return (IsolatedLevelModelManager.predict_with_level_model
                 (isolated_level_manager srv) a)
  else ASLModel.predict (asl_model srv) a.

End Server.

(** ** The Default Dispatcher as the specification words it *)

Module DispatcherSpec.

(** Follows the specification, section 4.3: the dispatcher holds a neural
    and an ensemble classifier, either of which may be absent. *)
Record t : Type := {
  neural : option tf_model;
  ensemble : option rf_model
}.


(** [predict(vector)]: the neural classifier if present; else the
    ensemble; else the rule-based heuristic. *)
Definition predict (self : t) (a : features) : outcome (string * float) :=
  match neural self with
  | Some net =>
      obind (net a) (λ out,
      obind (ASLModel.label_of (tf_predicted_class out)) (λ gesture,
        Return (gesture, tf_confidence out)))
  | None =>
      match ensemble self with
      | Some forest =>
          obind (forest a) (λ out,
          obind (ASLModel.label_of (rf_prediction out)) (λ gesture,
            Return (gesture, rf_confidence out)))
      | None => ASLModel.rule_based_prediction a
      end
  end.

End DispatcherSpec.

(** ** The connection registry: class ConnectionManager (main.py) *)

Module ConnectionManager.

(** A socket is known by its identity. *)
Record t : Type := {
  active_connections : list nat;
  training_connections : list nat
}.

(** [__init__]. *)
Definition init : t := {| active_connections := []; training_connections := [] |}.

(** [connect], once the socket has accepted. *)
Definition connect (websocket : nat) (is_training : bool) (self : t) : t :=
  if is_training
  then {| active_connections := active_connections self;
          training_connections := training_connections self ++ [websocket] |}
  else {| active_connections := active_connections self ++ [websocket];
          training_connections := training_connections self |}.

(** [l.remove(x)]: drops the first occurrence, [ValueError] when absent. *)
Fixpoint list_remove (l : list nat) (x : nat) : outcome (list nat) :=
  match l with
  | [] => Raise ValueError
  | y :: l' => if bool_decide (y = x) then Return l'
               else obind (list_remove l' x) (λ r, Return (y :: r))
  end.

(** [disconnect]. *)
Definition disconnect (websocket : nat) (is_training : bool) : M t unit :=
  (self <- get ;;
   if is_training && bool_decide (websocket ∈ training_connections self) then
     l <- lift (list_remove (training_connections self) websocket) ;;
     modify (λ self, {| active_connections := active_connections self;
                        training_connections := l |})
   else if bool_decide (websocket ∈ active_connections self) then
     l <- lift (list_remove (active_connections self) websocket) ;;
     modify (λ self, {| active_connections := l;
                        training_connections := training_connections self |})
   else ret tt)%py.

(** A run of [connect] calls, the oldest first, each with the socket and
    the flag it was made with. *)
Definition connect_all (calls : list (nat * bool)) (self : t) : t :=
  foldl (λ s call, connect call.1 call.2 s) self calls.

(** The sockets that connected with the flag [is_training] in a run of
    [connect] calls. *)
Definition sockets (is_training : bool) (calls : list (nat * bool)) : list nat :=
  map fst (filter (λ call, call.2 = is_training) calls).

End ConnectionManager.

(** ** From detected landmarks to a feature vector (main.py) *)

Module Extractor.

(** One landmark as MediaPipe reports it. *)
Record landmark : Type := { x : float; y : float; z : float }.

(** The loop of [extract_hand_landmarks]:
    [features.extend([landmark.x, landmark.y, landmark.z])]. *)
Definition features_of (hand_landmarks : list landmark) : features :=
  foldl (λ feats lm, feats ++ [x lm; y lm; z lm]) [] hand_landmarks.

(** [extract_hand_landmarks] after detection: [detection] is what
    [mp_hands.process] found, one list of landmarks per hand, or the
    exception it raised.  The landmark dictionaries of the reply are left
    out. *)
Definition extract_hand_landmarks (detection : outcome (list (list landmark)))
  : option features * bool :=
  match detection with
  | Return (hand_landmarks :: _) => (Some (features_of hand_landmarks), true)
  | Return [] => (None, false)
  | Raise _ => (None, false)
  end.

End Extractor.

(** ** The latency-optimised server (python_server/main.py) *)

Module OptimizedASLModel.

(** [landmarks[i, 1]]. *)
Definition at_y (landmarks : list (list float)) (i : nat) : outcome float :=
  ASLModel.y_of landmarks i.

(** The [try] block of [rule_based_prediction_fast]. *)
Definition rule_based_attempt (a : features) : outcome (string * float) :=
  obind (ASLModel.reshape_21_3 a) (λ landmarks,
  obind (at_y landmarks 0) (λ wrist_y,
  obind (at_y landmarks 4) (λ thumb_tip_y,
  obind (at_y landmarks 3) (λ thumb_ip_y,
  obind (at_y landmarks 8) (λ index_tip_y,
  obind (at_y landmarks 6) (λ index_pip_y,
  obind (at_y landmarks 12) (λ middle_tip_y,
  obind (at_y landmarks 10) (λ middle_pip_y,
  obind (at_y landmarks 16) (λ ring_tip_y,
  obind (at_y landmarks 14) (λ ring_pip_y,
  obind (at_y landmarks 20) (λ pinky_tip_y,
  obind (at_y landmarks 18) (λ pinky_pip_y,
    let thumb := (thumb_tip_y <? thumb_ip_y)%float in
    let index := (index_tip_y <? index_pip_y)%float in
    let middle := (middle_tip_y <? middle_pip_y)%float in
    let ring := (ring_tip_y <? ring_pip_y)%float in
    let pinky := (pinky_tip_y <? pinky_pip_y)%float in
    let fingers_up_count :=
      ASLModel.count_true [thumb; index; middle; ring; pinky] in
    if bool_decide (fingers_up_count = 5) then Return ("Hello", 0.85%float)
    else if bool_decide (fingers_up_count = 2) && index && pinky
      then Return ("I Love You", 0.8%float)
    else if bool_decide (fingers_up_count = 1) && thumb
      then Return ("Yes", 0.75%float)
    else if bool_decide (fingers_up_count = 2) && index && middle
      then Return ("No", 0.75%float)
    else if bool_decide (fingers_up_count = 0)
      then Return ("Thank You", 0.7%float)
    else Return ("Unknown", 0.3%float))))))))))))).

(** [rule_based_prediction_fast]: any exception becomes [("Unknown", 0.1)]. *)
Definition rule_based_prediction_fast (a : features) : string * float :=
  match rule_based_attempt a with
  | Return r => r
  | Raise _ => ("Unknown", 0.1%float)
  end.

(** [LABELS]. *)
Definition LABELS : list string :=
  ["Yes"; "No"; "I Love You"; "Hello"; "Thank You"].

Record t : Type := {
  model : option tf_model;
  model_loaded : bool
}.

(** [LABELS[c] if c < len(LABELS) else "Unknown"]. *)
Definition label_of (predicted_class : nat) : outcome string :=
  if bool_decide (predicted_class < length LABELS)
  then list_get LABELS predicted_class
  else Return "Unknown".

(** [predict_fast]: the network stands for the inference made inside the
    [try]; any exception there hands the vector to the heuristic. *)
Definition predict_fast (self : t) (a : features) : string * float :=
  match model self with
  | Some net =>
      if model_loaded self then
        match obind (net a) (λ out,
              obind (label_of (tf_predicted_class out)) (λ gesture,
                Return (gesture, tf_confidence out))) with
        | Return r => r
        | Raise _ => rule_based_prediction_fast a
        end
      else rule_based_prediction_fast a
  | None => rule_based_prediction_fast a
  end.

End OptimizedASLModel.

(** ** Concrete collaborators and states used in the examples *)

Module Scenario.

(** A vector of 63 zeros: no finger is up. *)
Definition flat_hand : features := replicate 63 0%float.

(** A front end for which every payload but ["!"] decodes; the payload
    ["blank"] is an image without a hand, every other image shows one. *)
Definition camera : vision := {|
  image := string;
  decode_image := λ s, if bool_decide (s = "!") then Raise OtherError
                       else if bool_decide (s = EmptyString) then Return None
                       else Return (Some s);
  extract_hand_landmarks := λ s, if bool_decide (s = "blank") then (None, false)
                                 else (Some flat_hand, true)
|}.

(** A network and a forest that always answer class 1, and ones that
    always answer class 7. *)
Definition net1 : tf_model :=
  λ _, Return {| tf_confidence := 1%float; tf_predicted_class := 1 |}.
Definition forest1 : rf_model :=
  λ _, Return {| rf_prediction := 1; rf_confidence := 1%float |}.
Definition net7 : tf_model :=
  λ _, Return {| tf_confidence := 0.9%float; tf_predicted_class := 7 |}.

(** Estimators that never fail: the split keeps everything on both sides,
    the fits return the constant models with accuracy 1. *)
Definition sklearn : estimators := {|
  train_test_split := λ X y _, Return {| X_train := X; X_test := X;
                                         y_train := y; y_test := y |};
  fit_random_forest := λ _, Return (forest1, 1%float);
  fit_neural_network := λ _ _ _, Return (net1, 1%float);
  can_write := λ _, true
|}.

(** Estimators whose forest cannot be fitted. *)
Definition broken_sklearn : estimators := {|
  train_test_split := train_test_split sklearn;
  fit_random_forest := λ _, Raise ValueError;
  fit_neural_network := fit_neural_network sklearn;
  can_write := can_write sklearn
|}.

Definition lesson1_meta : metadata := {|
  meta_lesson_id := Some "lesson_1";
  meta_created_at := 0%float;
  meta_accuracy := 1%float;
  meta_samples_count := 40;
  meta_gestures := Some ["Hello"; "Thank You"; "Yes"; "No"];
  meta_num_classes := 4;
  meta_admin_session := Some "admin_level_1"
|}.

(** A disk with a complete artifact for lesson_1 and, for lesson_2, the
    forest only: what a lesson training leaves when it stops after its
    first write. *)
Definition two_lessons : fsys :=
  list_to_map
    [("level_models", Dir);
     ("level_models/lesson_1", Dir);
     ("level_models/lesson_1/training_metadata.json", JsonFile lesson1_meta);
     ("level_models/lesson_1/asl_model_tf", SavedModel net1);
     ("level_models/lesson_1/asl_model.pkl", PickleFile forest1);
     ("level_models/lesson_2", Dir);
     ("level_models/lesson_2/asl_model.pkl", PickleFile forest1)].

(** The disk before lesson_2 was ever trained. *)
Definition lesson1_only : fsys :=
  list_to_map
    [("level_models", Dir);
     ("level_models/lesson_1", Dir);
     ("level_models/lesson_1/training_metadata.json", JsonFile lesson1_meta);
     ("level_models/lesson_1/asl_model_tf", SavedModel net1);
     ("level_models/lesson_1/asl_model.pkl", PickleFile forest1)].

(** Estimators whose network cannot be fitted. *)
Definition no_keras : estimators := {|
  train_test_split := train_test_split sklearn;
  fit_random_forest := fit_random_forest sklearn;
  fit_neural_network := λ _ _ _, Raise OtherError;
  can_write := can_write sklearn
|}.


(** A disk with a default neural model. *)
Definition default_disk : fsys :=
  list_to_map [("models", Dir); ("models/asl_model_tf", SavedModel net1);
               ("models/asl_model.pkl", PickleFile forest1)].

(** The server is started in the directory of main.py. *)
Definition here : string := EmptyString.

(** The server right after start-up on [default_disk]. *)
Definition server0 : Server.t := {|
  Server.asl_model := ASLModel.init here default_disk;
  Server.training_collector := EnhancedTrainingCollector.init;
  Server.isolated_level_manager := IsolatedLevelModelManager.init;
  Server.module_dir := here;
  Server.disk := default_disk
|}.

(** [n] frames labelled Hello for session s1, each with a hand. *)
Fixpoint hello_frames (n : nat) (srv : Server.t) : Server.t :=
  match n with
  | O => srv
  | S n' =>
      (Server.add_training_sample camera 0%float
         (Some "s1") (Some "Hello") (Some "frame") (hello_frames n' srv)).2
  end.

(** The collector of a regular session s1 holding one Hello sample. *)
Definition one_hello : EnhancedTrainingCollector.t :=
  (EnhancedTrainingCollector.process_training_frame camera "Hello" "frame"
     (EnhancedTrainingCollector.start_training_session 0%float "s1" false None
        EnhancedTrainingCollector.init)).2.

(** The server after an admin session admin_level_1 stored one Happy
    sample for lesson_2. *)
Definition admin_happy : Server.t :=
  (Server.add_admin_training_sample camera 0%float (Some "admin_level_1")
     (Some "lesson_2") (Some "Happy") (Some "frame") server0).2.

(** The manager after lesson_1 was entered on [two_lessons]. *)
Definition in_lesson1 : IsolatedLevelModelManager.t :=
  (IsolatedLevelModelManager.enter_practice_mode two_lessons "lesson_1"
     IsolatedLevelModelManager.init).2.

(** A manager in practice mode whose network answers class 7 against the
    four labels of lesson_1. *)
Definition mismatched : IsolatedLevelModelManager.t := {|
  IsolatedLevelModelManager.level_models_dir := "level_models";
  IsolatedLevelModelManager.current_level_labels := ["Hello"; "Thank You"; "Yes"; "No"];
  IsolatedLevelModelManager.current_level_id := Some "lesson_1";
  IsolatedLevelModelManager.is_practice_mode := true;
  IsolatedLevelModelManager.current_level_model := Some net7;
  IsolatedLevelModelManager.current_level_rf_model := None;
  IsolatedLevelModelManager.current_level_metadata := Some lesson1_meta
|}.

End Scenario.

(** * Properties *)

(** ** Frame rules of the monad *)

Section Preserves.
Context {S : Type} (R : relation S) `{!PreOrder R}.

Lemma preserves_ret {A} (a : A) : preserves R (ret a).
Proof. intros s. reflexivity. Qed.

Lemma preserves_raise {A} (e : exn) : preserves R (raise (A := A) e).
Proof. intros s. reflexivity. Qed.

Lemma preserves_lift {A} (o : outcome A) : preserves R (lift o).
Proof. intros s. reflexivity. Qed.

Lemma preserves_get : preserves R get.
Proof. intros s. reflexivity. Qed.

Lemma preserves_modify (f : S → S) : (∀ s, R s (f s)) → preserves R (modify f).
Proof. intros Hf s. apply Hf. Qed.

Lemma preserves_bind {A B} (m : M S A) (k : A → M S B) :
  preserves R m → (∀ a, preserves R (k a)) → preserves R (bind m k).
Proof.
  intros Hm Hk s. unfold bind. specialize (Hm s).
  destruct (m s) as [[a|e] s']; simpl in *; [|exact Hm].
  etransitivity; [exact Hm|apply Hk].
Qed.

Lemma preserves_try_except {A} (m : M S A) (h : exn → M S A) :
  preserves R m → (∀ e, preserves R (h e)) → preserves R (try_except m h).
Proof.
  intros Hm Hh s. unfold try_except. specialize (Hm s).
  destruct (m s) as [[a|e] s']; simpl in *; [exact Hm|].
  etransitivity; [exact Hm|apply Hh].
Qed.

Lemma preserves_try_except_ValueError {A} (m h : M S A) :
  preserves R m → preserves R h → preserves R (try_except_ValueError m h).
Proof.
  intros Hm Hh s. unfold try_except_ValueError. specialize (Hm s).
  destruct (m s) as [[a|[]] s']; simpl in *; try exact Hm.
  etransitivity; [exact Hm|apply Hh].
Qed.
End Preserves.

(** Two frame rules that keep what a bind knows about its first step. *)
Lemma preserves_bind_lift {S A B} (R : relation S) `{!Reflexive R}
    (o : outcome A) (k : A → M S B) :
  (∀ a, o = Return a → preserves R (k a)) → preserves R (bind (lift o) k).
Proof.
  intros Hk s. unfold bind, lift. destruct o as [a|e]; [by apply Hk|reflexivity].
Qed.

Lemma preserves_bind_get {S B} (R : relation S) (k : S → M S B) :
  (∀ s, R s (k s s).2) → preserves R (bind get k).
Proof. intros Hk s. apply Hk. Qed.

(** Running a bind whose first computation returns. *)
Lemma bind_return {S A B} (m : M S A) (k : A → M S B) (s s' : S) (a : A) :
  m s = (Return a, s') → bind m k s = k a s'.
Proof. intros Hm. unfold bind. by rewrite Hm. Qed.

(** One step of a frame proof: follow the shape of the computation. *)
Ltac preserves_step :=
  lazymatch goal with
  | |- preserves _ (bind _ _) =>
      apply preserves_bind; [typeclasses eauto| |intros ?]
  | |- preserves _ (try_except_ValueError _ _) =>
      apply preserves_try_except_ValueError; [typeclasses eauto| |]
  | |- preserves _ (try_except _ _) =>
      apply preserves_try_except; [typeclasses eauto| |intros ?]
  | |- preserves _ (ret _) => apply preserves_ret; typeclasses eauto
  | |- preserves _ (raise _) => apply preserves_raise; typeclasses eauto
  | |- preserves _ (lift _) => apply preserves_lift; typeclasses eauto
  | |- preserves _ get => apply preserves_get; typeclasses eauto
  | |- preserves _ (if ?b then _ else _) => destruct b
  | |- preserves _ (match ?x with _ => _ end) => destruct x
  end.

(** ** Practice mode: leaving, and resolving a class index *)

Section PracticeMode.
Import IsolatedLevelModelManager.

Lemma exit_practice_mode_inactive (self : t) : inactive (exit_practice_mode self).
Proof. repeat split. Qed.

Lemma exit_practice_mode_keeps_dir (self : t) :
  level_models_dir (exit_practice_mode self) = level_models_dir self.
Proof. reflexivity. Qed.

(** C9. Leaving practice mode is idempotent: from every state of the
    manager, leaving twice gives exactly the state that leaving once
    gives; that state is the cleared one (no labels, no lesson id, no
    classifier, no metadata, practice flag false); and leaving from a
    cleared state changes nothing. *)
Theorem exit_practice_mode_idempotent (self : t) :
  exit_practice_mode (exit_practice_mode self) = exit_practice_mode self ∧
  inactive (exit_practice_mode self) ∧
  (inactive self → exit_practice_mode self = self).
Proof.
  split; [reflexivity|]. split; [apply exit_practice_mode_inactive|].
  destruct self as [d l i p m r j]; unfold inactive, exit_practice_mode; simpl.
  intros (-> & -> & -> & -> & -> & ->). reflexivity.
Qed.

Lemma exit_practice_mode_idempotent_witness :
  inactive init ∧ exit_practice_mode init = init.
Proof.
  assert (H : inactive init) by (repeat split).
  split; [exact H|].
  exact (proj2 (proj2 (exit_practice_mode_idempotent init)) H).
Defined.

(** The guarded lookup of a label never raises. *)
Lemma resolve_returns (labels : list string) (c : nat) (confidence : float) :
  ∃ r, resolve labels c confidence = Return r.
Proof.
  unfold resolve, list_get. case_bool_decide as Hc; [|eauto].
  destruct (lookup_lt_is_Some_2 labels c Hc) as [x ->]. simpl. eauto.
Qed.

Lemma resolve_out_of_range (labels : list string) (c : nat) (confidence : float) :
  length labels ≤ c → resolve labels c confidence = Return ("No model", 0%float).
Proof. intros Hc. unfold resolve. case_bool_decide; [lia|reflexivity]. Qed.

Lemma resolve_in_range (labels : list string) (c : nat) (confidence : float) gesture :
  labels !! c = Some gesture → resolve labels c confidence = Return (gesture, confidence).
Proof.
  intros Hc. unfold resolve, list_get. rewrite Hc.
  case_bool_decide as Hlt; [reflexivity|].
  apply lookup_lt_Some in Hc. lia.
Qed.

(** The [try] block raises only what the classifier itself raises. *)
Lemma level_prediction_raises (self : t) (a : features) (e : exn) :
  level_prediction self a = Raise e →
  (∃ net, current_level_model self = Some net ∧ net a = Raise e) ∨
  (∃ forest, current_level_model self = None ∧
             current_level_rf_model self = Some forest ∧ forest a = Raise e).
Proof.
  unfold level_prediction.
  destruct (current_level_model self) as [net|].
  - destruct (net a) as [out|e'] eqn:Hnet; simpl.
    + destruct (resolve_returns (gesture_labels self) (tf_predicted_class out)
                  (tf_confidence out)) as [r ->]. discriminate.
    + intros [= ->]. left. eauto.
  - destruct (current_level_rf_model self) as [forest|]; [|discriminate].
    destruct (forest a) as [out|e'] eqn:Hf; simpl.
    + destruct (resolve_returns (gesture_labels self) (rf_prediction out)
                  (rf_confidence out)) as [r ->]. discriminate.
    + intros [= ->]. right. eauto.
Qed.

(** C4. In practice mode, when the class index that the active model
    (the network if one is held, else the forest) yields for a vector is
    not a position of the label list it is resolved against, the body of
    the prediction returns ["No model"] with confidence 0 without raising:
    the label list is not indexed, and that is the result of the call. *)
Theorem predict_with_level_model_out_of_range (self : t) (a : features) (c : nat) :
  is_practice_mode self = true →
  active_class self a = Some c →
  length (gesture_labels self) ≤ c →
  level_prediction self a = Return ("No model", 0%float) ∧
  predict_with_level_model self a = ("No model", 0%float).
Proof.
  intros Hmode Hc Hlen.
  assert (Hbody : level_prediction self a = Return ("No model", 0%float)).
  { unfold level_prediction, active_class in *.
    destruct (current_level_model self) as [net|].
    - destruct (net a) as [out|]; [|discriminate]. simpl.
      injection Hc as <-. by apply resolve_out_of_range.
    - destruct (current_level_rf_model self) as [forest|]; [|discriminate].
      destruct (forest a) as [out|]; [|discriminate]. simpl.
      injection Hc as <-. by apply resolve_out_of_range. }
  split; [exact Hbody|].
  unfold predict_with_level_model. rewrite Hmode, Hbody. reflexivity.
Qed.

Lemma predict_with_level_model_out_of_range_witness :
  level_prediction Scenario.mismatched Scenario.flat_hand = Return ("No model", 0%float) ∧
  predict_with_level_model Scenario.mismatched Scenario.flat_hand = ("No model", 0%float).
Proof.
  apply (predict_with_level_model_out_of_range Scenario.mismatched Scenario.flat_hand 7).
  - reflexivity.
  - reflexivity.
  - simpl. lia.
Defined.

End PracticeMode.

(** ** The training collector: sessions and frames *)

Section Collector.
Import EnhancedTrainingCollector.

Lemma foldl_buckets_lookup {A} (gestures : list string)
    (d : gmap string (list A)) (g : string) :
  foldl (λ d gesture, <[gesture := []]> d) d gestures !! g =
    if bool_decide (g ∈ gestures) then Some [] else d !! g.
Proof.
  revert d. induction gestures as [|x gestures IH]; intros d; cbn [foldl].
  - rewrite bool_decide_eq_false_2; [done|apply not_elem_of_nil].
  - rewrite IH. destruct (decide (g ∈ gestures)) as [Hin|Hin].
    + rewrite !bool_decide_eq_true_2; [done|by right|done].
    + rewrite (bool_decide_eq_false_2 _ Hin).
      destruct (decide (x = g)) as [->|Hne].
      * rewrite lookup_insert_eq, bool_decide_eq_true_2; [done|by left].
      * rewrite lookup_insert_ne by done.
        rewrite bool_decide_eq_false_2; [done|].
        intros [->|?]%elem_of_cons; done.
Qed.

Lemma empty_buckets_lookup {A} (gestures : list string) (g : string) :
  (empty_buckets gestures : gmap string (list A)) !! g =
    if bool_decide (g ∈ gestures) then Some [] else None.
Proof. unfold empty_buckets. by rewrite foldl_buckets_lookup, lookup_empty. Qed.



(** The add-sample handlers start a session of their own when the request
    names a session other than the current one. *)
Lemma switch_session_replaces (now : float) (previous session_id : string)
    (is_admin_level : bool) (lesson_id : option string) (c : t) :
  current_session c = Some previous → previous ≠ EmptyString → session_id ≠ EmptyString →
  previous ≠ session_id →
  Server.switch_session now session_id is_admin_level lesson_id c =
    start_training_session now session_id is_admin_level lesson_id c.
Proof.
  intros Hc Hp Hs Hne. unfold Server.switch_session. rewrite Hc. simpl.
  rewrite (bool_decide_eq_false_2 (previous = EmptyString)) by done.
  rewrite (bool_decide_eq_false_2 (Some previous = Some session_id)) by congruence.
  simpl. rewrite (bool_decide_eq_false_2 (session_id = EmptyString)) by done. reflexivity.
Qed.

(** *** The invariant of the reachable states *)

Lemma dict_append_dom {A} (d d' : gmap string (list A)) k x g :
  dict_append d k x = Return d' → is_Some (d' !! g) → is_Some (d !! g).
Proof.
  unfold dict_append. destruct (d !! k) as [l|] eqn:Hk; [|discriminate].
  intros [= <-]. destruct (decide (k = g)) as [->|Hne].
  - by rewrite Hk.
  - by rewrite lookup_insert_ne.
Qed.

(** A frame never changes the vocabulary, and only ever fills a bucket
    that exists. *)
Lemma process_training_frame_frame (v : vision) (x img : value) (self : t) :
  current_lesson_gestures (process_training_frame v x img self).2
    = current_lesson_gestures self ∧
  current_session (process_training_frame v x img self).2 = current_session self ∧
  (∀ k, is_Some (training_features (process_training_frame v x img self).2 !! k) →
        is_Some (training_features self !! k)).
Proof.
  unfold process_training_frame.
  destruct (truthy (current_session self)); simpl; [|done].
  destruct x as [| | | |g| |]; try done.
  unfold bind, try_except, frame_attempt, bind, get, ret, lift, modify, py_strip.
  destruct (contains (valid_gestures self) (strip g)); simpl; [|done].
  destruct (decode v img) as [[picture|]|e]; simpl; [|done|done].
  destruct (extract_hand_landmarks v picture) as [[feats|] [|]]; simpl; try done.
  destruct (list_index (valid_gestures self) (strip g)) as [idx|e]; simpl; [|done].
  destruct (dict_append (training_features self) (strip g) feats)
    as [d|e] eqn:Hd; simpl; [|done].
  destruct (dict_append (training_labels self) (strip g) idx)
    as [l|e] eqn:Hl; simpl.
  - destruct (bucket_len d (strip g)); simpl;
      (split; [done|split; [done|]]); intros k; exact (dict_append_dom _ _ _ _ _ Hd).
  - (split; [done|split; [done|]]). intros k; exact (dict_append_dom _ _ _ _ _ Hd).
Qed.
End Collector.

Section Training.
Import EnhancedTrainingCollector.

(** With no sample gathered, [run_training] fails at once and touches
    neither the collector nor the disk. *)
Lemma run_training_no_data (est : estimators) (now : float)
    (is_admin_level : bool) (lesson_id : option string) (self : t) (fs : fsys) :
  (gather (if is_admin_level && truthy lesson_id
           then lesson_gestures lesson_id else ORIGINAL_LABELS) self).1 = [] →
  run_training est now is_admin_level lesson_id (self, fs)
    = (Return (false, 0%float), (self, fs)).
Proof.
  intros HX. unfold run_training, try_except, bind, get. simpl.
  rewrite HX. reflexivity.
Qed.

#[local] Instance kept_or_cleared_preorder : PreOrder kept_or_cleared.
Proof.
  split.
  - intros s. by left.
  - intros s1 s2 s3 [H12|H12] [H23|H23]; unfold kept_or_cleared;
      rewrite H23, H12; auto.
Qed.

Lemma on_disk_kept {A} (m : M fsys A) : preserves kept_or_cleared (on_disk m).
Proof. intros s. unfold on_disk. destruct (m s.2). by left. Qed.

(** A training run leaves the collector untouched or empties both of its
    dictionaries. *)
Lemma run_training_collector (est : estimators) (now : float)
    (is_admin_level : bool) (lesson_id : option string) :
  preserves kept_or_cleared (run_training est now is_admin_level lesson_id).
Proof.
  unfold run_training.
  repeat first [apply on_disk_kept | preserves_step].
  apply preserves_modify. intros s. by right.
Qed.
End Training.

Section Frames.
Import EnhancedTrainingCollector.

Lemma reachable_buckets_in_vocabulary (self : t) :
  reachable self → buckets_in_vocabulary self.
Proof.
  induction 1 as [|now sid admin lesson self _ IH|v g img self _ IH
                  |est now admin lesson self fs _ IH]; intros k Hk.
  - change (is_Some ((∅ : gmap string (list features)) !! k)) in Hk.
    rewrite lookup_empty in Hk. by destruct Hk.
  - simpl in *. rewrite empty_buckets_lookup in Hk.
    case_bool_decide; [done|by destruct Hk].
  - destruct (process_training_frame_frame v g img self) as (-> & _ & Hdom).
    apply IH, Hdom, Hk.
  - destruct (run_training_collector est now admin lesson (self, fs)) as [Heq|Heq];
      simpl in Heq; rewrite Heq in Hk |- *.
    + by apply IH.
    + change (is_Some ((∅ : gmap string (list features)) !! k)) in Hk.
      rewrite lookup_empty in Hk. by destruct Hk.
Qed.

(** A frame for which the front end yields no feature vector leaves the
    collector as it is and reports the count already held. *)
Lemma process_training_frame_no_sample (v : vision) (g : string) (img : value)
    (self : t) :
  truthy (current_session self) = true →
  contains (valid_gestures self) (strip g) = true →
  (∀ feats, sight v img ≠ Hand feats) →
  process_training_frame v g img self = (Return (sample_count self (strip g)), self).
Proof.
  intros Hs Hv Hsight. unfold process_training_frame. rewrite Hs. simpl.
  unfold bind, try_except, frame_attempt, bind, get, ret, lift, modify.
  rewrite Hv. simpl. unfold sight in Hsight.
  destruct (decode v img) as [[picture|]|e]; simpl; [|done|done].
  destruct (extract_hand_landmarks v picture) as [[feats|] [|]]; simpl; try done.
  by destruct (Hsight feats).
Qed.

(** A gesture name rejected by the membership test. *)
Lemma process_training_frame_invalid (v : vision) (g : string) (img : value)
    (self : t) :
  truthy (current_session self) = true →
  contains (valid_gestures self) (strip g) = false →
  process_training_frame v g img self = (Return 0, self).
Proof.
  intros Hs Hv. unfold process_training_frame. rewrite Hs. simpl.
  unfold bind, try_except, frame_attempt, bind, get, ret, lift, modify.
  rewrite Hv. reflexivity.
Qed.

(** A name that passes the test but has no bucket: the append raises
    [KeyError], which the handler turns into the count 0. *)
Lemma process_training_frame_no_bucket (v : vision) (g : string) (img : value)
    (self : t) :
  truthy (current_session self) = true →
  training_features self !! strip g = None →
  process_training_frame v g img self = (Return 0, self).
Proof.
  intros Hs Hnone. unfold process_training_frame. rewrite Hs. simpl.
  unfold bind, try_except, frame_attempt, bind, get, ret, lift, modify.
  assert (H0 : length (get_or_empty (training_features self) (strip g)) = 0)
    by (unfold get_or_empty; by rewrite Hnone).
  destruct (contains (valid_gestures self) (strip g)); simpl; [|done].
  destruct (decode v img) as [[picture|]|e]; simpl;
    [|by rewrite H0|by rewrite H0].
  destruct (extract_hand_landmarks v picture) as [[feats|] [|]]; simpl;
    try by rewrite H0.
  destruct (list_index (valid_gestures self) (strip g)) as [idx|e]; simpl;
    [|by rewrite H0].
  unfold dict_append. rewrite Hnone. simpl. by rewrite H0.
Qed.

(** On a string the first statement of the [try] block succeeds, and the
    rest of the call goes on with the stripped name. *)
Lemma process_training_frame_str (v : vision) (g : string) (img : value) (self : t) :
  process_training_frame v g img self =
    if negb (truthy (current_session self)) then (Return 0, self)
    else
      (r <- try_except (frame_attempt v (strip g) img) (λ _, ret None) ;;
       match r with
       | Some n => ret n
       | None =>
           self' <- get ;;
           ret (length (get_or_empty (training_features self') (strip g)))
       end)%py self.
Proof. reflexivity. Qed.

(** A name that is not a string: [strip] raises inside the [try] block,
    nothing is stored, and the final [return] looks the value itself up. *)
Lemma process_training_frame_not_str (v : vision) (x img : value) (self : t) :
  (∀ g : string, x ≠ PyStr g) →
  truthy (current_session self) = true →
  process_training_frame v x img self = (get_len (training_features self) x, self).
Proof.
  intros Hx Hs. unfold process_training_frame. rewrite Hs.
  destruct x as [| | | |g| |]; try reflexivity. by destruct (Hx g).
Qed.

Lemma process_training_frame_other (v : vision) (x img : value) (self : t) :
  (∀ g : string, x ≠ PyStr g) → (process_training_frame v x img self).2 = self.
Proof.
  intros Hx. destruct (truthy (current_session self)) eqn:Hs.
  - by rewrite process_training_frame_not_str.
  - unfold process_training_frame. by rewrite Hs.
Qed.

(** C5 (amended). In every state the collector can reach: with no
    current session a frame returns 0 and changes nothing; when the
    gesture name is a string that, once stripped of surrounding white
    space, is not in the vocabulary resolved for the current session, the
    frame returns 0, does not raise, and leaves the whole collector, hence
    every sample buffer, unchanged; so does a name that is [None], a
    [bool] or a number; a name that is a [list] or a [dict] makes the call
    raise [TypeError] once a session is current, the collector unchanged. *)
Theorem process_training_frame_rejects (v : vision) (x img : value) (self : t) :
  reachable self →
  (truthy (current_session self) = false →
     process_training_frame v x img self = (Return 0, self)) ∧
  (∀ g : string, x = PyStr g → strip g ∉ current_lesson_gestures self →
     process_training_frame v x img self = (Return 0, self)) ∧
  ((∀ g : string, x ≠ PyStr g) → hashable x = true →
     process_training_frame v x img self = (Return 0, self)) ∧
  (hashable x = false → truthy (current_session self) = true →
     process_training_frame v x img self = (Raise TypeError, self)).
Proof.
  intros Hreach. split_and!.
  - intros Hs. unfold process_training_frame. by rewrite Hs.
  - intros g -> Hnot.
    destruct (truthy (current_session self)) eqn:Hs;
      [|unfold process_training_frame; by rewrite Hs].
    apply process_training_frame_no_bucket; [done|].
    apply eq_None_not_Some. intros Hsome.
    by apply Hnot, (reachable_buckets_in_vocabulary self Hreach).
  - intros Hx Hhash.
    destruct (truthy (current_session self)) eqn:Hs;
      [|unfold process_training_frame; by rewrite Hs].
    rewrite process_training_frame_not_str by done.
    destruct x as [| | | |g| |]; try done. by destruct (Hx g).
  - intros Hhash Hs.
    rewrite process_training_frame_not_str; [by destruct x|by destruct x|done].
Qed.

Lemma process_training_frame_rejects_witness :
  process_training_frame Scenario.camera "Goodbye" "frame"
    (start_training_session 0%float "s1" false None init)
  = (Return 0, start_training_session 0%float "s1" false None init).
Proof.
  refine (proj1 (proj2 (process_training_frame_rejects Scenario.camera "Goodbye"
                          "frame"
                          (start_training_session 0%float "s1" false None init) _))
            "Goodbye" eq_refl _).
  - apply reachable_start, reachable_init.
  - vm_compute. intros H. repeat (inversion H as [|? ? ? H']; clear H; rename H' into H).
Defined.

(** C5, the claim as written fails: the name [" Hello "] is not in the
    vocabulary of a regular session, yet the frame is accepted, counted
    and stored under ["Hello"]. *)
Lemma padded_gesture_name_accepted :
  contains (current_lesson_gestures
              (start_training_session 0%float "s1" false None init)) " Hello "
    = false ∧
  (process_training_frame Scenario.camera " Hello " "frame"
     (start_training_session 0%float "s1" false None init)).1 = Return 1 ∧
  training_features
    (process_training_frame Scenario.camera " Hello " "frame"
       (start_training_session 0%float "s1" false None init)).2 !! "Hello"
    = Some [Scenario.flat_hand].
Proof. split; [|split]; vm_compute; reflexivity. Qed.

(** C10 (amended). [process_training_frame] returns a count and does not
    raise for every gesture name that can be hashed, so for every string,
    whatever the frame; for a name that is a [list] or a [dict] it raises
    [TypeError] once a session is current, because the final [return]
    stands after the handler.  When a session is current, the name is a
    string whose stripped form is valid and the front end yields no
    feature vector (it raised, the bytes are no image, or no hand was
    found), the collector is unchanged and the count returned is the
    number of samples already held for that gesture; so a frame on which
    the front end raised and a frame without a hand give the same
    answer. *)
Theorem process_training_frame_total (v : vision) (x img : value) (self : t) :
  (hashable x = true →
   ∃ n self', process_training_frame v x img self = (Return n, self')) ∧
  (hashable x = false → truthy (current_session self) = true →
   process_training_frame v x img self = (Raise TypeError, self)) ∧
  (∀ g : string, x = PyStr g →
   truthy (current_session self) = true →
   contains (valid_gestures self) (strip g) = true →
   (∀ feats, sight v img ≠ Hand feats) →
   process_training_frame v x img self = (Return (sample_count self (strip g)), self)) ∧
  (∀ img', (∀ feats, sight v img ≠ Hand feats) → (∀ feats, sight v img' ≠ Hand feats) →
           process_training_frame v x img self = process_training_frame v x img' self).
Proof.
  assert (Hstr : ∀ (g : string) img0,
             ∃ n self', process_training_frame v g img0 self = (Return n, self')).
  { intros g img0. rewrite process_training_frame_str.
    destruct (truthy (current_session self)); simpl; [|eauto].
    unfold bind at 1.
    destruct (try_except (frame_attempt v (strip g) img0) (λ _, ret None) self)
      as [[[n|]|e] self'] eqn:Htry; simpl; eauto.
    unfold try_except in Htry.
    by destruct (frame_attempt v (strip g) img0 self) as [[?|?] ?]. }
  split_and!.
  - intros Hhash. destruct x as [| | | |g| |]; try discriminate; try apply Hstr;
      (destruct (truthy (current_session self)) eqn:Hs;
       [rewrite process_training_frame_not_str by done; simpl; eauto
       |unfold process_training_frame; rewrite Hs; simpl; eauto]).
  - intros Hhash Hs.
    rewrite process_training_frame_not_str; [by destruct x|by destruct x|done].
  - intros g ->. apply process_training_frame_no_sample.
  - intros img' H1 H2.
    destruct (truthy (current_session self)) eqn:Hs;
      [|unfold process_training_frame; by rewrite Hs].
    destruct x as [| | | |g| |];
      try (rewrite !process_training_frame_not_str by done; reflexivity).
    destruct (contains (valid_gestures self) (strip g)) eqn:Hv.
    + by rewrite !process_training_frame_no_sample.
    + by rewrite !process_training_frame_invalid.
Qed.

(** After one Hello sample, a frame with malformed base64 (["!"]) and a
    frame without a hand (["blank"]) both answer 1. *)
Lemma process_training_frame_total_witness :
  process_training_frame Scenario.camera "Hello" "!"
    (process_training_frame Scenario.camera "Hello" "frame"
       (start_training_session 0%float "s1" false None init)).2
  = (Return 1,
     (process_training_frame Scenario.camera "Hello" "frame"
        (start_training_session 0%float "s1" false None init)).2) ∧
  process_training_frame Scenario.camera "Hello" "!"
    (process_training_frame Scenario.camera "Hello" "frame"
       (start_training_session 0%float "s1" false None init)).2
  = process_training_frame Scenario.camera "Hello" "blank"
      (process_training_frame Scenario.camera "Hello" "frame"
         (start_training_session 0%float "s1" false None init)).2.
Proof.
  split.
  - refine (proj1 (proj2 (proj2
              (process_training_frame_total Scenario.camera "Hello" "!" _)))
              "Hello" eq_refl _ _ _).
    + reflexivity.
    + reflexivity.
    + intros feats. vm_compute. discriminate.
  - refine (proj2 (proj2 (proj2
              (process_training_frame_total Scenario.camera "Hello" "!" _)))
              "blank" _ _).
    + intros feats. vm_compute. discriminate.
    + intros feats. vm_compute. discriminate.
Defined.

(** C10, the claim as written fails: with a session current, a gesture
    name that is the list [["Hello"]], which the add-sample handlers let
    through since it is truthy, makes the call raise [TypeError]. *)
Lemma unhashable_gesture_name_raises :
  process_training_frame Scenario.camera (PyList [PyStr "Hello"]) "frame"
    (start_training_session 0%float "s1" false None init)
  = (Raise TypeError, start_training_session 0%float "s1" false None init).
Proof. reflexivity. Qed.
End Frames.

(** ** The default model *)

Section DefaultModel.
Import ASLModel.

Lemma rows3_lookup (a : features) (n i : nat) :
  i < n → rows3 a n !! i = Some (take 3 (drop (3 * i) a)).
Proof.
  revert a i. induction n as [|n IH]; intros a i Hi; [lia|].
  destruct i as [|i]; simpl.
  - reflexivity.
  - rewrite IH by lia. rewrite drop_drop. do 3 f_equal. lia.
Qed.

Lemma y_of_returns (a : features) (i : nat) :
  length a = 63 → i < 21 → ∃ y, y_of (rows3 a 21) i = Return y.
Proof.
  intros Hlen Hi. unfold y_of, list_get. rewrite rows3_lookup by done.
  cbn [obind]. rewrite lookup_take_lt by lia. rewrite lookup_drop.
  destruct (lookup_lt_is_Some_2 a (3 * i + 1)) as [y ->]; [lia|]. eauto.
Qed.

Lemma finger_up_returns (a : features) (tip joint : nat) :
  length a = 63 → tip < 21 → joint < 21 →
  ∃ b, finger_up (rows3 a 21) tip joint = Return b.
Proof.
  intros Hlen Ht Hj. unfold finger_up.
  destruct (y_of_returns a tip Hlen Ht) as [ty ->].
  destruct (y_of_returns a joint Hlen Hj) as [jy ->]. simpl. eauto.
Qed.

(** On a vector of 63 components the heuristic always answers. *)
Lemma rule_based_prediction_returns (a : features) :
  length a = 63 → ∃ r, rule_based_prediction a = Return r.
Proof.
  intros Hlen. unfold rule_based_prediction, reshape_21_3.
  rewrite bool_decide_eq_true_2 by done. cbn [obind].
  destruct (finger_up_returns a 4 3 Hlen) as [thumb ->]; [lia..|].
  destruct (finger_up_returns a 8 6 Hlen) as [index ->]; [lia..|].
  destruct (finger_up_returns a 12 10 Hlen) as [middle ->]; [lia..|].
  destruct (finger_up_returns a 16 14 Hlen) as [ring ->]; [lia..|].
  destruct (finger_up_returns a 20 18 Hlen) as [pinky ->]; [lia..|].
  cbn [obind].
  destruct thumb, index, middle, ring, pinky; vm_compute; eauto.
Qed.

Lemma label_of_returns (c : nat) :
  label_of c = Return (default "Unknown" (ORIGINAL_LABELS !! c)).
Proof.
  unfold label_of, list_get. case_bool_decide as Hc.
  - destruct (lookup_lt_is_Some_2 ORIGINAL_LABELS c Hc) as [x ->]. reflexivity.
  - rewrite (lookup_ge_None_2 ORIGINAL_LABELS c) by lia. reflexivity.
Qed.



End DefaultModel.

(** ** Practice mode: entering a lesson *)

Section EnterLesson.
Import IsolatedLevelModelManager.

#[local] Instance same_context_preorder : PreOrder same_context.
Proof.
  split.
  - by intros s.
  - intros s1 s2 s3 (? & ? & ? & ?) (? & ? & ? & ?).
    unfold same_context. repeat split; congruence.
Qed.

(** Loading touches neither the directory, the labels, the lesson id nor
    the practice flag. *)
Lemma load_level_model_context (fs : fsys) (lesson_id : string) :
  preserves same_context (_load_level_model fs lesson_id).
Proof.
  unfold _load_level_model.
  repeat first [by apply preserves_modify | preserves_step].
Qed.

Lemma load_level_model_missing (fs : fsys) (lesson_id : string) (self : t) :
  Fs.exists_ fs (lesson_model_path self lesson_id) = false →
  _load_level_model fs lesson_id self = (Return false, self).
Proof.
  intros Hmissing. unfold _load_level_model, try_except, bind, get.
  by rewrite Hmissing.
Qed.

(** [_load_level_model] has a handler around its whole body. *)
Lemma load_level_model_returns (fs : fsys) (lesson_id : string) (self : t) :
  ∃ loaded self', _load_level_model fs lesson_id self = (Return loaded, self').
Proof.
  unfold _load_level_model, try_except at 1.
  match goal with |- context [match ?m self with _ => _ end] => destruct (m self) as [[b|e] s'] end;
    eauto.
Qed.

(** [enter_practice_mode], step by step. *)
Lemma enter_practice_mode_unfold (fs : fsys) (lesson_id : string) (self : t) :
  enter_practice_mode fs lesson_id self =
    match _load_level_model fs lesson_id
            (set_current_level_labels
               (default [] (PRACTICE_LEVEL_GESTURES !! lesson_id))
               (set_current_level_id (Some lesson_id) self)) with
    | (Return true, s) => (Return true, set_is_practice_mode true s)
    | (_, s) => (Return false, s)
    end.
Proof.
  unfold enter_practice_mode, try_except at 1, bind, modify, ret.
  destruct (load_level_model_returns fs lesson_id
              (set_current_level_labels
                 (default [] (PRACTICE_LEVEL_GESTURES !! lesson_id))
                 (set_current_level_id (Some lesson_id) self)))
    as (loaded & s & ->).
  by destruct loaded.
Qed.

Lemma enter_practice_mode_returns (fs : fsys) (lesson_id : string) (self : t) :
  ∃ ok self', enter_practice_mode fs lesson_id self = (Return ok, self').
Proof.
  rewrite enter_practice_mode_unfold.
  destruct (_load_level_model _ _ _) as [[[|]|e] s]; eauto.
Qed.

(** C2 (amended). When entering a lesson fails, the practice flag and
    the model directory are as before the call, but the lesson id and the
    label list are those of the requested lesson; when the failure is a
    missing artifact directory, the classifiers and the metadata held are
    as before the call. *)
Theorem enter_practice_mode_failure (fs : fsys) (lesson_id : string) (self self' : t) :
  enter_practice_mode fs lesson_id self = (Return false, self') →
  is_practice_mode self' = is_practice_mode self ∧
  level_models_dir self' = level_models_dir self ∧
  current_level_id self' = Some lesson_id ∧
  current_level_labels self' = default [] (PRACTICE_LEVEL_GESTURES !! lesson_id) ∧
  (Fs.exists_ fs (lesson_model_path self lesson_id) = false →
     current_level_model self' = current_level_model self ∧
     current_level_rf_model self' = current_level_rf_model self ∧
     current_level_metadata self' = current_level_metadata self).
Proof.
  rewrite enter_practice_mode_unfold.
  set (s2 := set_current_level_labels _ _).
  pose proof (load_level_model_context fs lesson_id s2) as (Hd & Hl & Hi & Hp).
  intros Henter.
  assert (Hs : (_load_level_model fs lesson_id s2).2 = self').
  { destruct (_load_level_model fs lesson_id s2) as [[[|]|e] s];
      simpl in *; congruence. }
  rewrite Hs in Hd, Hl, Hi, Hp. split_and!; try done.
  intros Hmissing.
  rewrite (load_level_model_missing fs lesson_id s2) in Hs by exact Hmissing.
  by subst self'.
Qed.

Lemma enter_practice_mode_failure_witness :
  current_level_id
    (enter_practice_mode ∅ "lesson_1" Scenario.in_lesson1).2 = Some "lesson_1" ∧
  is_practice_mode
    (enter_practice_mode ∅ "lesson_1" Scenario.in_lesson1).2 = true.
Proof.
  pose proof (enter_practice_mode_failure ∅ "lesson_1" Scenario.in_lesson1
                (enter_practice_mode ∅ "lesson_1" Scenario.in_lesson1).2
                eq_refl) as (Hp & _ & Hi & _).
  split; [exact Hi|]. rewrite Hp. reflexivity.
Defined.

(** C2, the claim as written fails: entering lesson_1 on an empty disk
    fails, yet the manager, cleared before the call, now names lesson_1
    and holds its four labels. *)
Lemma failed_enter_changes_state :
  (enter_practice_mode ∅ "lesson_1" init).1 = Return false ∧
  current_level_id init = None ∧
  current_level_id (enter_practice_mode ∅ "lesson_1" init).2 = Some "lesson_1" ∧
  current_level_labels init = [] ∧
  current_level_labels (enter_practice_mode ∅ "lesson_1" init).2
    = ["Hello"; "Thank You"; "Yes"; "No"].
Proof. repeat split; vm_compute; reflexivity. Qed.

Lemma keras_load_model_inv (fs : fsys) (p : string) (m : tf_model) :
  Fs.keras_load_model fs p = Return m → fs !! p = Some (SavedModel m).
Proof. unfold Fs.keras_load_model. destruct (fs !! p) as [[]|]; congruence. Qed.

Lemma pickle_load_inv (fs : fsys) (p : string) (m : rf_model) :
  Fs.pickle_load fs p = Return m → fs !! p = Some (PickleFile m).
Proof. unfold Fs.pickle_load. destruct (fs !! p) as [[]|]; congruence. Qed.

Lemma json_load_inv (fs : fsys) (p : string) (j : metadata) :
  Fs.json_load fs p = Return j → fs !! p = Some (JsonFile j).
Proof. unfold Fs.json_load. destruct (fs !! p) as [[]|]; congruence. Qed.

#[local] Instance keeps_held_preorder fs lesson_id d : PreOrder (keeps_held fs lesson_id d).
Proof.
  split.
  - intros s H. exact H.
  - intros s1 s2 s3 H12 H23 H1. apply H23, H12, H1.
Qed.

(** Loading keeps "everything held comes from the artifact" true. *)
Lemma load_level_model_keeps_held (fs : fsys) (lesson_id d : string) :
  preserves (keeps_held fs lesson_id d) (_load_level_model fs lesson_id).
Proof.
  unfold _load_level_model.
  apply preserves_try_except; [typeclasses eauto| |intros; preserves_step].
  apply preserves_bind_get. intros self.
  destruct (decide (level_models_dir self = d)) as [Hd|Hd]; [|by intros [? _]].
  lazymatch goal with
  | |- keeps_held _ _ _ self (?m self).2 =>
      cut (preserves (keeps_held fs lesson_id d) m); [intros Hm; apply Hm|]
  end.
  assert (Hleaf_meta : ∀ j, Fs.json_load fs (metadata_path self lesson_id) = Return j →
            preserves (keeps_held fs lesson_id d) (modify (set_current_level_metadata (Some j)))).
  { intros j Hj%json_load_inv. apply preserves_modify.
    intros s (Hds & Hn & Hf & Hm). split; [done|].
    unfold held_from_artifact, metadata_path, tf_model_path, rf_model_path, lesson_model_path in *.
    simpl in *. rewrite Hds, <- Hd. split_and!; try (rewrite Hd, <- Hds; done).
    by intros ? [= <-]. }
  assert (Hleaf_net : ∀ m, Fs.keras_load_model fs (tf_model_path self lesson_id) = Return m →
            preserves (keeps_held fs lesson_id d) (modify (set_current_level_model (Some m)))).
  { intros m Hm%keras_load_model_inv. apply preserves_modify.
    intros s (Hds & Hn & Hf & Hj). split; [done|].
    unfold held_from_artifact, metadata_path, tf_model_path, rf_model_path, lesson_model_path in *.
    simpl in *. rewrite Hds, <- Hd. split_and!; try (rewrite Hd, <- Hds; done).
    by intros ? [= <-]. }
  assert (Hleaf_forest : ∀ m, Fs.pickle_load fs (rf_model_path self lesson_id) = Return m →
            preserves (keeps_held fs lesson_id d)
              (modify (set_current_level_rf_model (Some m)))).
  { intros m Hm%pickle_load_inv. apply preserves_modify.
    intros s (Hds & Hn & Hf & Hj). split; [done|].
    unfold held_from_artifact, metadata_path, tf_model_path, rf_model_path, lesson_model_path in *.
    simpl in *. rewrite Hds, <- Hd. split_and!; try (rewrite Hd, <- Hds; done).
    by intros ? [= <-]. }
  assert (Hnone_net : preserves (keeps_held fs lesson_id d)
                        (modify (set_current_level_model None))).
  { apply preserves_modify. intros s (Hds & Hn & Hf & Hj). by split. }
  assert (Hnone_forest : preserves (keeps_held fs lesson_id d)
                           (modify (set_current_level_rf_model None))).
  { apply preserves_modify. intros s (Hds & Hn & Hf & Hj). by split. }
  repeat first
    [ apply preserves_bind_lift; [typeclasses eauto|intros ? ?; by eauto]
    | assumption
    | preserves_step ].
Qed.

(** Entering a lesson from a manager that holds nothing, a cleared one in
    particular, yields a context taken entirely from that lesson's
    artifact. *)
Lemma enter_practice_mode_held (fs : fsys) (lesson_id : string) (self self' : t)
    (ok : bool) :
  held_from_artifact fs lesson_id self →
  enter_practice_mode fs lesson_id self = (Return ok, self') →
  held_from_artifact fs lesson_id self'.
Proof.
  intros Hheld. rewrite enter_practice_mode_unfold.
  set (s2 := set_current_level_labels _ _).
  pose proof (load_level_model_keeps_held fs lesson_id (level_models_dir self) s2)
    as Hload.
  destruct (_load_level_model fs lesson_id s2) as [[[|]|e] s] eqn:Hs; simpl in Hload;
    intros [= <- <-]; by apply Hload.
Qed.

Lemma inactive_held (fs : fsys) (lesson_id : string) (self : t) :
  inactive self → held_from_artifact fs lesson_id self.
Proof.
  intros (_ & _ & _ & Hn & Hf & Hj). unfold held_from_artifact.
  rewrite Hn, Hf, Hj. by split_and!.
Qed.

(** The /practice/start handler refuses a lesson without a directory before
    it calls the manager: at that boundary nothing changes. *)
Lemma start_practice_mode_missing_directory (lesson_id : string) (srv : Server.t) :
  lesson_id ≠ EmptyString →
  Fs.exists_ (Server.disk srv) ("level_models/" +:+ lesson_id) = false →
  Server.start_practice_mode (Some lesson_id) srv = (Server.Err404, srv).
Proof.
  intros Hne Hmissing. unfold Server.start_practice_mode. simpl.
  rewrite (bool_decide_eq_false_2 (lesson_id = EmptyString)) by done. simpl.
  by rewrite Hmissing.
Qed.

(** The disk of the failing case below is one the server produces itself:
    an admin session collects one Happy sample for lesson_2 and the lesson
    training stops at the network, after the forest was written. *)
Lemma partial_artifact_after_failed_lesson_training :
  (Server.complete_admin_level_training Scenario.no_keras 0%float
     (Some "admin_level_1") (Some "lesson_2")
     (Server.add_admin_training_sample Scenario.camera 0%float
        (Some "admin_level_1") (Some "lesson_2") (Some "Happy") (Some "frame")
        {| Server.asl_model := ASLModel.init Scenario.here Scenario.lesson1_only;
           Server.training_collector := EnhancedTrainingCollector.init;
           Server.isolated_level_manager := init;
           Server.module_dir := Scenario.here;
           Server.disk := Scenario.lesson1_only |}).2).1.1 = Server.Err500 ∧
  Server.disk
    (Server.complete_admin_level_training Scenario.no_keras 0%float
       (Some "admin_level_1") (Some "lesson_2")
       (Server.add_admin_training_sample Scenario.camera 0%float
          (Some "admin_level_1") (Some "lesson_2") (Some "Happy") (Some "frame")
          {| Server.asl_model := ASLModel.init Scenario.here Scenario.lesson1_only;
             Server.training_collector := EnhancedTrainingCollector.init;
             Server.isolated_level_manager := init;
             Server.module_dir := Scenario.here;
             Server.disk := Scenario.lesson1_only |}).2).2
    = Scenario.two_lessons.
Proof. split; vm_compute; reflexivity. Qed.

(** C3, evaluated where it fails: lesson_1 is active with its network,
    forest and metadata; the directory of lesson_2 holds a forest only.
    Entering lesson_2 succeeds, and the manager still holds the network
    and the metadata of lesson_1, neither of which exists under lesson_2;
    the next prediction is made by lesson_1's network against lesson_1's
    labels. *)
Theorem enter_practice_mode_keeps_stale_model :
  (enter_practice_mode Scenario.two_lessons "lesson_2" Scenario.in_lesson1).1
    = Return true ∧
  current_level_id
    (enter_practice_mode Scenario.two_lessons "lesson_2" Scenario.in_lesson1).2
    = Some "lesson_2" ∧
  current_level_model
    (enter_practice_mode Scenario.two_lessons "lesson_2" Scenario.in_lesson1).2
    = Some Scenario.net1 ∧
  current_level_metadata
    (enter_practice_mode Scenario.two_lessons "lesson_2" Scenario.in_lesson1).2
    = Some Scenario.lesson1_meta ∧
  Scenario.two_lessons !! "level_models/lesson_2/asl_model_tf" = None ∧
  Scenario.two_lessons !! "level_models/lesson_2/training_metadata.json" = None ∧
  predict_with_level_model
    (enter_practice_mode Scenario.two_lessons "lesson_2" Scenario.in_lesson1).2
    Scenario.flat_hand = ("Thank You", 1%float) ∧
  ¬ held_from_artifact Scenario.two_lessons "lesson_2"
      (enter_practice_mode Scenario.two_lessons "lesson_2" Scenario.in_lesson1).2.
Proof.
  split_and!; try (vm_compute; reflexivity).
  intros (Hnet & _ & _).
  specialize (Hnet Scenario.net1 eq_refl). vm_compute in Hnet. discriminate.
Qed.
End EnterLesson.

(** ** Completing a training run *)

Section CompleteTraining.
Import EnhancedTrainingCollector.

(** [run_training] has a handler around its whole body. *)
Lemma run_training_returns (est : estimators) (now : float)
    (is_admin_level : bool) (lesson_id : option string) (s : t * fsys) :
  ∃ r s', run_training est now is_admin_level lesson_id s = (Return r, s').
Proof.
  unfold run_training, try_except at 1.
  match goal with
  | |- context [match ?m s with _ => _ end] => destruct (m s) as [[r|e] s']
  end; eauto.
Qed.

(** C1 (amended). A failed regular training run makes the handler clear
    the default model held in memory: afterwards no network is held, and
    outside practice mode every prediction is the rule-based one, not that
    of the model loaded before; when the run failed for want of samples
    the disk is as before.  A lesson training run, failed or not, leaves
    the default model held in memory untouched. *)
Theorem failed_training_default_model (est : estimators) (now : float)
    (session_id lesson_id : option string) (srv : Server.t) :
  (∀ accuracy srv',
      Server.complete_training est now session_id srv = (Server.Err500, accuracy, srv') →
      Server.asl_model srv'
        = {| ASLModel.model := None; ASLModel.model_loaded := false |} ∧
      (IsolatedLevelModelManager.is_practice_mode
         (Server.isolated_level_manager srv') = false →
       ∀ a, Server.predict_features srv' a = ASLModel.rule_based_prediction a) ∧
      ((gather ORIGINAL_LABELS (Server.training_collector srv)).1 = [] →
       Server.disk srv' = Server.disk srv)) ∧
  (∀ st accuracy srv',
      Server.complete_admin_level_training est now session_id lesson_id srv
        = (st, accuracy, srv') →
      Server.asl_model srv' = Server.asl_model srv).
Proof.
  split.
  - intros accuracy srv'. unfold Server.complete_training.
    destruct (truthy session_id); simpl; [|discriminate].
    destruct (run_training est now false None
                (Server.training_collector srv, Server.disk srv))
      as [r [c fs]] eqn:Hrun.
    intros Hreply.
    assert (Hsrv : srv' = {| Server.asl_model :=
                               {| ASLModel.model := None;
                                  ASLModel.model_loaded := false |};
                             Server.training_collector := c;
                             Server.isolated_level_manager :=
                               Server.isolated_level_manager srv;
                             Server.module_dir := Server.module_dir srv;
                             Server.disk := fs |}).
    { destruct r as [[[|] acc]|e]; simpl in Hreply; congruence. }
    subst srv'. simpl. split_and!.
    + reflexivity.
    + intros Hmode a. unfold Server.predict_features. simpl. by rewrite Hmode.
    + intros HX.
      rewrite (run_training_no_data est now false None) in Hrun by exact HX.
      congruence.
  - intros st accuracy srv'. unfold Server.complete_admin_level_training.
    destruct session_id as [sid|]; [|by intros [= <- <- <-]].
    destruct (truthy (Some sid) && truthy lesson_id); [|by intros [= <- <- <-]].
    destruct (negb (Server.is_admin_session sid)); [by intros [= <- <- <-]|].
    destruct (run_training est now true lesson_id
                (Server.training_collector srv, Server.disk srv))
      as [r [c fs]].
    destruct r as [[[|] acc]|e]; by intros [= <- <- <-].
Qed.

(** C1, the claim as written fails: the server holds a default network
    that answers "No"; completing a session without samples fails, the
    handler clears the model, and the next default-mode prediction is the
    rule-based "Thank You". *)
Lemma failed_training_clears_default_model :
  (Server.complete_training Scenario.sklearn 0%float (Some "s1") Scenario.server0).1.1
    = Server.Err500 ∧
  ASLModel.model (Server.asl_model Scenario.server0) = Some Scenario.net1 ∧
  Server.predict_features Scenario.server0 Scenario.flat_hand
    = Return ("No", 1%float) ∧
  ASLModel.model
    (Server.asl_model
       (Server.complete_training Scenario.sklearn 0%float (Some "s1")
          Scenario.server0).2) = None ∧
  Server.predict_features
    (Server.complete_training Scenario.sklearn 0%float (Some "s1") Scenario.server0).2
    Scenario.flat_hand = Return ("Thank You", 0.6%float).
Proof. split_and!; vm_compute; reflexivity. Qed.

(** A regular run that fails after the cleaning step has already removed
    the default network from the disk: one Hello sample, a forest that
    cannot be fitted. *)
Lemma failed_fit_removes_default_artifact :
  Server.disk (Scenario.hello_frames 1 Scenario.server0) !! "models/asl_model_tf"
    = Some (SavedModel Scenario.net1) ∧
  (Server.complete_training Scenario.broken_sklearn 0%float (Some "s1")
     (Scenario.hello_frames 1 Scenario.server0)).1.1 = Server.Err500 ∧
  Server.disk
    (Server.complete_training Scenario.broken_sklearn 0%float (Some "s1")
       (Scenario.hello_frames 1 Scenario.server0)).2 !! "models/asl_model_tf" = None.
Proof. split_and!; vm_compute; reflexivity. Qed.
End CompleteTraining.

Section ClassDiversity.
Import EnhancedTrainingCollector.

Lemma gather_step_length (self : t) (gs : list string) (Xy : list features * list nat) :
  length Xy.1 ≤
    length (foldl (λ Xy gesture_name,
                     let feats := get_or_empty (training_features self) gesture_name in
                     let labels := get_or_empty (training_labels self) gesture_name in
                     if bool_decide (0 < length feats)
                     then (Xy.1 ++ feats, Xy.2 ++ labels)
                     else Xy) Xy gs).1.
Proof.
  revert Xy. induction gs as [|x gs IH]; intros Xy; cbn [foldl]; [done|].
  etransitivity; [|apply IH].
  case_bool_decide; simpl; [rewrite length_app; lia|done].
Qed.

Lemma gather_step_member (self : t) (gs : list string) (g : string)
    (Xy : list features * list nat) :
  g ∈ gs →
  length Xy.1 + sample_count self g ≤
    length (foldl (λ Xy gesture_name,
                     let feats := get_or_empty (training_features self) gesture_name in
                     let labels := get_or_empty (training_labels self) gesture_name in
                     if bool_decide (0 < length feats)
                     then (Xy.1 ++ feats, Xy.2 ++ labels)
                     else Xy) Xy gs).1.
Proof.
  revert Xy. induction gs as [|x gs IH]; intros Xy Hg; [by apply elem_of_nil in Hg|].
  cbn [foldl]. apply elem_of_cons in Hg as [<-|Hg].
  - etransitivity; [|apply gather_step_length].
    unfold sample_count. case_bool_decide; simpl; [rewrite length_app; lia|lia].
  - etransitivity; [|apply IH; exact Hg].
    case_bool_decide; simpl; [rewrite length_app; lia|done].
Qed.

(** Every sample of a gesture of the vocabulary is gathered. *)
Lemma gather_member (self : t) (gs : list string) (g : string) :
  g ∈ gs → sample_count self g ≤ length (gather gs self).1.
Proof. intros Hg. apply (gather_step_member self gs g ([], []) Hg). Qed.

(** Removing a tree touches the directory and what lies below it. *)
Lemma rmtree_lookup (d p : string) (fs : fsys) :
  p ≠ d → Fs.below d p = false → (Fs.rmtree d fs).2 !! p = fs !! p.
Proof.
  intros Hne Hbelow. unfold Fs.rmtree. cbn [snd]. apply option_eq. intros x.
  rewrite map_lookup_filter_Some. cbn [fst]. tauto.
Qed.

Lemma remove_path_lookup (fs : fsys) (target p : string) :
  p ≠ target → Fs.below target p = false → remove_path fs target !! p = fs !! p.
Proof.
  intros Hne Hbelow. unfold remove_path.
  destruct (Fs.isdir fs target); [by apply rmtree_lookup|].
  by apply lookup_delete_ne.
Qed.


(** A path that is none of the targets and lies below none of them is
    left alone. *)
Lemma remove_all_lookup (targets : list string) (fs : fsys) (p : string) :
  Forall (λ target, p ≠ target ∧ Fs.below target p = false) targets →
  (remove_all targets fs).2 !! p = fs !! p.
Proof.
  unfold remove_all. simpl. revert fs.
  induction targets as [|x targets IH]; intros fs Hp; cbn [foldl]; [done|].
  apply Forall_cons in Hp as [[Hne Hbelow] Hp]. rewrite IH by done.
  destruct (Fs.exists_ fs x); [by apply remove_path_lookup|done].
Qed.

(** A directory that has no directory above it. *)
Lemma makedirs_isdir (fs : fsys) (p : string) :
  Fs.parents p = [] → Fs.isdir fs p = true → Fs.makedirs p fs = (Return tt, fs).
Proof.
  intros Htop. unfold Fs.isdir, Fs.makedirs, Fs.ensure_dir. rewrite Htop.
  cbn [foldr]. by destruct (fs !! p) as [[]|].
Qed.

(** Cleaning succeeds unless [models] is a plain file, and leaves a
    directory there. *)
Lemma clean_old_models_returns (fs : fsys) :
  fs !! "models" = None ∨ Fs.isdir fs "models" = true →
  ∃ fs', clean_old_models fs = (Return tt, fs') ∧ Fs.isdir fs' "models" = true.
Proof.
  intros Hmodels. unfold clean_old_models, bind.
  set (targets := ["models/asl_model.pkl"; "models/asl_model_tf";
                   "asl_model_tf"; "asl_model.pkl"]).
  assert (Hkeep : (remove_all targets fs).2 !! "models" = fs !! "models").
  { apply remove_all_lookup. unfold targets. by repeat constructor. }
  destruct (remove_all targets fs) as [r fs1] eqn:Hrm.
  assert (r = Return tt) as -> by (unfold remove_all in Hrm; congruence).
  simpl in Hkeep. unfold Fs.makedirs, Fs.ensure_dir, Fs.isdir in *.
  change (Fs.parents "models") with (@nil string). cbn [foldr].
  rewrite <- Hkeep in Hmodels.
  destruct (fs1 !! "models") as [[]|] eqn:Hm;
    try (destruct Hmodels; discriminate);
    eexists; (split; [reflexivity|]); rewrite ?lookup_insert_eq, ?Hm; reflexivity.
Qed.

(** With samples gathered, a regular run succeeds as soon as the split,
    the two fits and the writes do. *)
Lemma run_training_succeeds (est : estimators) (now : float) (self : t) (fs : fsys)
    (sp : split) (rf : rf_model * float) (tf : tf_model * float) :
  (gather ORIGINAL_LABELS self).1 ≠ [] →
  fs !! "models" = None ∨ Fs.isdir fs "models" = true →
  train_test_split est (gather ORIGINAL_LABELS self).1
      (gather ORIGINAL_LABELS self).2 true = Return sp ∨
    (train_test_split est (gather ORIGINAL_LABELS self).1
       (gather ORIGINAL_LABELS self).2 true = Raise ValueError ∧
     train_test_split est (gather ORIGINAL_LABELS self).1
       (gather ORIGINAL_LABELS self).2 false = Return sp) →
  fit_random_forest est sp = Return rf →
  fit_neural_network est (length ORIGINAL_LABELS)
    (gather ORIGINAL_LABELS self).1 sp = Return tf →
  can_write est "models/asl_model.pkl" = true →
  can_write est "models/asl_model_tf" = true →
  can_write est "models/training_metadata.json" = true →
  (run_training est now false None (self, fs)).1 = Return (true, py_max rf.2 tf.2).
Proof.
  intros HX Hmodels Hsplit Hrf Htf Hw1 Hw2 Hw3.
  change "models/asl_model.pkl" with (path_join "models" "asl_model.pkl") in Hw1.
  change "models/asl_model_tf" with (path_join "models" "asl_model_tf") in Hw2.
  change "models/training_metadata.json"
    with (path_join "models" "training_metadata.json") in Hw3.
  destruct (clean_old_models_returns fs Hmodels) as (fs1 & Hclean & Hdir).
  unfold run_training, try_except, bind at 1, get.
  cbn [andb].
  set (X := (gather ORIGINAL_LABELS self).1) in *.
  set (y := (gather ORIGINAL_LABELS self).2) in *.
  cbn [fst snd].
  rewrite bool_decide_eq_false_2 by (by intros H0%nil_length_inv).
  unfold bind at 1. unfold bind at 1. unfold on_disk at 1. cbn [fst snd].
  rewrite Hclean.
  unfold bind at 1. unfold on_disk at 1. cbn [fst snd].
  rewrite (makedirs_isdir fs1 "models" eq_refl Hdir). unfold ret at 1.
  fold X y.
  erewrite bind_return; cycle 1.
  { unfold try_except_ValueError, lift.
    destruct Hsplit as [->|[-> ->]]; reflexivity. }
  erewrite bind_return; [|unfold lift; rewrite Hrf; reflexivity].
  erewrite bind_return; [|unfold on_disk, write; rewrite Hw1; reflexivity].
  erewrite bind_return; [|unfold lift; rewrite Htf; reflexivity].
  erewrite bind_return; [|unfold on_disk, write; rewrite Hw2; reflexivity].
  erewrite bind_return; [|unfold on_disk, write; rewrite Hw3; reflexivity].
  erewrite bind_return; [|reflexivity].
  erewrite bind_return; [|reflexivity].
  reflexivity.
Qed.

(** C7 (amended). Training makes no class-diversity check.  In a
    regular session in which some gesture of the default vocabulary has
    samples, be it one gesture only, completing training answers success
    with the better of the two accuracies whenever the split (stratified,
    or unstratified after a [ValueError]), the two fits and the three writes
    succeed and [models] is not a plain file; it fails only when one of
    these steps raises. *)
Theorem complete_training_needs_no_class_diversity (est : estimators) (now : float)
    (session_id : option string) (srv : Server.t) (g : string)
    (sp : split) (rf : rf_model * float) (tf : tf_model * float) :
  truthy session_id = true →
  g ∈ ORIGINAL_LABELS →
  0 < sample_count (Server.training_collector srv) g →
  Server.disk srv !! "models" = None ∨ Fs.isdir (Server.disk srv) "models" = true →
  train_test_split est (gather ORIGINAL_LABELS (Server.training_collector srv)).1
      (gather ORIGINAL_LABELS (Server.training_collector srv)).2 true = Return sp ∨
    (train_test_split est (gather ORIGINAL_LABELS (Server.training_collector srv)).1
       (gather ORIGINAL_LABELS (Server.training_collector srv)).2 true
       = Raise ValueError ∧
     train_test_split est (gather ORIGINAL_LABELS (Server.training_collector srv)).1
       (gather ORIGINAL_LABELS (Server.training_collector srv)).2 false
       = Return sp) →
  fit_random_forest est sp = Return rf →
  fit_neural_network est (length ORIGINAL_LABELS)
    (gather ORIGINAL_LABELS (Server.training_collector srv)).1 sp = Return tf →
  can_write est "models/asl_model.pkl" = true →
  can_write est "models/asl_model_tf" = true →
  can_write est "models/training_metadata.json" = true →
  (run_training est now false None (Server.training_collector srv, Server.disk srv)).1
    = Return (true, py_max rf.2 tf.2) ∧
  (Server.complete_training est now session_id srv).1
    = (Server.Ok200, py_max rf.2 tf.2).
Proof.
  intros Hsid Hg Hcount Hmodels Hsplit Hrf Htf Hw1 Hw2 Hw3.
  assert (HX : (gather ORIGINAL_LABELS (Server.training_collector srv)).1 ≠ []).
  { pose proof (gather_member (Server.training_collector srv) ORIGINAL_LABELS g Hg)
      as Hle.
    intros HX. rewrite HX in Hle. simpl in Hle. lia. }
  pose proof (run_training_succeeds est now (Server.training_collector srv)
                (Server.disk srv) sp rf tf HX Hmodels Hsplit Hrf Htf Hw1 Hw2 Hw3)
    as Hrun.
  split; [exact Hrun|].
  unfold Server.complete_training. rewrite Hsid. simpl.
  destruct (run_training est now false None
              (Server.training_collector srv, Server.disk srv)) as [r [c fs]].
  simpl in Hrun. by subst r.
Qed.

Lemma complete_training_needs_no_class_diversity_witness :
  (Server.complete_training Scenario.sklearn 0%float (Some "s1")
     (Scenario.hello_frames 15 Scenario.server0)).1 = (Server.Ok200, 1%float).
Proof.
  refine (proj2 (complete_training_needs_no_class_diversity
                   Scenario.sklearn 0%float (Some "s1")
                   (Scenario.hello_frames 15 Scenario.server0) "Hello"
                   {| X_train := _; X_test := _; y_train := _; y_test := _ |}
                   (Scenario.forest1, 1%float) (Scenario.net1, 1%float)
                   _ _ _ _ _ _ _ _ _ _)).
  - reflexivity.
  - unfold ORIGINAL_LABELS. rewrite !elem_of_cons. auto.
  - vm_compute. lia.
  - right. vm_compute. reflexivity.
  - left. reflexivity.
  - reflexivity.
  - reflexivity.
  - reflexivity.
  - reflexivity.
  - reflexivity.
Defined.

(** C7, the claim as written fails: fifteen Hello frames, each with a
    hand, are counted for session s1 and no other gesture has a sample;
    completing the session with estimators that do not fail answers
    success. *)
Lemma one_gesture_training_succeeds :
  map (sample_count (Server.training_collector
                       (Scenario.hello_frames 15 Scenario.server0)))
      ORIGINAL_LABELS = [0; 0; 0; 15; 0] ∧
  (Server.complete_training Scenario.sklearn 0%float (Some "s1")
     (Scenario.hello_frames 15 Scenario.server0)).1 = (Server.Ok200, 1%float).
Proof. split; vm_compute; reflexivity. Qed.
End ClassDiversity.

(** * Further properties of the code *)

(** ** The default model *)

Section DefaultModelInputs.
Import ASLModel.

Lemma y_of_flat (a : features) (i : nat) :
  i < 21 → y_of (rows3 a 21) i = list_get a (3 * i + 1).
Proof.
  intros Hi. unfold y_of, list_get. rewrite rows3_lookup by done. cbn [obind].
  rewrite lookup_take_lt by lia. by rewrite lookup_drop.
Qed.

Lemma finger_up_flat (a : features) (tip joint : nat) :
  tip < 21 → joint < 21 →
  finger_up (rows3 a 21) tip joint =
    obind (list_get a (3 * tip + 1)) (λ ty,
    obind (list_get a (3 * joint + 1)) (λ jy, Return (ty <? jy)%float)).
Proof. intros Ht Hj. unfold finger_up. by rewrite !y_of_flat. Qed.

(** X1. The rule-based heuristic reads ten numbers only: two vectors of
    63 components that agree at the positions in [read_positions] (the
    y-coordinates of the five finger tips and of the five joints below
    them) get the same answer, whatever their other 53 components. *)
Theorem rule_based_prediction_reads_ten (a b : features) :
  length a = 63 → length b = 63 →
  (∀ i, i ∈ read_positions → a !! i = b !! i) →
  rule_based_prediction a = rule_based_prediction b.
Proof.
  intros Ha Hb Hagree. unfold rule_based_prediction, reshape_21_3.
  rewrite !bool_decide_eq_true_2 by done. cbn [obind].
  rewrite !finger_up_flat by lia. unfold list_get.
  assert (Hpos : ∀ i, i ∈ read_positions → a !! i = b !! i) by exact Hagree.
  rewrite !Hpos by (unfold read_positions; simpl; rewrite !elem_of_cons; auto 12).
  reflexivity.
Qed.

Lemma rule_based_prediction_reads_ten_witness :
  rule_based_prediction (<[0 := 1%float]> Scenario.flat_hand)
  = rule_based_prediction Scenario.flat_hand.
Proof.
  apply rule_based_prediction_reads_ten; [reflexivity|reflexivity|].
  intros i Hi. unfold read_positions in Hi. rewrite !elem_of_cons, elem_of_nil in Hi.
  repeat (destruct Hi as [->|Hi]; [reflexivity|]). destruct Hi.
Defined.
End DefaultModelInputs.

Section DefaultModelEdges.
Import ASLModel.

Lemma rule_based_prediction_short (a : features) :
  length a ≠ 63 → rule_based_prediction a = Raise ValueError.
Proof.
  intros Hlen. unfold rule_based_prediction, reshape_21_3.
  by rewrite bool_decide_eq_false_2.
Qed.

(** X2. A vector that does not have 63 components makes [predict]
    raise [ValueError] whenever the answer is left to the heuristic (no
    network is held, the loaded flag is off, or the network raised): the
    fallback itself is not protected by a handler. *)
Theorem predict_raises_without_63_components (self : t) (a : features) :
  length a ≠ 63 →
  (model self = None ∨ model_loaded self = false ∨
   (∃ net e, model self = Some net ∧ net a = Raise e)) →
  predict self a = Raise ValueError.
Proof.
  intros Hlen Hno. unfold predict.
  destruct Hno as [->|[Hl|(net & e & -> & Hnet)]].
  - by apply rule_based_prediction_short.
  - rewrite Hl. destruct (model self); by apply rule_based_prediction_short.
  - rewrite Hnet. simpl. destruct (model_loaded self);
      by apply rule_based_prediction_short.
Qed.

Lemma predict_raises_without_63_components_witness :
  predict (init Scenario.here ∅) [] = Raise ValueError.
Proof.
  apply (predict_raises_without_63_components (init Scenario.here ∅) []).
  - simpl. lia.
  - left. reflexivity.
Defined.

(** The labels the heuristic can answer. *)
Lemma rule_based_prediction_label (a : features) (gesture : string) (c : float) :
  rule_based_prediction a = Return (gesture, c) →
  gesture ∈ ORIGINAL_LABELS ∨ gesture = "Unknown".
Proof.
  destruct (decide (length a = 63)) as [Hlen|Hlen];
    [|by rewrite rule_based_prediction_short].
  unfold rule_based_prediction, reshape_21_3.
  rewrite bool_decide_eq_true_2 by done. cbn [obind].
  destruct (finger_up_returns a 4 3 Hlen) as [thumb ->]; [lia..|].
  destruct (finger_up_returns a 8 6 Hlen) as [index ->]; [lia..|].
  destruct (finger_up_returns a 12 10 Hlen) as [middle ->]; [lia..|].
  destruct (finger_up_returns a 16 14 Hlen) as [ring ->]; [lia..|].
  destruct (finger_up_returns a 20 18 Hlen) as [pinky ->]; [lia..|].
  cbn [obind]. unfold ORIGINAL_LABELS. intros H.
  destruct thumb, index, middle, ring, pinky; vm_compute in H;
    injection H as <- <-; rewrite ?elem_of_cons; auto 10.
Qed.

(** X3. Whatever model is loaded, a label answered by the default
    model's [predict] is one of the five default labels or ["Unknown"]. *)
Theorem predict_label_in_vocabulary (self : t) (a : features)
    (gesture : string) (c : float) :
  predict self a = Return (gesture, c) →
  gesture ∈ ORIGINAL_LABELS ∨ gesture = "Unknown".
Proof.
  unfold predict.
  destruct (model self) as [net|]; [|apply rule_based_prediction_label].
  destruct (model_loaded self); [|apply rule_based_prediction_label].
  destruct (net a) as [out|e]; simpl; [|apply rule_based_prediction_label].
  rewrite label_of_returns. simpl. intros [= <- <-].
  destruct (ORIGINAL_LABELS !! tf_predicted_class out) as [g|] eqn:Hg; simpl.
  - left. by eapply list_elem_of_lookup_2.
  - by right.
Qed.

Lemma predict_label_in_vocabulary_witness :
  predict (init Scenario.here Scenario.default_disk) Scenario.flat_hand = Return ("No", 1%float) ∧
  ("No" ∈ ORIGINAL_LABELS ∨ "No" = "Unknown").
Proof.
  split; [reflexivity|].
  apply (predict_label_in_vocabulary (init Scenario.here Scenario.default_disk)
           Scenario.flat_hand "No" 1%float).
  reflexivity.
Defined.

(** X4. [load_model] is idempotent on a given disk; with no bundle at
    the model path it changes nothing; with a loadable bundle it holds
    that network with the loaded flag set; with a bundle that fails to
    load it keeps the network held before but clears the flag, so that
    every prediction is the heuristic's. *)
Theorem load_model_edges (here : string) (fs : fsys) (self : t) :
  load_model here fs (load_model here fs self) = load_model here fs self ∧
  (fs !! model_path here = None → load_model here fs self = self) ∧
  (∀ net, fs !! model_path here = Some (SavedModel net) →
          load_model here fs self = {| model := Some net; model_loaded := true |}) ∧
  (Fs.exists_ fs (model_path here) = true →
   Fs.keras_load_model fs (model_path here) = Raise OSError →
   model (load_model here fs self) = model self ∧
   ∀ a, predict (load_model here fs self) a = rule_based_prediction a).
Proof.
  unfold load_model, Fs.exists_, Fs.keras_load_model, predict.
  destruct (fs !! model_path here) as [[]|] eqn:Hp; simpl; rewrite ?Hp; simpl;
    split_and!; try done; intros; simplify_eq; try done.
  all: split; [done|]; intros a; by destruct (model self).
Qed.
End DefaultModelEdges.

(** ** From landmarks to a prediction *)

Section Extraction.
Import Extractor.

Lemma features_of_snoc (h : list landmark) (lm : landmark) :
  features_of (h ++ [lm]) = features_of h ++ [x lm; y lm; z lm].
Proof. unfold features_of. by rewrite foldl_snoc. Qed.

Lemma features_of_length (h : list landmark) :
  length (features_of h) = 3 * length h.
Proof.
  induction h as [|lm h IH] using rev_ind; [done|].
  rewrite features_of_snoc, !length_app, IH. simpl. lia.
Qed.

Lemma features_of_lookup (h : list landmark) (i : nat) (lm : landmark) :
  h !! i = Some lm →
  features_of h !! (3 * i) = Some (x lm) ∧
  features_of h !! (3 * i + 1) = Some (y lm) ∧
  features_of h !! (3 * i + 2) = Some (z lm).
Proof.
  revert i. induction h as [|lm' h IH] using rev_ind; intros i Hi; [done|].
  rewrite features_of_snoc. unfold features in *.
  destruct (decide (i < length h)) as [Hlt|Hge].
  - rewrite lookup_app_l in Hi by done.
    rewrite !lookup_app_l by (rewrite features_of_length; lia). by apply IH.
  - apply lookup_lt_Some in Hi as Hlen. rewrite length_app in Hlen. simpl in Hlen.
    assert (i = length h) as -> by lia.
    rewrite lookup_app_r, Nat.sub_diag in Hi by done. injection Hi as ->.
    rewrite !lookup_app_r by (rewrite features_of_length; lia).
    rewrite features_of_length.
    replace (3 * length h - 3 * length h) with 0 by lia.
    replace (3 * length h + 1 - 3 * length h) with 1 by lia.
    replace (3 * length h + 2 - 3 * length h) with 2 by lia.
    done.
Qed.

(** X5. [extract_hand_landmarks] answers a feature vector exactly when it
    reports a hand: then the vector belongs to the first detected hand,
    has three components per landmark, and holds the x, y and z of
    landmark [i] at positions [3i], [3i+1] and [3i+2]; with no hand, or
    when detection raised, it answers no vector and no hand. *)
Theorem extract_hand_landmarks_layout (detection : outcome (list (list landmark))) :
  match extract_hand_landmarks detection with
  | (Some feats, true) =>
      ∃ hand others, detection = Return (hand :: others) ∧
        length feats = 3 * length hand ∧
        ∀ i lm, hand !! i = Some lm →
                feats !! (3 * i) = Some (x lm) ∧
                feats !! (3 * i + 1) = Some (y lm) ∧
                feats !! (3 * i + 2) = Some (z lm)
  | (None, false) => detection = Return [] ∨ ∃ e, detection = Raise e
  | _ => False
  end.
Proof.
  destruct detection as [[|hand others]|e]; cbn [extract_hand_landmarks]; eauto.
  exists hand, others. split_and!; [done|apply features_of_length|].
  apply features_of_lookup.
Qed.

(** X6. A detected hand of 21 landmarks gives a vector of 63 components
    on which the default model's [predict] returns a result, whatever
    model it holds. *)
Theorem detected_hand_is_classified (hand : list landmark)
    (others : list (list landmark)) (self : ASLModel.t) :
  length hand = 21 →
  ∃ feats r,
    extract_hand_landmarks (Return (hand :: others)) = (Some feats, true) ∧
    length feats = 63 ∧ ASLModel.predict self feats = Return r.
Proof.
  intros Hhand. exists (features_of hand).
  assert (Hlen : length (features_of hand) = 63)
    by (rewrite features_of_length; lia).
  destruct (rule_based_prediction_returns _ Hlen) as [r0 Hrule].
  assert (Hpredict : ∃ r, ASLModel.predict self (features_of hand) = Return r).
  { unfold ASLModel.predict.
    destruct (ASLModel.model self) as [net|]; [|by eauto].
    destruct (ASLModel.model_loaded self); [|by eauto].
    destruct (obind _ _); eauto. }
  destruct Hpredict as [r Hr]. exists r. by split_and!.
Qed.

Lemma detected_hand_is_classified_witness :
  ∃ feats r,
    extract_hand_landmarks
      (Return [replicate 21 {| x := 0%float; y := 0%float; z := 0%float |}])
    = (Some feats, true) ∧
    length feats = 63 ∧
    ASLModel.predict (ASLModel.init Scenario.here Scenario.default_disk) feats = Return r.
Proof.
  apply (detected_hand_is_classified
           (replicate 21 {| x := 0%float; y := 0%float; z := 0%float |}) []).
  reflexivity.
Defined.
End Extraction.

Section FastHeuristic.
Import OptimizedASLModel.

Lemma y_of_returns_flat (a : features) (i : nat) :
  length a = 63 → i < 21 →
  ∃ v, a !! (3 * i + 1) = Some v ∧ ASLModel.y_of (ASLModel.rows3 a 21) i = Return v.
Proof.
  intros Hlen Hi.
  destruct (lookup_lt_is_Some_2 a (3 * i + 1)) as [v Hv]; [lia|].
  exists v. split; [done|].
  unfold ASLModel.y_of, list_get. rewrite rows3_lookup by done. cbn [obind].
  rewrite lookup_take_lt by lia. rewrite lookup_drop. by rewrite Hv.
Qed.

(** The two heuristics name the same gesture on 63 components; on any
    other vector the Android one raises and the optimised one answers
    [("Unknown", 0.1)]. *)
Lemma fast_heuristic_agrees (a : features) :
  (length a = 63 →
   ∃ gesture c c', ASLModel.rule_based_prediction a = Return (gesture, c) ∧
                   rule_based_prediction_fast a = (gesture, c')) ∧
  (length a ≠ 63 →
   ASLModel.rule_based_prediction a = Raise ValueError ∧
   rule_based_prediction_fast a = ("Unknown", 0.1%float)).
Proof.
  split; intros Hlen.
  - unfold rule_based_prediction_fast, rule_based_attempt,
      ASLModel.rule_based_prediction, ASLModel.finger_up, ASLModel.reshape_21_3, at_y.
    rewrite !bool_decide_eq_true_2 by done. cbn [obind].
    destruct (y_of_returns_flat a 0 Hlen) as (v0 & _ & ->); [lia|].
    destruct (y_of_returns_flat a 4 Hlen) as (v4 & _ & ->); [lia|].
    destruct (y_of_returns_flat a 3 Hlen) as (v3 & _ & ->); [lia|].
    destruct (y_of_returns_flat a 8 Hlen) as (v8 & _ & ->); [lia|].
    destruct (y_of_returns_flat a 6 Hlen) as (v6 & _ & ->); [lia|].
    destruct (y_of_returns_flat a 12 Hlen) as (v12 & _ & ->); [lia|].
    destruct (y_of_returns_flat a 10 Hlen) as (v10 & _ & ->); [lia|].
    destruct (y_of_returns_flat a 16 Hlen) as (v16 & _ & ->); [lia|].
    destruct (y_of_returns_flat a 14 Hlen) as (v14 & _ & ->); [lia|].
    destruct (y_of_returns_flat a 20 Hlen) as (v20 & _ & ->); [lia|].
    destruct (y_of_returns_flat a 18 Hlen) as (v18 & _ & ->); [lia|].
    cbn [obind].
    destruct (v4 <? v3)%float, (v8 <? v6)%float, (v12 <? v10)%float,
      (v16 <? v14)%float, (v20 <? v18)%float; vm_compute; eauto.
  - unfold rule_based_prediction_fast, rule_based_attempt,
      ASLModel.rule_based_prediction, ASLModel.reshape_21_3.
    by rewrite !bool_decide_eq_false_2.
Qed.

(** X7. The latency-optimised server and the Android server, holding the
    same network and the same loaded flag, name the same gesture on every
    vector of 63 components, and give the same confidence too whenever the
    network answers; on a vector of any other length that is left to the
    heuristic the Android [predict] raises [ValueError] while
    [predict_fast] answers [("Unknown", 0.1)]. *)
Theorem optimised_server_agrees_on_labels (net : option tf_model) (loaded : bool)
    (a : features) :
  (length a = 63 →
   ∃ gesture c c',
     ASLModel.predict {| ASLModel.model := net; ASLModel.model_loaded := loaded |} a
       = Return (gesture, c) ∧
     predict_fast {| model := net; model_loaded := loaded |} a = (gesture, c')) ∧
  (∀ n out, net = Some n → loaded = true → n a = Return out →
     ASLModel.predict {| ASLModel.model := net; ASLModel.model_loaded := loaded |} a
       = Return (predict_fast {| model := net; model_loaded := loaded |} a)) ∧
  (length a ≠ 63 →
   net = None ∨ loaded = false ∨ (∃ n e, net = Some n ∧ n a = Raise e) →
   ASLModel.predict {| ASLModel.model := net; ASLModel.model_loaded := loaded |} a
     = Raise ValueError ∧
   predict_fast {| model := net; model_loaded := loaded |} a
     = ("Unknown", 0.1%float)).
Proof.
  assert (Hanswer : ∀ n out, n a = Return out →
            obind (n a) (λ out,
              obind (ASLModel.label_of (tf_predicted_class out)) (λ gesture,
                Return (gesture, tf_confidence out)))
            = Return (default "Unknown" (LABELS !! tf_predicted_class out),
                      tf_confidence out) ∧
            obind (n a) (λ out,
              obind (label_of (tf_predicted_class out)) (λ gesture,
                Return (gesture, tf_confidence out)))
            = Return (default "Unknown" (LABELS !! tf_predicted_class out),
                      tf_confidence out)).
  { intros n out ->. cbn [obind]. rewrite label_of_returns. cbn [obind].
    split; [reflexivity|].
    unfold label_of, list_get. case_bool_decide as Hc.
    - destruct (lookup_lt_is_Some_2 LABELS _ Hc) as [x ->]. reflexivity.
    - rewrite (lookup_ge_None_2 LABELS (tf_predicted_class out)) by lia.
      reflexivity. }
  unfold ASLModel.predict, predict_fast.
  cbn [ASLModel.model ASLModel.model_loaded model model_loaded].
  destruct (fast_heuristic_agrees a) as [Hagree Hshort].
  split_and!.
  - intros Hlen. specialize (Hagree Hlen).
    destruct net as [n|]; [|exact Hagree].
    destruct loaded; [|exact Hagree].
    destruct (n a) as [out|e] eqn:Hn; [|exact Hagree].
    destruct (Hanswer n out Hn) as [H1 H2]. rewrite Hn in H1, H2.
    rewrite H1, H2. eauto.
  - intros n out -> -> Hn.
    destruct (Hanswer n out Hn) as [H1 H2]. by rewrite H1, H2.
  - intros Hlen Hno. specialize (Hshort Hlen).
    destruct Hno as [->|[->|(n & e & -> & Hn)]].
    + exact Hshort.
    + by destruct net.
    + rewrite Hn. cbn [obind]. by destruct loaded.
Qed.
End FastHeuristic.

(** ** Collecting samples *)

Section CollectorInvariant.
Import EnhancedTrainingCollector.

(** What a frame does to the collector: nothing, or one sample more. *)
Lemma process_training_frame_cases (v : vision) (g : string) (img : value)
    (self : t) :
  process_training_frame v g img self
    = (Return (sample_count self (strip g)), self) ∨
  process_training_frame v g img self = (Return 0, self) ∨
  ∃ feats samples,
    sight v img = Hand feats ∧
    truthy (current_session self) = true ∧
    contains (valid_gestures self) (strip g) = true ∧
    training_features self !! strip g = Some samples ∧
    ((∃ labels idx,
        training_labels self !! strip g = Some labels ∧
        list_index (valid_gestures self) (strip g) = Return idx ∧
        process_training_frame v g img self =
          (Return (S (length samples)),
           set_training_labels (<[strip g := labels ++ [idx]]> (training_labels self))
             (set_training_features
                (<[strip g := samples ++ [feats]]> (training_features self)) self))) ∨
     (training_labels self !! strip g = None ∧
      (process_training_frame v g img self).2 =
        set_training_features
          (<[strip g := samples ++ [feats]]> (training_features self)) self)).
Proof.
  unfold process_training_frame, sample_count.
  destruct (truthy (current_session self)) eqn:Hs; simpl; [|by right; left].
  unfold bind, try_except, frame_attempt, bind, get, ret, lift, modify, sight.
  destruct (contains (valid_gestures self) (strip g)) eqn:Hv; simpl; [|by right; left].
  destruct (decode v img) as [[picture|]|e]; simpl;
    [|by left|by left].
  destruct (extract_hand_landmarks v picture) as [[feats|] [|]]; simpl;
    try by left.
  destruct (list_index (valid_gestures self) (strip g)) as [idx|e] eqn:Hidx; simpl;
    [|by left].
  unfold dict_append.
  destruct (training_features self !! strip g) as [samples|] eqn:Hf; simpl;
    [|left; unfold get_or_empty; by rewrite Hf].
  right; right. exists feats, samples. split_and!; try done.
  destruct (training_labels self !! strip g) as [labels|] eqn:Hl; simpl.
  - left. exists labels, idx. split_and!; try done.
    unfold bucket_len. rewrite lookup_insert_eq. simpl.
    rewrite length_app. simpl. do 2 f_equal. lia.
  - by right.
Qed.

Lemma index_from_member (l : list string) (x : string) (n : nat) :
  x ∈ l → ∃ i, index_from n l x = Return i.
Proof.
  revert n. induction l as [|y l IH]; intros n Hx; [by apply elem_of_nil in Hx|].
  simpl. case_bool_decide as Hy; [eauto|].
  apply IH. apply elem_of_cons in Hx as [Hx|Hx]; [congruence|done].
Qed.

(** [l.index(x)] answers for every member of [l]. *)
Lemma list_index_member (l : list string) (x : string) :
  x ∈ l → ∃ i, list_index l x = Return i.
Proof. apply index_from_member. Qed.

Lemma valid_gestures_nonempty (self : t) (g : string) :
  g ∈ current_lesson_gestures self → valid_gestures self = current_lesson_gestures self.
Proof.
  unfold valid_gestures. destruct (current_lesson_gestures self); [|done].
  by intros ?%elem_of_nil.
Qed.

Lemma index_from_lookup (l : list string) (x : string) (n i : nat) :
  index_from n l x = Return i → n ≤ i ∧ l !! (i - n) = Some x.
Proof.
  revert n. induction l as [|y l IH]; intros n; simpl; [done|].
  case_bool_decide as Hy.
  - intros [= <-]. subst y. split; [lia|]. by rewrite Nat.sub_diag.
  - intros [Hle Hl]%IH. split; [lia|].
    replace (i - n) with (S (i - S n)) by lia. done.
Qed.

(** [l.index(x)] answers a position that holds [x]. *)
Lemma list_index_lookup (l : list string) (x : string) (i : nat) :
  list_index l x = Return i → l !! i = Some x.
Proof.
  intros [_ Hl]%index_from_lookup. by rewrite Nat.sub_0_r in Hl.
Qed.

(** The invariant of collection, over every reachable state. *)
Lemma reachable_labels_consistent (self : t) :
  reachable self → labels_consistent self.
Proof.
  intros Hreach. induction Hreach
    as [|now sid admin lesson self _ IH|v g img self Hreach IH
        |est now admin lesson self fs _ IH]; intros k.
  - change (training_features init !! k) with ((∅ : gmap string (list features)) !! k).
    change (training_labels init !! k) with ((∅ : gmap string (list nat)) !! k).
    by rewrite !lookup_empty.
  - simpl. rewrite !empty_buckets_lookup. case_bool_decide; [|done].
    split; [done|]. by intros i ?%elem_of_nil.
  - pose proof (reachable_buckets_in_vocabulary self Hreach) as Hvoc.
    destruct g as [| | | |g| |];
      try (rewrite process_training_frame_other by done; apply IH).
    destruct (process_training_frame_cases v g img self)
      as [->|[->|(feats & samples & _ & _ & _ & Hf & Hcase)]]; [apply IH..|].
    assert (Hin : strip g ∈ current_lesson_gestures self) by (apply Hvoc; by rewrite Hf).
    pose proof (IH (strip g)) as IHg. rewrite Hf in IHg.
    destruct Hcase as [(labels & idx & Hl & Hidx & ->)|[Hl _]];
      [|by rewrite Hl in IHg].
    rewrite Hl in IHg. destruct IHg as [Hlen Hall]. simpl.
    rewrite (valid_gestures_nonempty self (strip g) Hin) in Hidx.
    destruct (decide (strip g = k)) as [<-|Hne].
    + rewrite !lookup_insert_eq. split; [rewrite !length_app; simpl; lia|].
      intros i [Hi|Hi%list_elem_of_singleton]%elem_of_app; [by apply Hall|by subst].
    + rewrite !lookup_insert_ne by done. apply IH.
  - destruct (run_training_collector est now admin lesson (self, fs)) as [Heq|Heq];
      simpl in Heq; rewrite Heq.
    + apply IH.
    + change (training_features (set_training_labels ∅ (set_training_features ∅ self)) !! k)
        with ((∅ : gmap string (list features)) !! k).
      change (training_labels (set_training_labels ∅ (set_training_features ∅ self)) !! k)
        with ((∅ : gmap string (list nat)) !! k).
      by rewrite !lookup_empty.
Qed.

(** X8. In every state the collector can reach, a bucket of samples has a
    bucket of labels of the same length, and every label in it is a
    position of the session's vocabulary at which the bucket's own gesture
    name stands. *)
Theorem collected_labels_resolve (self : t) (g : string) (samples : list features) :
  reachable self →
  training_features self !! g = Some samples →
  ∃ labels, training_labels self !! g = Some labels ∧
            length labels = length samples ∧
            ∀ i, i ∈ labels → current_lesson_gestures self !! i = Some g.
Proof.
  intros Hreach Hf. pose proof (reachable_labels_consistent self Hreach g) as Hcons.
  rewrite Hf in Hcons.
  destruct (training_labels self !! g) as [labels|]; [|done].
  destruct Hcons as [Hlen Hall]. exists labels. split_and!; try done.
  intros i Hi. by apply list_index_lookup, Hall.
Qed.

Lemma collected_labels_resolve_witness :
  ∃ labels,
    training_labels
      (process_training_frame Scenario.camera "Hello" "frame"
         (start_training_session 0%float "s1" false None init)).2 !! "Hello"
      = Some labels ∧
    length labels = length [Scenario.flat_hand] ∧
    ∀ i, i ∈ labels →
         current_lesson_gestures
           (process_training_frame Scenario.camera "Hello" "frame"
              (start_training_session 0%float "s1" false None init)).2 !! i
           = Some "Hello".
Proof.
  apply collected_labels_resolve.
  - apply reachable_frame, reachable_start, reachable_init.
  - vm_compute. reflexivity.
Defined.

(** X9. With a session current, a frame that shows a hand and names a
    gesture that has a bucket is stored: the call returns the new size of
    the bucket, the features are appended to that bucket, the position of
    the gesture in the vocabulary is appended to its labels, and no other
    bucket changes. *)
Theorem process_training_frame_appends (v : vision) (g : string) (img : value)
    (self : t)
    (feats : features) (samples : list features) :
  reachable self →
  truthy (current_session self) = true →
  training_features self !! strip g = Some samples →
  sight v img = Hand feats →
  (process_training_frame v g img self).1 = Return (S (length samples)) ∧
  training_features (process_training_frame v g img self).2 !! strip g
    = Some (samples ++ [feats]) ∧
  (∀ k, k ≠ strip g →
        training_features (process_training_frame v g img self).2 !! k
          = training_features self !! k ∧
        training_labels (process_training_frame v g img self).2 !! k
          = training_labels self !! k) ∧
  (∃ labels idx,
      training_labels self !! strip g = Some labels ∧
      list_index (current_lesson_gestures self) (strip g) = Return idx ∧
      training_labels (process_training_frame v g img self).2 !! strip g
        = Some (labels ++ [idx])).
Proof.
  intros Hreach Hs Hf Hsight.
  pose proof (reachable_buckets_in_vocabulary self Hreach (strip g)) as Hin.
  rewrite Hf in Hin. specialize (Hin (mk_is_Some _ _ eq_refl)).
  pose proof (reachable_labels_consistent self Hreach (strip g)) as Hcons.
  rewrite Hf in Hcons.
  destruct (training_labels self !! strip g) as [labels|] eqn:Hl; [|done].
  pose proof (valid_gestures_nonempty self (strip g) Hin) as Hvalid.
  assert (Hv : contains (valid_gestures self) (strip g) = true).
  { rewrite Hvalid. unfold contains. by rewrite bool_decide_eq_true_2. }
  unfold process_training_frame. rewrite Hs. simpl.
  unfold bind, try_except, frame_attempt, bind, get, ret, lift, modify.
  rewrite Hv. simpl. unfold sight in Hsight.
  destruct (decode v img) as [[picture|]|e]; simpl; try done.
  destruct (extract_hand_landmarks v picture) as [[feats'|] [|]]; simpl; try done.
  injection Hsight as ->.
  destruct (list_index (valid_gestures self) (strip g)) as [idx|e] eqn:Hidx; simpl.
  - unfold dict_append. rewrite Hf, Hl. simpl.
    unfold bucket_len. rewrite lookup_insert_eq. simpl.
    split_and!.
    + rewrite length_app. simpl. do 2 f_equal. lia.
    + by rewrite lookup_insert_eq.
    + intros k Hk. by rewrite !lookup_insert_ne.
    + exists labels, idx. rewrite <- Hvalid. split_and!; try done.
      by rewrite lookup_insert_eq.
  - destruct (list_index_member (valid_gestures self) (strip g)) as [i Hi].
    + rewrite Hvalid. exact Hin.
    + congruence.
Qed.

Lemma process_training_frame_appends_witness :
  (process_training_frame Scenario.camera "Hello" "frame"
     (start_training_session 0%float "s1" false None init)).1 = Return 1 ∧
  training_features
    (process_training_frame Scenario.camera "Hello" "frame"
       (start_training_session 0%float "s1" false None init)).2 !! "Hello"
    = Some [Scenario.flat_hand].
Proof.
  pose proof (process_training_frame_appends Scenario.camera "Hello" "frame"
                (start_training_session 0%float "s1" false None init)
                Scenario.flat_hand []) as H.
  destruct H as (H1 & H2 & _).
  - apply reachable_start, reachable_init.
  - reflexivity.
  - vm_compute. reflexivity.
  - vm_compute. reflexivity.
  - split; [exact H1|exact H2].
Defined.

(** *** Gathering the training set *)

Lemma gather_step_lengths (self : t) (gs : list string) (Xy : list features * list nat) :
  labels_consistent self →
  length Xy.1 = length Xy.2 →
  length (foldl (λ Xy gesture_name,
                   let feats := get_or_empty (training_features self) gesture_name in
                   let labels := get_or_empty (training_labels self) gesture_name in
                   if bool_decide (0 < length feats)
                   then (Xy.1 ++ feats, Xy.2 ++ labels)
                   else Xy) Xy gs).1
    = length Xy.1 + sum_list (map (sample_count self) gs) ∧
  length (foldl (λ Xy gesture_name,
                   let feats := get_or_empty (training_features self) gesture_name in
                   let labels := get_or_empty (training_labels self) gesture_name in
                   if bool_decide (0 < length feats)
                   then (Xy.1 ++ feats, Xy.2 ++ labels)
                   else Xy) Xy gs).2
    = length Xy.1 + sum_list (map (sample_count self) gs).
Proof.
  intros Hcons. revert Xy. induction gs as [|g gs IH]; intros Xy Hlen; cbn [foldl].
  - simpl. lia.
  - cbv zeta in IH |- *.
    assert (Hg : length (get_or_empty (training_labels self) g)
                 = length (get_or_empty (training_features self) g)).
    { specialize (Hcons g). unfold get_or_empty.
      destruct (training_features self !! g), (training_labels self !! g);
        simpl; try done. by destruct Hcons as [-> _]. }
    cbn [map sum_list].
    change (sample_count self g)
      with (length (get_or_empty (training_features self) g)).
    case_bool_decide as Hpos.
    + destruct (IH (Xy.1 ++ get_or_empty (training_features self) g,
                    Xy.2 ++ get_or_empty (training_labels self) g)) as [IH1 IH2].
      { cbn [fst snd]. rewrite !length_app. lia. }
      rewrite IH1, IH2. cbn [fst snd]. rewrite length_app. unfold id. lia.
    + destruct (IH Xy Hlen) as [IH1 IH2]. rewrite IH1, IH2. unfold id. lia.
Qed.

(** X10. In every reachable state the training matrix built by
    [run_training]'s loop has as many rows as the samples counted for the
    gestures it is asked for, and as many labels as rows. *)
Theorem gather_lengths (gs : list string) (self : t) :
  reachable self →
  length (gather gs self).1 = sum_list (map (sample_count self) gs) ∧
  length (gather gs self).2 = length (gather gs self).1.
Proof.
  intros Hreach.
  destruct (gather_step_lengths self gs ([], [])
              (reachable_labels_consistent self Hreach) eq_refl) as [H1 H2].
  split; [exact H1|]. etransitivity; [exact H2|symmetry; exact H1].
Qed.

Lemma gather_lengths_witness :
  length (gather ORIGINAL_LABELS
            (process_training_frame Scenario.camera "Hello" "frame"
               (start_training_session 0%float "s1" false None init)).2).1
    = sum_list (map (sample_count
                       (process_training_frame Scenario.camera "Hello" "frame"
                          (start_training_session 0%float "s1" false None init)).2)
                    ORIGINAL_LABELS) ∧
  length (gather ORIGINAL_LABELS
            (process_training_frame Scenario.camera "Hello" "frame"
               (start_training_session 0%float "s1" false None init)).2).2
    = length (gather ORIGINAL_LABELS
                (process_training_frame Scenario.camera "Hello" "frame"
                   (start_training_session 0%float "s1" false None init)).2).1.
Proof.
  apply gather_lengths.
  apply reachable_frame, reachable_start, reachable_init.
Defined.
End CollectorInvariant.

Section Sessions.
Import EnhancedTrainingCollector.

Lemma switch_session_current (now : float) (session_id : string)
    (is_admin_level : bool) (lesson_id : option string) (c : t) :
  session_id ≠ EmptyString →
  current_session c = Some session_id →
  Server.switch_session now session_id is_admin_level lesson_id c = c.
Proof.
  intros Hs Hc. unfold Server.switch_session. rewrite Hc. cbn [truthy].
  rewrite (bool_decide_eq_false_2 (session_id = EmptyString)) by done.
  rewrite (bool_decide_eq_true_2 (Some session_id = Some session_id)) by done.
  cbn [negb andb]. rewrite Hc. cbn [truthy].
  by rewrite (bool_decide_eq_false_2 (session_id = EmptyString)).
Qed.

(** X11. When the session named by a request is already the current one
    and carries the admin prefix, the admin add-sample handler stores the
    frame as the regular handler does on the same request: same status
    code, same sample count, same state of the server afterwards.  The
    lesson id of the request plays no part in validating or storing the
    frame, which goes by the vocabulary fixed when the session started; it
    only comes back in the [lesson_id] field of a success reply. *)
Theorem current_session_sample_ignores_lesson (v : vision) (now : float)
    (session_id lesson_id : string) (gesture_name frame : option string)
    (srv : Server.t) :
  current_session (Server.training_collector srv) = Some session_id →
  Server.is_admin_session session_id = true →
  truthy (Some lesson_id) = true →
  (Server.add_admin_training_sample v now (Some session_id) (Some lesson_id)
     gesture_name frame srv).1.1
  = (Server.add_training_sample v now (Some session_id) gesture_name frame srv).1 ∧
  (Server.add_admin_training_sample v now (Some session_id) (Some lesson_id)
     gesture_name frame srv).2
  = (Server.add_training_sample v now (Some session_id) gesture_name frame srv).2 ∧
  (Server.add_admin_training_sample v now (Some session_id) (Some lesson_id)
     gesture_name frame srv).1.2
  = match (Server.add_training_sample v now (Some session_id) gesture_name frame
             srv).1.1 with
    | Server.Ok200 => Some lesson_id
    | _ => None
    end.
Proof.
  intros Hc Hadmin Hl.
  assert (Hs : session_id ≠ EmptyString) by (by intros ->).
  unfold Server.add_admin_training_sample, Server.add_training_sample.
  destruct gesture_name as [gesture|]; [|done].
  destruct frame as [data|]; [|done].
  rewrite Hl, Hadmin. cbn [negb].
  rewrite !switch_session_current by done.
  destruct (truthy (Some session_id)), (truthy (Some gesture)),
    (truthy (Some data)); cbn [andb]; try done.
  by destruct (process_training_frame v gesture data (Server.training_collector srv))
    as [[[|n]|e] c'].
Qed.

Lemma current_session_sample_ignores_lesson_witness :
  (Server.add_admin_training_sample Scenario.camera 0%float (Some "admin_level_1")
     (Some "lesson_3") (Some "Happy") (Some "frame") Scenario.admin_happy).1
  = (Server.Ok200, 2, Some "lesson_3") ∧
  (Server.add_admin_training_sample Scenario.camera 0%float (Some "admin_level_1")
     (Some "lesson_3") (Some "Happy") (Some "frame") Scenario.admin_happy).2
  = (Server.add_training_sample Scenario.camera 0%float (Some "admin_level_1")
       (Some "Happy") (Some "frame") Scenario.admin_happy).2.
Proof.
  split; [reflexivity|].
  apply (current_session_sample_ignores_lesson Scenario.camera 0%float
           "admin_level_1" "lesson_3" (Some "Happy") (Some "frame")
           Scenario.admin_happy); reflexivity.
Defined.
End Sessions.

(** ** Training runs *)

Section TrainingSpendsSession.
Import EnhancedTrainingCollector.

#[local] Instance same_collector_preorder : PreOrder same_collector.
Proof.
  split.
  - by intros s.
  - intros s1 s2 s3 H12 H23. unfold same_collector in *. congruence.
Qed.









End TrainingSpendsSession.

Section TrainingInstalls.
Import EnhancedTrainingCollector.






End TrainingInstalls.

(** ** Where a training run writes *)

Section Paths.

(** A character is a slash or it is not; the pattern match of [path_join]
    follows. *)
Lemma slash_match {A} (c : ascii) (yes no : A) :
  c ≠ "/"%char →
  match c with
  | "/"%char => yes
  | _ => no
  end = no.
Proof.
  intros Hc. destruct c as [[] [] [] [] [] [] [] []]; try reflexivity.
  by destruct Hc.
Qed.

(** Joining a relative name to a non-empty directory appends it, after a
    separator that depends on the directory only. *)
Lemma path_join_relative (a : string) :
  a ≠ EmptyString →
  ∃ sep, (sep = EmptyString ∨ sep = "/") ∧
         ∀ b, (∀ r, b ≠ String "/"%char r) → path_join a b = a +:+ sep +:+ b.
Proof.
  intros Ha.
  assert (Hsep : ∃ sep, (sep = EmptyString ∨ sep = "/") ∧
            ∀ b, match String.rev a with
                 | String "/"%char _ => a +:+ b
                 | _ => a +:+ "/" +:+ b
                 end = a +:+ sep +:+ b).
  { destruct (String.rev a) as [|c r].
    - exists "/". split; [by right|done].
    - destruct (decide (c = "/"%char)) as [->|Hc].
      + exists EmptyString. split; [by left|done].
      + exists "/". split; [by right|]. intros b. by rewrite slash_match. }
  destruct Hsep as (sep & Hsep & Hjoin). exists sep. split; [done|].
  intros b Hb. unfold path_join. destruct b as [|c b'].
  - rewrite bool_decide_eq_false_2 by done. apply Hjoin.
  - assert (Hc : c ≠ "/"%char) by (intros ->; by apply (Hb b')).
    rewrite slash_match by done.
    rewrite bool_decide_eq_false_2 by done. apply Hjoin.
Qed.

(** The directory the trainer writes a lesson to is the one the manager
    reads it from, unless the lesson id starts with a slash. *)
Lemma lesson_directory_agrees (lesson_id : string) :
  (∀ r, lesson_id ≠ String "/"%char r) →
  path_join "level_models" lesson_id = "level_models/" +:+ lesson_id.
Proof.
  intros Hl. unfold path_join. destruct lesson_id as [|c l']; [reflexivity|].
  assert (Hc : c ≠ "/"%char) by (intros ->; by apply (Hl l')).
  rewrite slash_match by done. reflexivity.
Qed.

Lemma string_app_empty_r (s : string) : s +:+ EmptyString = s.
Proof.
  induction s as [|c s IH]; [done|].
  change (String c (s +:+ EmptyString) = String c s). by f_equal.
Qed.


End Paths.

Section DiskFrames.
Import EnhancedTrainingCollector.

#[global] Instance disk_frame_preorder (P : string → Prop) : PreOrder (disk_frame P).
Proof.
  split.
  - by intros s p _.
  - intros s1 s2 s3 H12 H23 p Hp. by rewrite H23, H12.
Qed.

Lemma on_disk_frame {A} (P : string → Prop) (m : M fsys A) :
  (∀ fs p, P p → (m fs).2 !! p = fs !! p) → preserves (disk_frame P) (on_disk m).
Proof.
  intros Hm s p Hp. unfold on_disk. specialize (Hm s.2 p Hp).
  by destruct (m s.2).
Qed.

Lemma ensure_dir_lookup (e : exn) (d : string) (fs : fsys) (p : string) :
  p ≠ d → (Fs.ensure_dir e d fs).2 !! p = fs !! p.
Proof.
  intros Hp. unfold Fs.ensure_dir. destruct (fs !! d) as [[]|]; simpl; try done.
  by rewrite lookup_insert_ne.
Qed.

(** [os.makedirs] touches the directory and the directories above it. *)
Lemma makedirs_lookup (d : string) (fs : fsys) (p : string) :
  p ≠ d → p ∉ Fs.parents d → (Fs.makedirs d fs).2 !! p = fs !! p.
Proof.
  intros Hp. unfold Fs.makedirs. revert fs.
  induction (Fs.parents d) as [|x l IH]; intros fs Hl; cbn [foldr].
  - by apply ensure_dir_lookup.
  - apply not_elem_of_cons in Hl as [Hx Hl]. unfold bind at 1.
    pose proof (ensure_dir_lookup NotADirectoryError x fs p Hx) as Hstep.
    destruct (Fs.ensure_dir NotADirectoryError x fs) as [[[]|e] fs1];
      cbn [snd] in *; [|done].
    by rewrite IH.
Qed.

Lemma write_lookup (est : estimators) (q : string) (n : node) (fs : fsys) (p : string) :
  p ≠ q → (write est q n fs).2 !! p = fs !! p.
Proof.
  intros Hp. unfold write. destruct (can_write est q); simpl; [|done].
  by rewrite lookup_insert_ne.
Qed.

(** What it means for a path to lie outside the default artifact. *)
Lemma outside_default_artifact (p : string) :
  in_default_artifact p = false →
  (p ∉ default_artifact_paths) ∧
  (Forall (λ target, p ≠ target ∧ Fs.below target p = false) cleaned_targets).
Proof.
  unfold in_default_artifact, cleaned_targets, default_artifact_paths.
  intros [Hin Hbelow]%orb_false_elim. apply bool_decide_eq_false_1 in Hin.
  split; [exact Hin|]. cbn [existsb] in Hbelow.
  repeat (apply orb_false_elim in Hbelow as [? Hbelow]).
  rewrite !not_elem_of_cons in Hin. destruct Hin as (_ & ? & ? & _ & ? & ? & _).
  by repeat constructor.
Qed.

Lemma clean_old_models_lookup (fs : fsys) (p : string) :
  in_default_artifact p = false → (clean_old_models fs).2 !! p = fs !! p.
Proof.
  intros [Hp Hout]%outside_default_artifact.
  unfold clean_old_models, bind, remove_all. cbn beta iota.
  rewrite makedirs_lookup.
  - by apply (remove_all_lookup cleaned_targets fs p).
  - intros ->. apply Hp. unfold default_artifact_paths. rewrite elem_of_cons. by left.
  - change (Fs.parents "models") with (@nil string). apply not_elem_of_nil.
Qed.

Lemma cleanup_duplicates_lookup (fs : fsys) (p : string) :
  in_default_artifact p = false → (cleanup_duplicates fs).2 !! p = fs !! p.
Proof.
  intros [_ Hout]%outside_default_artifact. apply remove_all_lookup.
  unfold cleaned_targets in Hout.
  apply Forall_cons in Hout as [_ Hout]. by apply Forall_cons in Hout as [_ Hout].
Qed.


Lemma preserves_bind_ret2 {S A A' B C} (R : relation S) (m : M S A) (m' : M S A')
    (d : B) (k : B → M S C) :
  preserves R (bind m (λ _, bind m' (λ _, k d))) →
  preserves R (bind (bind m (λ _, bind m' (λ _, ret d))) k).
Proof.
  intros H s. specialize (H s). unfold bind, ret in *.
  destruct (m s) as [[] s1]; [|done]. by destruct (m' s1) as [[] s2].
Qed.

(** X14. A training run that is not a lesson run (regular, or admin
    without a lesson id), whether it succeeds or fails, changes the disk
    at no path outside the default artifact: the [models] directory, its
    three files, the two duplicates beside it, and what lay below the four
    names the run clears away (a directory among them is removed with its
    content). *)
Theorem regular_training_touches_default_artifact_only (est : estimators)
    (now : float) (is_admin_level : bool) (lesson_id : option string)
    (self : t) (fs : fsys) (p : string) :
  is_admin_level && truthy lesson_id = false →
  in_default_artifact p = false →
  (run_training est now is_admin_level lesson_id (self, fs)).2.2 !! p = fs !! p.
Proof.
  intros Hadm Hp.
  cut (preserves (disk_frame (λ p, in_default_artifact p = false))
         (run_training est now is_admin_level lesson_id)).
  { intros H. exact (H (self, fs) p Hp). }
  clear self fs p Hp. unfold run_training. rewrite Hadm.
  apply preserves_try_except; [typeclasses eauto| |intros; preserves_step].
  apply preserves_bind; [typeclasses eauto|preserves_step|intros s].
  case_bool_decide; [preserves_step|].
  apply preserves_bind_ret2. cbv beta.
  change (path_join "models" "asl_model.pkl") with "models/asl_model.pkl".
  change (path_join "models" "asl_model_tf") with "models/asl_model_tf".
  change (path_join "models" "training_metadata.json")
    with "models/training_metadata.json".
  repeat first
    [ apply on_disk_frame; intros fs p Hp;
      first [ by apply clean_old_models_lookup
            | by apply cleanup_duplicates_lookup
            | apply outside_default_artifact in Hp as [Hp _];
              unfold default_artifact_paths in Hp;
              rewrite !not_elem_of_cons in Hp;
              first [ apply makedirs_lookup;
                      [tauto|change (Fs.parents "models") with (@nil string);
                             apply not_elem_of_nil]
                    | apply write_lookup; tauto ] ]
    | apply preserves_modify; by intros s0 p Hp
    | preserves_step ].
Qed.

Lemma regular_training_touches_default_artifact_only_witness :
  (run_training Scenario.sklearn 0%float false None
     (Scenario.one_hello, Scenario.lesson1_only)).2.2
    !! "level_models/lesson_1/asl_model_tf"
  = Scenario.lesson1_only !! "level_models/lesson_1/asl_model_tf".
Proof.
  apply regular_training_touches_default_artifact_only; reflexivity.
Defined.
End DiskFrames.

Section LessonArtifacts.
Import EnhancedTrainingCollector.






End LessonArtifacts.
(** ** Entering a lesson *)

Section LessonEntry.
Import IsolatedLevelModelManager.

Lemma exists_lookup (fs : fsys) (p : string) (n : node) :
  fs !! p = Some n → Fs.exists_ fs p = true.
Proof. intros H. unfold Fs.exists_. rewrite H. by apply bool_decide_eq_true_2. Qed.

(** With the directory and its three files in place and loadable, the
    state after entering is fixed by the disk and the lesson alone. *)
Lemma enter_practice_mode_loads_all (fs : fsys) (lesson_id : string)
    (self : t) (n : node) (net : tf_model) (forest : rf_model) (j : metadata) :
  fs !! lesson_model_path self lesson_id = Some n →
  fs !! metadata_path self lesson_id = Some (JsonFile j) →
  fs !! tf_model_path self lesson_id = Some (SavedModel net) →
  fs !! rf_model_path self lesson_id = Some (PickleFile forest) →
  enter_practice_mode fs lesson_id self =
    (Return true,
     {| level_models_dir := level_models_dir self;
        current_level_labels := default [] (PRACTICE_LEVEL_GESTURES !! lesson_id);
        current_level_id := Some lesson_id;
        is_practice_mode := true;
        current_level_model := Some net;
        current_level_rf_model := Some forest;
        current_level_metadata := Some j |}).
Proof.
  intros Hdir Hmeta Htf Hrf.
  unfold enter_practice_mode, _load_level_model, try_except, bind, modify, get,
    ret, lift, Fs.json_load, Fs.keras_load_model, Fs.pickle_load.
  unfold metadata_path, tf_model_path, rf_model_path, lesson_model_path in *.
  cbn [level_models_dir set_current_level_id set_current_level_labels fst snd].
  rewrite (exists_lookup _ _ _ Hdir), (exists_lookup _ _ _ Hmeta),
    (exists_lookup _ _ _ Htf), (exists_lookup _ _ _ Hrf).
  cbn [negb]. rewrite Hmeta, Htf, Hrf. reflexivity.
Qed.

(** X16. When the artifact directory of a lesson holds a loadable network,
    a loadable forest and readable metadata, entering the lesson succeeds
    from any state of the manager, the result does not depend on what was
    held before (it is the result of entering after an exit), and the
    classifiers and the metadata held afterwards are the ones stored in
    that directory. *)
Theorem enter_practice_mode_complete_artifact (fs : fsys) (lesson_id : string)
    (self : t) (n : node) (net : tf_model) (forest : rf_model) (j : metadata) :
  fs !! lesson_model_path self lesson_id = Some n →
  fs !! metadata_path self lesson_id = Some (JsonFile j) →
  fs !! tf_model_path self lesson_id = Some (SavedModel net) →
  fs !! rf_model_path self lesson_id = Some (PickleFile forest) →
  enter_practice_mode fs lesson_id self
    = enter_practice_mode fs lesson_id (exit_practice_mode self) ∧
  (enter_practice_mode fs lesson_id self).1 = Return true ∧
  current_level_model (enter_practice_mode fs lesson_id self).2 = Some net ∧
  current_level_rf_model (enter_practice_mode fs lesson_id self).2 = Some forest ∧
  current_level_metadata (enter_practice_mode fs lesson_id self).2 = Some j ∧
  held_from_artifact fs lesson_id (enter_practice_mode fs lesson_id self).2.
Proof.
  intros Hdir Hmeta Htf Hrf.
  rewrite (enter_practice_mode_loads_all fs lesson_id self n net forest j) by done.
  rewrite (enter_practice_mode_loads_all fs lesson_id (exit_practice_mode self)
             n net forest j) by done.
  cbn [fst snd exit_practice_mode level_models_dir current_level_model
       current_level_rf_model current_level_metadata].
  split_and!; try reflexivity.
  unfold held_from_artifact, metadata_path, tf_model_path, rf_model_path,
    lesson_model_path in *.
  cbn [level_models_dir current_level_model current_level_rf_model
       current_level_metadata].
  split_and!; by intros ? [= <-].
Qed.

Lemma enter_practice_mode_complete_artifact_witness :
  enter_practice_mode Scenario.two_lessons "lesson_1" Scenario.mismatched
    = enter_practice_mode Scenario.two_lessons "lesson_1"
        (exit_practice_mode Scenario.mismatched) ∧
  current_level_model
    (enter_practice_mode Scenario.two_lessons "lesson_1" Scenario.mismatched).2
    = Some Scenario.net1.
Proof.
  pose proof (enter_practice_mode_complete_artifact Scenario.two_lessons "lesson_1"
                Scenario.mismatched Dir Scenario.net1 Scenario.forest1
                Scenario.lesson1_meta eq_refl eq_refl eq_refl eq_refl)
    as (Hsame & _ & Hnet & _).
  exact (conj Hsame Hnet).
Defined.
End LessonEntry.

Section LessonOutcome.
Import EnhancedTrainingCollector.

(** One level of [os.makedirs] succeeds where nothing but a directory
    stands, and leaves every other place free that was. *)
Lemma ensure_dir_returns (e : exn) (x : string) (fs : fsys) :
  fs !! x = None ∨ Fs.isdir fs x = true →
  (Fs.ensure_dir e x fs).1 = Return tt ∧
  Fs.isdir (Fs.ensure_dir e x fs).2 x = true ∧
  ∀ q, fs !! q = None ∨ Fs.isdir fs q = true →
       (Fs.ensure_dir e x fs).2 !! q = None ∨
       Fs.isdir (Fs.ensure_dir e x fs).2 q = true.
Proof.
  unfold Fs.ensure_dir, Fs.isdir. intros Hx.
  destruct (fs !! x) as [[]|] eqn:E; cbn [fst snd];
    try (by destruct Hx); rewrite ?E; split_and!; try done.
  - by rewrite lookup_insert_eq.
  - intros q Hq. destruct (decide (q = x)) as [->|Hne].
    + right. by rewrite lookup_insert_eq.
    + by rewrite lookup_insert_ne.
Qed.

(** [os.makedirs] succeeds when nothing but directories stands at the
    path and above it, and leaves a directory there. *)
Lemma makedirs_succeeds (fs : fsys) (d : string) :
  Fs.free_for_dir fs d →
  (Fs.makedirs d fs).1 = Return tt ∧ Fs.isdir (Fs.makedirs d fs).2 d = true.
Proof.
  unfold Fs.free_for_dir, Fs.makedirs. revert fs.
  induction (Fs.parents d) as [|x l IH]; intros fs Hfree; cbn [foldr app] in *.
  - apply Forall_cons in Hfree as [Hd _].
    by destruct (ensure_dir_returns FileExistsError d fs Hd) as (Hr & Hdir & _).
  - apply Forall_cons in Hfree as [Hx Hfree].
    destruct (ensure_dir_returns NotADirectoryError x fs Hx) as (Hr & _ & Hkeep).
    unfold bind.
    destruct (Fs.ensure_dir NotADirectoryError x fs) as [r fs1].
    cbn [fst snd] in *. subst r.
    apply IH. eapply Forall_impl; [exact Hfree|]. exact Hkeep.
Qed.

Lemma makedirs_returns (fs : fsys) (d : string) :
  Fs.free_for_dir fs d →
  ∃ n, Fs.makedirs d fs = (Return tt, (Fs.makedirs d fs).2) ∧
       (Fs.makedirs d fs).2 !! d = Some n.
Proof.
  intros [Hr Hdir]%makedirs_succeeds.
  destruct (Fs.makedirs d fs) as [r fs1]. cbn [fst snd] in *. subst r.
  unfold Fs.isdir in Hdir.
  destruct (fs1 !! d) as [n|]; [by exists n|discriminate].
Qed.

Lemma run_training_lesson_outcome (est : estimators) (now : float) (self : t)
    (fs : fsys) (l : string) (sp : split) (rf : rf_model * float)
    (tf : tf_model * float) :
  truthy (Some l) = true →
  (gather (lesson_gestures (Some l)) self).1 ≠ [] →
  Fs.free_for_dir fs ("level_models/" +:+ l) →
  train_test_split est (gather (lesson_gestures (Some l)) self).1
      (gather (lesson_gestures (Some l)) self).2 true = Return sp ∨
    (train_test_split est (gather (lesson_gestures (Some l)) self).1
       (gather (lesson_gestures (Some l)) self).2 true = Raise ValueError ∧
     train_test_split est (gather (lesson_gestures (Some l)) self).1
       (gather (lesson_gestures (Some l)) self).2 false = Return sp) →
  fit_random_forest est sp = Return rf →
  fit_neural_network est (length (lesson_gestures (Some l)))
    (gather (lesson_gestures (Some l)) self).1 sp = Return tf →
  can_write est (path_join ("level_models/" +:+ l) "asl_model.pkl") = true →
  can_write est (path_join ("level_models/" +:+ l) "asl_model_tf") = true →
  can_write est (path_join ("level_models/" +:+ l) "training_metadata.json") = true →
  run_training est now true (Some l) (self, fs) =
    (Return (true, py_max rf.2 tf.2),
     (set_training_labels ∅ (set_training_features ∅ self),
      <[path_join ("level_models/" +:+ l) "training_metadata.json" :=
          JsonFile {| meta_lesson_id := Some l;
                      meta_created_at := now;
                      meta_accuracy := py_max rf.2 tf.2;
                      meta_samples_count :=
                        length (gather (lesson_gestures (Some l)) self).1;
                      meta_gestures := Some (lesson_gestures (Some l));
                      meta_num_classes := length (lesson_gestures (Some l));
                      meta_admin_session := current_session self |}]>
        (<[path_join ("level_models/" +:+ l) "asl_model_tf" := SavedModel tf.1]>
           (<[path_join ("level_models/" +:+ l) "asl_model.pkl" := PickleFile rf.1]>
              (Fs.makedirs ("level_models/" +:+ l) fs).2)))).
Proof.
  intros Hl HX Hdir Hsplit Hrf Htf Hw1 Hw2 Hw3.
  destruct (makedirs_returns fs _ Hdir) as (n & Hmk & _).
  unfold run_training, try_except, bind at 1, get.
  rewrite Hl. cbn [andb default]. unfold id.
  set (X := (gather (lesson_gestures (Some l)) self).1) in *.
  set (y := (gather (lesson_gestures (Some l)) self).2) in *.
  cbn [fst snd].
  rewrite bool_decide_eq_false_2 by (by intros H0%nil_length_inv).
  unfold bind at 1. unfold bind at 1. unfold on_disk at 1. cbn [fst snd].
  rewrite Hmk at 1. unfold ret at 1.
  fold X y.
  erewrite bind_return; cycle 1.
  { unfold try_except_ValueError, lift.
    destruct Hsplit as [->|[-> ->]]; reflexivity. }
  erewrite bind_return; [|unfold lift; rewrite Hrf; reflexivity].
  erewrite bind_return; [|unfold on_disk, write; rewrite Hw1; reflexivity].
  erewrite bind_return; [|unfold lift; rewrite Htf; reflexivity].
  erewrite bind_return; [|unfold on_disk, write; rewrite Hw2; reflexivity].
  erewrite bind_return; [|unfold on_disk, write; rewrite Hw3; reflexivity].
  erewrite bind_return; [|reflexivity].
  erewrite bind_return; [|reflexivity].
  reflexivity.
Qed.

(** The three files of an artifact directory and the directory itself
    have four different names. *)
Lemma artifact_paths_distinct (d : string) :
  d ≠ EmptyString →
  d ≠ path_join d "asl_model.pkl" ∧ d ≠ path_join d "asl_model_tf" ∧
  d ≠ path_join d "training_metadata.json" ∧
  path_join d "asl_model.pkl" ≠ path_join d "asl_model_tf" ∧
  path_join d "asl_model.pkl" ≠ path_join d "training_metadata.json" ∧
  path_join d "asl_model_tf" ≠ path_join d "training_metadata.json".
Proof.
  intros Hd. destruct (path_join_relative d Hd) as (sep & Hsep & Hjoin).
  rewrite !Hjoin by done.
  assert (Hne : ∀ x y : string, x ≠ y → d +:+ sep +:+ x ≠ d +:+ sep +:+ y).
  { intros x y Hxy H. apply Hxy.
    by apply (inj (String.app sep)), (inj (String.app d)). }
  assert (Hdir : ∀ x : string, x ≠ EmptyString → d ≠ d +:+ sep +:+ x).
  { intros x Hx H. rewrite <-(string_app_empty_r d) in H at 1.
    apply (inj (String.app d)) in H. destruct Hsep as [-> | ->].
    - by apply Hx.
    - discriminate. }
  split_and!; first [by apply Hdir | by apply Hne].
Qed.
End LessonOutcome.

Section LessonRoundTrip.
Import EnhancedTrainingCollector IsolatedLevelModelManager.

(** X17. Training a lesson and then practising it: when the collector
    holds a sample of some gesture of the lesson, the lesson id does not
    start with a slash, nothing but directories stands at the lesson
    directory and above it, and the split, the fits and the writes
    succeed, the complete-level handler answers success and a practice
    start for that lesson then succeeds on the disk it left, holding
    exactly the network and the forest just fitted; class indices are
    resolved against the vocabulary the run trained on, every later frame
    is classified by the fitted network, and the default model is the one
    held before. *)
Theorem lesson_training_then_practice (est : estimators) (now : float)
    (sid l : string) (srv : Server.t) (g : string)
    (sp : split) (rf : rf_model * float) (tf : tf_model * float) :
  Server.is_admin_session sid = true →
  truthy (Some l) = true →
  (∀ r, l ≠ String "/"%char r) →
  level_models_dir (Server.isolated_level_manager srv) = "level_models" →
  g ∈ lesson_gestures (Some l) →
  0 < sample_count (Server.training_collector srv) g →
  Fs.free_for_dir (Server.disk srv) ("level_models/" +:+ l) →
  train_test_split est
      (gather (lesson_gestures (Some l)) (Server.training_collector srv)).1
      (gather (lesson_gestures (Some l)) (Server.training_collector srv)).2 true
    = Return sp ∨
    (train_test_split est
       (gather (lesson_gestures (Some l)) (Server.training_collector srv)).1
       (gather (lesson_gestures (Some l)) (Server.training_collector srv)).2 true
     = Raise ValueError ∧
     train_test_split est
       (gather (lesson_gestures (Some l)) (Server.training_collector srv)).1
       (gather (lesson_gestures (Some l)) (Server.training_collector srv)).2 false
     = Return sp) →
  fit_random_forest est sp = Return rf →
  fit_neural_network est (length (lesson_gestures (Some l)))
    (gather (lesson_gestures (Some l)) (Server.training_collector srv)).1 sp
    = Return tf →
  can_write est (path_join ("level_models/" +:+ l) "asl_model.pkl") = true →
  can_write est (path_join ("level_models/" +:+ l) "asl_model_tf") = true →
  can_write est (path_join ("level_models/" +:+ l) "training_metadata.json") = true →
  ∃ trained practising,
    Server.complete_admin_level_training est now (Some sid) (Some l) srv
      = (Server.Ok200, py_max rf.2 tf.2, trained) ∧
    Server.start_practice_mode (Some l) trained = (Server.Ok200, practising) ∧
    Server.asl_model practising = Server.asl_model srv ∧
    is_practice_mode (Server.isolated_level_manager practising) = true ∧
    current_level_id (Server.isolated_level_manager practising) = Some l ∧
    current_level_model (Server.isolated_level_manager practising) = Some tf.1 ∧
    current_level_rf_model (Server.isolated_level_manager practising) = Some rf.1 ∧
    gesture_labels (Server.isolated_level_manager practising)
      = lesson_gestures (Some l) ∧
    ∀ a out gesture,
      tf.1 a = Return out →
      lesson_gestures (Some l) !! tf_predicted_class out = Some gesture →
      Server.predict_features practising a = Return (gesture, tf_confidence out).
Proof.
  intros Hsid Hl Hrel Hdir Hg Hcount Hdisk Hsplit Hrf Htf Hw1 Hw2 Hw3.
  assert (HX : (gather (lesson_gestures (Some l))
                  (Server.training_collector srv)).1 ≠ []).
  { intros HX. pose proof (gather_member (Server.training_collector srv) _ g Hg) as H.
    rewrite HX in H. simpl in H. lia. }
  assert (Htruthy : truthy (Some sid) = true).
  { destruct sid; [discriminate|reflexivity]. }
  pose proof (run_training_lesson_outcome est now _ _ l sp rf tf
                Hl HX Hdisk Hsplit Hrf Htf Hw1 Hw2 Hw3) as Hrun.
  set (d := "level_models/" +:+ l) in *.
  assert (Hd : d ≠ EmptyString) by done.
  destruct (artifact_paths_distinct d Hd) as (Hd1 & Hd2 & Hd3 & H12 & H13 & H23).
  destruct (makedirs_returns (Server.disk srv) d Hdisk) as (n & _ & Hmk).
  set (fs0 := (Fs.makedirs d (Server.disk srv)).2) in *.
  set (K1 := path_join d "asl_model.pkl") in *.
  set (K2 := path_join d "asl_model_tf") in *.
  set (K3 := path_join d "training_metadata.json") in *.
  set (fs3 := <[K3 := _]> (<[K2 := _]> (<[K1 := _]> fs0))) in Hrun.
  assert (Hfd : fs3 !! d = Some n).
  { unfold fs3. by rewrite !lookup_insert_ne. }
  assert (Hf1 : fs3 !! K1 = Some (PickleFile rf.1)).
  { unfold fs3. rewrite !lookup_insert_ne by done. apply lookup_insert_eq. }
  assert (Hf2 : fs3 !! K2 = Some (SavedModel tf.1)).
  { unfold fs3. rewrite lookup_insert_ne by done. apply lookup_insert_eq. }
  assert (Hf3 : ∃ j, fs3 !! K3 = Some (JsonFile j) ∧
                     meta_gestures j = Some (lesson_gestures (Some l))).
  { eexists. split; [apply lookup_insert_eq|reflexivity]. }
  destruct Hf3 as (j & Hf3 & Hj).
  clearbody fs3.
  pose proof (enter_practice_mode_loads_all fs3 l
                (Server.isolated_level_manager srv) n tf.1 rf.1 j) as Henter.
  unfold metadata_path, tf_model_path, rf_model_path, lesson_model_path in Henter.
  rewrite Hdir, (lesson_directory_agrees l Hrel) in Henter.
  specialize (Henter Hfd Hf3 Hf2 Hf1).
  eexists _, _. split.
  { unfold Server.complete_admin_level_training.
    rewrite Htruthy, Hl, Hsid. cbn [andb negb]. rewrite Hrun. reflexivity. }
  split.
  { unfold Server.start_practice_mode. rewrite Hl. cbn [negb Server.disk].
    fold d. rewrite (exists_lookup _ _ _ Hfd). cbn [negb Server.isolated_level_manager].
    rewrite Henter. reflexivity. }
  cbn [Server.with_manager Server.asl_model Server.isolated_level_manager
       is_practice_mode current_level_id current_level_model
       current_level_rf_model].
  split_and!; try reflexivity.
  - unfold gesture_labels. cbn [current_level_metadata]. by rewrite Hj.
  - intros a out gesture Hout Hlookup.
    unfold Server.predict_features, predict_with_level_model, level_prediction,
      gesture_labels.
    cbn [Server.with_manager Server.isolated_level_manager is_practice_mode
         current_level_model current_level_metadata negb].
    rewrite Hout. cbn [obind]. rewrite Hj. unfold resolve, list_get.
    rewrite bool_decide_eq_true_2 by (by eapply lookup_lt_Some).
    by rewrite Hlookup.
Qed.

Lemma lesson_training_then_practice_witness :
  (Server.start_practice_mode (Some "lesson_2")
     (Server.complete_admin_level_training Scenario.sklearn 0%float
        (Some "admin_level_1") (Some "lesson_2") Scenario.admin_happy).2).1
  = Server.Ok200.
Proof.
  refine (match lesson_training_then_practice Scenario.sklearn 0%float
                  "admin_level_1" "lesson_2" Scenario.admin_happy "Happy"
                  {| X_train := _; X_test := _; y_train := _; y_test := _ |}
                  (Scenario.forest1, 1%float) (Scenario.net1, 1%float)
                  _ _ _ _ _ _ _ _ _ _ _ _ _ with
          | ex_intro _ trained
              (ex_intro _ practising (conj Htrained (conj Hpractising _))) => _
          end).
  - reflexivity.
  - reflexivity.
  - intros r. discriminate.
  - reflexivity.
  - apply (list_elem_of_lookup_2 _ 0). vm_compute. reflexivity.
  - vm_compute. lia.
  - unfold Fs.free_for_dir.
    change (Fs.parents ("level_models/" +:+ "lesson_2")
            ++ ["level_models/" +:+ "lesson_2"])
      with ["level_models"; "level_models/lesson_2"].
    apply Forall_cons. split; [left; reflexivity|].
    apply Forall_cons. split; [left; reflexivity|]. apply Forall_nil_2.
  - left. reflexivity.
  - reflexivity.
  - reflexivity.
  - reflexivity.
  - reflexivity.
  - reflexivity.
  - rewrite Htrained. cbn [snd]. rewrite Hpractising. reflexivity.
Defined.
End LessonRoundTrip.

Section LessonEntered.
Import IsolatedLevelModelManager.

(** X18. Whenever [enter_practice_mode] answers true, the manager is in
    practice mode for the requested lesson with the lesson's label list,
    [get_level_info] reports a model and the message names the lesson,
    and the artifact directory exists; the model reported was loaded from
    one of the two model files or was already held before the call. *)
Theorem enter_practice_mode_success (fs : fsys) (lesson_id : string) (self self' : t) :
  enter_practice_mode fs lesson_id self = (Return true, self') →
  is_practice_mode self' = true ∧
  current_level_id self' = Some lesson_id ∧
  current_level_labels self' = default [] (PRACTICE_LEVEL_GESTURES !! lesson_id) ∧
  info_has_level_model (get_level_info self') = true ∧
  info_message (get_level_info self') = "Practice mode: " +:+ lesson_id ∧
  Fs.exists_ fs (lesson_model_path self lesson_id) = true ∧
  (Fs.exists_ fs (tf_model_path self lesson_id) = true ∨
   Fs.exists_ fs (rf_model_path self lesson_id) = true ∨
   current_level_model self ≠ None ∨ current_level_rf_model self ≠ None).
Proof.
  unfold enter_practice_mode, _load_level_model, try_except, bind, modify, get,
    ret, lift, get_level_info.
  unfold metadata_path, tf_model_path, rf_model_path, lesson_model_path.
  cbn [level_models_dir set_current_level_id set_current_level_labels fst snd].
  set (d := path_join (level_models_dir self) lesson_id).
  destruct (Fs.exists_ fs d); cbn [negb]; [|discriminate].
  destruct (Fs.exists_ fs (path_join d "training_metadata.json"));
  [destruct (Fs.json_load fs _); [|discriminate]|];
  (destruct (Fs.exists_ fs (path_join d "asl_model_tf"));
   [destruct (Fs.keras_load_model fs _)|]);
  (destruct (Fs.exists_ fs (path_join d "asl_model.pkl"));
   [destruct (Fs.pickle_load fs _)|]);
  cbn; destruct (current_level_model self) eqn:E1;
  destruct (current_level_rf_model self) eqn:E2; cbn;
  intros [= <-]; cbn; rewrite ?E1, ?E2; split_and!;
  try reflexivity; try discriminate; auto.
Qed.

Lemma enter_practice_mode_success_witness :
  is_practice_mode Scenario.in_lesson1 = true ∧
  current_level_id Scenario.in_lesson1 = Some "lesson_1".
Proof.
  pose proof (enter_practice_mode_success Scenario.two_lessons "lesson_1" init
                Scenario.in_lesson1 eq_refl) as (Hmode & Hid & _).
  exact (conj Hmode Hid).
Defined.
End LessonEntered.

(** ** Practice mode *)

Section PracticeRouting.
Import IsolatedLevelModelManager.

Lemma enter_practice_mode_flag (fs : fsys) (lesson_id : string) (self : t) :
  (enter_practice_mode fs lesson_id self).1 = Return true ∧
    is_practice_mode (enter_practice_mode fs lesson_id self).2 = true ∨
  (enter_practice_mode fs lesson_id self).1 = Return false ∧
    is_practice_mode (enter_practice_mode fs lesson_id self).2 = is_practice_mode self.
Proof.
  rewrite enter_practice_mode_unfold.
  pose proof (load_level_model_context fs lesson_id
                (set_current_level_labels
                   (default [] (PRACTICE_LEVEL_GESTURES !! lesson_id))
                   (set_current_level_id (Some lesson_id) self))) as (_ & _ & _ & Hflag).
  destruct (_load_level_model _ _ _) as [[[|]|e] s]; cbn [fst snd] in *; auto.
Qed.

(** X19. The practice handlers and the prediction loop: a practice start,
    whatever its outcome, leaves the default model, the collector and the
    disk as they were; after a start that answered 200 every frame is
    classified by the lesson manager, which never raises; after a start
    that was refused or failed while translation was in normal mode every
    frame is still classified by the default model; and after a stop every
    frame is classified by the default model again. *)
Theorem practice_mode_routing (lesson_id : option string) (srv : Server.t) :
  let reply := Server.start_practice_mode lesson_id srv in
  Server.asl_model reply.2 = Server.asl_model srv ∧
  Server.training_collector reply.2 = Server.training_collector srv ∧
  Server.disk reply.2 = Server.disk srv ∧
  (reply.1 = Server.Ok200 →
   ∀ a, Server.predict_features reply.2 a =
        Return (predict_with_level_model (Server.isolated_level_manager reply.2) a)) ∧
  (reply.1 ≠ Server.Ok200 →
   is_practice_mode (Server.isolated_level_manager srv) = false →
   ∀ a, Server.predict_features reply.2 a = ASLModel.predict (Server.asl_model srv) a) ∧
  (∀ a, Server.predict_features (Server.stop_practice_mode reply.2).2 a =
        ASLModel.predict (Server.asl_model srv) a).
Proof.
  assert (Hrejected : ∀ st,
            st ≠ Server.Ok200 →
            let reply := (st, srv) in
            Server.asl_model reply.2 = Server.asl_model srv ∧
            Server.training_collector reply.2 = Server.training_collector srv ∧
            Server.disk reply.2 = Server.disk srv ∧
            (reply.1 = Server.Ok200 →
             ∀ a, Server.predict_features reply.2 a =
                  Return (predict_with_level_model
                            (Server.isolated_level_manager reply.2) a)) ∧
            (reply.1 ≠ Server.Ok200 →
             is_practice_mode (Server.isolated_level_manager srv) = false →
             ∀ a, Server.predict_features reply.2 a
                  = ASLModel.predict (Server.asl_model srv) a) ∧
            (∀ a, Server.predict_features (Server.stop_practice_mode reply.2).2 a =
                  ASLModel.predict (Server.asl_model srv) a)).
  { intros st Hst. cbn [fst snd]. split_and!; try done.
    intros _ Hoff a. unfold Server.predict_features. by rewrite Hoff. }
  unfold Server.start_practice_mode.
  destruct lesson_id as [lesson|]; [|by apply Hrejected].
  destruct (negb (truthy (Some lesson))); [by apply Hrejected|].
  destruct (negb (Fs.exists_ _ _)); [by apply Hrejected|].
  clear Hrejected.
  destruct (enter_practice_mode_flag (Server.disk srv) lesson
              (Server.isolated_level_manager srv)) as [[Hr Hflag]|[Hr Hflag]];
    destruct (enter_practice_mode _ _ _) as [r m]; cbn [fst snd] in *; subst r;
    unfold Server.predict_features;
    cbn [fst snd Server.with_manager Server.asl_model Server.training_collector
         Server.disk Server.isolated_level_manager Server.stop_practice_mode
         exit_practice_mode is_practice_mode];
    split_and!; try done.
  - intros _ a. by rewrite Hflag.
  - intros _ Hoff a. by rewrite Hflag, Hoff.
Qed.

(** X20. A lesson prediction is either a label of the label list in force
    (the gestures of the metadata, else the lesson definition) or one of
    the three pairs [("No practice mode", 0.0)], [("No model", 0.0)] and
    [("Error", 0.0)]. *)
Theorem predict_with_level_model_label (self : t) (a : features) :
  (predict_with_level_model self a).1 ∈ gesture_labels self ∨
  predict_with_level_model self a = ("No practice mode", 0%float) ∨
  predict_with_level_model self a = ("No model", 0%float) ∨
  predict_with_level_model self a = ("Error", 0%float).
Proof.
  assert (Hres : ∀ c conf,
             match resolve (gesture_labels self) c conf with
             | Return r => r.1 ∈ gesture_labels self ∨ r = ("No model", 0%float)
             | Raise _ => True
             end).
  { intros c conf. unfold resolve, list_get. case_bool_decide; [|by right].
    destruct (gesture_labels self !! c) as [gesture|] eqn:E; cbn [obind]; [|done].
    left. by eapply list_elem_of_lookup_2. }
  unfold predict_with_level_model, level_prediction.
  destruct (is_practice_mode self); cbn [negb]; [|auto].
  destruct (current_level_model self) as [net|].
  - destruct (net a) as [out|e]; cbn [obind]; [|auto].
    specialize (Hres (tf_predicted_class out) (tf_confidence out)).
    destruct (resolve _ _ _); [destruct Hres; auto|auto].
  - destruct (current_level_rf_model self) as [forest|]; [|auto].
    destruct (forest a) as [out|e]; cbn [obind]; [|auto].
    specialize (Hres (rf_prediction out) (rf_confidence out)).
    destruct (resolve _ _ _); [destruct Hres; auto|auto].
Qed.

(** X21. While a lesson network is held the forest is never consulted:
    replacing or dropping the forest changes no prediction, and a network
    that raises gives [("Error", 0.0)] in practice mode, with no fallback
    to the forest. *)
Theorem lesson_network_shadows_forest (self : t) (net : tf_model) (a : features) :
  current_level_model self = Some net →
  (∀ forest, predict_with_level_model (set_current_level_rf_model forest self) a
             = predict_with_level_model self a) ∧
  (∀ e, is_practice_mode self = true → net a = Raise e →
        predict_with_level_model self a = ("Error", 0%float)).
Proof.
  intros Hnet. split.
  - intros forest. unfold predict_with_level_model, level_prediction, gesture_labels.
    cbn [set_current_level_rf_model is_practice_mode current_level_model
         current_level_metadata current_level_labels].
    by rewrite Hnet.
  - intros e Hon Hraise. unfold predict_with_level_model, level_prediction.
    by rewrite Hon, Hnet, Hraise.
Qed.

Lemma lesson_network_shadows_forest_witness :
  predict_with_level_model
    (set_current_level_rf_model (Some Scenario.forest1) Scenario.mismatched)
    Scenario.flat_hand
  = predict_with_level_model Scenario.mismatched Scenario.flat_hand.
Proof.
  exact (proj1 (lesson_network_shadows_forest Scenario.mismatched Scenario.net7
                  Scenario.flat_hand eq_refl) (Some Scenario.forest1)).
Defined.

(** X22. [filter_prediction_for_practice] hands the main prediction back
    unchanged outside practice mode, with an empty label list, whenever a
    lesson model is held, and for a gesture of the lesson; its only other
    answer is the practice hint with confidence 0.3, so its last return
    of [("Unknown", 0.0)] is never taken. *)
Theorem filter_prediction_for_practice_passes (self : t)
    (main_gesture : string) (main_confidence : float) :
  (is_practice_mode self = false ∨ current_level_labels self = [] ∨
   info_has_level_model (get_level_info self) = true ∨
   main_gesture ∈ current_level_labels self →
   filter_prediction_for_practice self main_gesture main_confidence
   = (main_gesture, main_confidence)) ∧
  (filter_prediction_for_practice self main_gesture main_confidence
   = (main_gesture, main_confidence) ∨
   filter_prediction_for_practice self main_gesture main_confidence
   = ("Practice: " +:+ join ", " (current_level_labels self), 0.3%float)).
Proof.
  unfold filter_prediction_for_practice, get_level_info, info_has_level_model.
  destruct (is_practice_mode self); cbn [negb]; [|by auto].
  destruct (current_level_labels self) as [|x l] eqn:El; [by auto|].
  destruct (current_level_model self), (current_level_rf_model self); try by auto.
  destruct (contains (x :: l) main_gesture) eqn:Ec; [by auto|].
  split; [|by auto].
  intros [?|[?|[?|Hin]]]; try discriminate.
  unfold contains in Ec. by rewrite bool_decide_eq_true_2 in Ec.
Qed.
End PracticeRouting.

(** ** Connections *)

Section Connections.
Import ConnectionManager.

(** [l.remove(x)] on a list that holds [x] drops its first occurrence. *)
Lemma list_remove_member (l : list nat) (x : nat) :
  x ∈ l →
  ∃ before after, l = before ++ x :: after ∧ (x ∉ before) ∧
                  list_remove l x = Return (before ++ after).
Proof.
  induction l as [|y l IH]; intros Hx; [by apply elem_of_nil in Hx|].
  cbn [list_remove]. case_bool_decide as Hy.
  - subst y. exists [], l. split_and!; [done|apply not_elem_of_nil|done].
  - apply elem_of_cons in Hx as [->|Hx]; [done|].
    destruct (IH Hx) as (before & after & -> & Hnot & ->). cbn [obind].
    exists (y :: before), after. split_and!; [done| |done].
    apply not_elem_of_cons. split; [congruence|done].
Qed.

Lemma list_remove_middle (before after : list nat) (x : nat) :
  x ∉ before → list_remove (before ++ x :: after) x = Return (before ++ after).
Proof.
  induction before as [|y before IH]; intros Hx; cbn [list_remove app].
  - by rewrite bool_decide_eq_true_2.
  - apply not_elem_of_cons in Hx as [Hne Hx].
    rewrite bool_decide_eq_false_2 by done. by rewrite IH.
Qed.

(** X23. [disconnect] never raises: the membership test guards each
    [remove].  Called for a training socket that is in the training list,
    it drops the first entry of that socket from the training list and
    keeps every other entry, in order, and the translation list;
    otherwise it keeps the training list and drops the first entry of the
    socket from the translation list, keeping every other entry in order,
    or changes nothing when the socket is not there. *)
Theorem disconnect_removes_first_registration (websocket : nat)
    (is_training : bool) (self : t) :
  ∃ self',
    disconnect websocket is_training self = (Return tt, self') ∧
    (is_training = true ∧ websocket ∈ training_connections self →
     active_connections self' = active_connections self ∧
     ∃ before after,
       training_connections self = before ++ websocket :: after ∧
       (websocket ∉ before) ∧
       training_connections self' = before ++ after) ∧
    (¬ (is_training = true ∧ websocket ∈ training_connections self) →
     training_connections self' = training_connections self ∧
     (websocket ∈ active_connections self →
      ∃ before after,
        active_connections self = before ++ websocket :: after ∧
        (websocket ∉ before) ∧
        active_connections self' = before ++ after) ∧
     (websocket ∉ active_connections self → self' = self)).
Proof.
  unfold disconnect, bind, get, lift, modify. cbn beta iota.
  destruct (decide (is_training = true ∧ websocket ∈ training_connections self))
    as [[-> Hin]|Hno].
  - rewrite bool_decide_eq_true_2 by done. cbn [andb].
    destruct (list_remove_member _ _ Hin) as (before & after & Hl & Hnot & Hr).
    eexists. split; [rewrite Hr; reflexivity|].
    cbn [active_connections training_connections].
    split; [by eauto 6|]. intros Hno. by destruct Hno.
  - assert (Hguard : is_training
                     && bool_decide (websocket ∈ training_connections self) = false).
    { destruct is_training; [|done]. cbn [andb].
      apply bool_decide_eq_false_2. intros Hin. by apply Hno. }
    destruct (decide (websocket ∈ active_connections self)) as [Hact|Hact].
    + destruct (list_remove_member _ _ Hact) as (before & after & Hl & Hnot & Hr).
      eexists. split; [by rewrite Hguard, bool_decide_eq_true_2, Hr|].
      cbn [active_connections training_connections].
      split; [done|]. intros _. split_and!; [done|by eauto 6|done].
    + exists self. split; [by rewrite Hguard, bool_decide_eq_false_2|].
      split; [done|]. intros _. done.
Qed.

(** The two lists after a run of [connect] calls. *)
Lemma connect_all_lists (calls : list (nat * bool)) (self : t) :
  connect_all calls self =
    {| active_connections := active_connections self ++ sockets false calls;
       training_connections := training_connections self ++ sockets true calls |}.
Proof.
  unfold connect_all, sockets. revert self.
  induction calls as [|[ws flag] calls IH]; intros self; cbn [foldl].
  - cbn. rewrite !app_nil_r. by destruct self.
  - rewrite IH. unfold connect. cbn [fst snd].
    destruct flag; cbn [active_connections training_connections];
      rewrite !filter_cons; cbn [snd];
      repeat case_decide; try done; cbn [map fst];
      by rewrite <-?app_assoc.
Qed.

(** X24. A socket that connects while it is not in its list, whatever
    sockets connect after it, is released by [disconnect] with the same
    flag: the two lists are then what the later connections alone would
    have made them, every other registration kept in its order. *)
Theorem connect_disconnect_round_trip (websocket : nat) (is_training : bool)
    (calls : list (nat * bool)) (self : t) :
  websocket ∉ (if is_training then training_connections self
               else active_connections self) →
  disconnect websocket is_training
    (connect_all calls (connect websocket is_training self))
  = (Return tt, connect_all calls self).
Proof.
  intros Hnew. rewrite !connect_all_lists.
  unfold disconnect, connect, bind, get, lift, modify.
  destruct self as [act tr]. cbn [active_connections training_connections] in *.
  destruct is_training; cbn beta iota;
    cbn [active_connections training_connections andb].
  - rewrite bool_decide_eq_true_2 by (rewrite !elem_of_app, elem_of_cons; auto).
    rewrite <-app_assoc. cbn [app]. by rewrite list_remove_middle.
  - rewrite bool_decide_eq_true_2 by (rewrite !elem_of_app, elem_of_cons; auto).
    rewrite <-app_assoc. cbn [app]. by rewrite list_remove_middle.
Qed.

Lemma connect_disconnect_round_trip_witness :
  disconnect 7 false (connect 3 false (connect 7 false init))
  = (Return tt, connect 3 false init).
Proof.
  apply (connect_disconnect_round_trip 7 false [(3, false)] init). cbn.
  apply not_elem_of_nil.
Defined.
End Connections.
